(** * ZiadSupplies: the order store, the catalogue projection, the notifier
      and the order endpoint, embedded from [src/app/*.py].

    Conventions of the embedding.
    - A Python [str] is its UTF-8 encoding in a Rocq [string]; a character is a
      lead byte together with its continuation bytes ([Py.chars]).  A lone
      surrogate, which a JSON escape puts into a [str], is written in the
      same three-byte form (ED A0..BF 80..BF), so that the strings the
      driver cannot encode are strings of the model ([Py.encode_error]).
    - JSON values are the inductive [Py.pyval]; a JSON object is an association
      list in insertion order.
    - Python exceptions are values of [Py.exn]; a computation that may raise
      returns a [Py.result].
    - The SQLite file is a record of four tables, each a list of rows in rowid
      order, with the AUTOINCREMENT counters of [sqlite_sequence].  Integers a
      caller binds to a statement must fit SQLite's signed 64-bit INTEGER
      (the driver raises [OverflowError] otherwise).  The limits of the engine
      that a request can reach are those of [Engine]: the statement of
      [_get_products_by_ids] grows with the cart, and the row of [orders] with
      the customer's texts.  The statements whose size is fixed by the source
      (the schema, the seed catalogue, the other statements, the small rows of
      [order_items]) are taken to be within them.  Row ids handed out by the
      engine are taken from [Z], so exhaustion of the rowid space and I/O
      errors are outside the model.
    - Prices are REAL columns read back as Python floats.  Their arithmetic is
      kept abstract ([PriceArith]): sums are folded in the order the code adds
      them, so no law of exact arithmetic is assumed. *)

From Stdlib Require Import ZArith List String Ascii Bool Lia.
From Stdlib Require Import Sorted Permutation QArith.
From Stdlib Require DecimalString OrderedTypeEx.
Import ListNotations.

#[local] Set Warnings "-register-all".

#[local] Open Scope string_scope.
#[local] Open Scope Z_scope.

(* ================================================================== *)
(** ** Python values, exceptions and the builtins the code relies on    *)
(* ================================================================== *)

Module Py.

(** Exception classes that can travel through the modelled code.  The
    message of a [ValueError] is kept because the endpoint echoes it; a
    [UnicodeEncodeError] is a [ValueError] (its subclass) with the message
    the codec gives it.  [IntegrityError], [OperationalError] and [DataError]
    are those of [sqlite3]. *)
Inductive exn : Type :=
| ValueError (msg : string)
| TypeError
| KeyError (key : string)
| AttributeError
| OverflowError
| IntegrityError
| OperationalError (msg : string)
| DataError (msg : string)
| OtherError (msg : string).

(** [isinstance(e, ValueError)], as the endpoint's first handler tests it. *)
Definition is_ValueError (e : exn) : bool :=
  match e with ValueError _ => true | _ => false end.

Inductive result (A : Type) : Type :=
| Ok (a : A)
| Raise (e : exn).
Arguments Ok {A} a.
Arguments Raise {A} e.

Definition bind {A B} (r : result A) (k : A -> result B) : result B :=
  match r with Ok a => k a | Raise e => Raise e end.

(** Finite binary floating-point values are [m * 2^e]; the two infinities
    and NaN complete what [json.loads] can produce. *)
Inductive pyfloat : Type :=
| FFinite (m e : Z)
| FInf (negative : bool)
| FNaN.


Inductive pyval : Type :=
| PNone
| PBool (b : bool)
| PInt (z : Z)
| PFloat (f : pyfloat)
| PStr (s : string)
| PList (l : list pyval)
| PDict (d : list (string * pyval)).

(** *** Strings *)

Definition byte (n : nat) : ascii := ascii_of_nat n.
Definition str1 (a : nat) : string := String (byte a) "".
Definition str2 (a b : nat) : string := String (byte a) (str1 b).
Definition str3 (a b c : nat) : string := String (byte a) (str2 b c).

(** A UTF-8 continuation byte is [10xxxxxx]. *)
Definition is_continuation (c : ascii) : bool :=
  let n := nat_of_ascii c in (128 <=? n)%nat && (n <=? 191)%nat.

Definition starts_with_continuation (s : string) : bool :=
  match s with
  | EmptyString => false
  | String c _ => is_continuation c
  end.

(** The characters of a string, each as the bytes that encode it. *)
Fixpoint chars (s : string) : list string :=
  match s with
  | EmptyString => []
  | String c rest =>
      match chars rest with
      | k :: ks =>
          if starts_with_continuation k then String c k :: ks
          else String c "" :: k :: ks
      | [] => [String c ""]
      end
  end.

Definition unchars (l : list string) : string :=
  fold_right append "" l.

(** [len(s)]: the number of characters. *)
Definition len (s : string) : nat := List.length (chars s).

Definition mem_string (x : string) (l : list string) : bool :=
  existsb (String.eqb x) l.

(** The characters [str.isspace] accepts: U+0009..000D, U+001C..001F, U+0020,
    U+0085, U+00A0, U+1680, U+2000..200A, U+2028, U+2029, U+202F, U+205F and
    U+3000. *)
Definition whitespace : list string :=
  map str1 [9; 10; 11; 12; 13; 28; 29; 30; 31; 32]%nat
  ++ [str2 194 133; str2 194 160; str3 225 154 128]
  ++ map (str3 226 128) [128; 129; 130; 131; 132; 133; 134; 135; 136; 137; 138]%nat
  ++ [str3 226 128 168; str3 226 128 169; str3 226 128 175;
      str3 226 129 159; str3 227 128 128].

Definition is_space (ch : string) : bool := mem_string ch whitespace.

Fixpoint lstrip_chars (l : list string) : list string :=
  match l with
  | ch :: rest => if is_space ch then lstrip_chars rest else l
  | [] => []
  end.

(** [s.strip()] with no argument. *)
Definition strip (s : string) : string :=
  unchars (rev (lstrip_chars (rev (lstrip_chars (chars s))))).

(** [sub in s] for two strings: [sub] occurs as a substring. *)
Fixpoint contains (sub s : string) : bool :=
  String.prefix sub s ||
  match s with
  | EmptyString => false
  | String _ rest => contains sub rest
  end.

(** The line boundaries of [str.splitlines]: LF, CR, VT, FF, FS, GS, RS,
    NEL, LS and PS. *)
Definition line_boundaries : list string :=
  map str1 [10; 13; 11; 12; 28; 29; 30]%nat
  ++ [str2 194 133; str3 226 128 168; str3 226 128 169].

Definition is_line_boundary (ch : string) : bool := mem_string ch line_boundaries.

(** [len(s.splitlines())]: a line ends at each boundary (CR LF counting
    once), and a last line without terminator counts when it is not empty. *)
Fixpoint count_lines (l : list string) (pending : bool) : nat :=
  match l with
  | [] => if pending then 1%nat else 0%nat
  | ch :: rest =>
      if is_line_boundary ch then
        match rest with
        | ch' :: rest' =>
            if String.eqb ch (str1 13) && String.eqb ch' (str1 10)
            then S (count_lines rest' false)
            else S (count_lines rest false)
        | [] => 1%nat
        end
      else count_lines rest true
  end.

Definition splitlines_len (s : string) : nat := count_lines (chars s) false.

(** [str(z)] for an integer. *)
Definition str_of_Z (z : Z) : string :=
  DecimalString.NilZero.string_of_int (Z.to_int z).

(** *** Code points *)

(** The code point a character's bytes encode, in the shortest form only.
    The three-byte form covers U+D800..DFFF, the surrogates. *)
Definition code_point (ch : string) : option Z :=
  match map (fun c => Z.of_nat (nat_of_ascii c)) (list_ascii_of_string ch) with
  | [a] => if a <? 128 then Some a else None
  | [a; b] =>
      if (194 <=? a) && (a <? 224) then Some ((a - 192) * 64 + (b - 128)) else None
  | [a; b; c] =>
      let cp := (a - 224) * 4096 + (b - 128) * 64 + (c - 128) in
      if (224 <=? a) && (a <? 240) && (2048 <=? cp) then Some cp else None
  | [a; b; c; d] =>
      let cp := (a - 240) * 262144 + (b - 128) * 4096 + (c - 128) * 64 + (d - 128) in
      if (240 <=? a) && (a <? 245) && (65536 <=? cp) && (cp <=? 1114111)
      then Some cp else None
  | _ => None
  end.

Definition is_surrogate (ch : string) : bool :=
  match code_point ch with
  | Some cp => (55296 <=? cp) && (cp <=? 57343)
  | None => false
  end.

Definition hex_digit (n : Z) : string :=
  String (ascii_of_nat (Z.to_nat (if n <? 10 then 48 + n else 87 + n))) "".

(** [%04x] of a code point below 65536. *)
Definition hex4 (n : Z) : string :=
  hex_digit (n / 4096) ++ hex_digit (n / 256 mod 16)
  ++ hex_digit (n / 16 mod 16) ++ hex_digit (n mod 16).

(** The number of surrogates [l] starts with. *)
Fixpoint surrogate_run (l : list string) : nat :=
  match l with
  | ch :: rest => if is_surrogate ch then S (surrogate_run rest) else O
  | [] => O
  end.

(** [str(err)] for the [UnicodeEncodeError] of the UTF-8 codec, which stops
    at the first surrogate and reports it with the surrogates that follow it
    directly; positions count characters from [position] on. *)
Fixpoint encode_error_from (position : Z) (l : list string) : option string :=
  match l with
  | [] => None
  | ch :: rest =>
      if is_surrogate ch then
        Some (match surrogate_run rest, code_point ch with
              | O, Some cp =>
                  "'utf-8' codec can't encode character '\u" ++ hex4 cp
                  ++ "' in position " ++ str_of_Z position
                  ++ ": surrogates not allowed"
              | n, _ =>
                  "'utf-8' codec can't encode characters in position "
                  ++ str_of_Z position ++ "-" ++ str_of_Z (position + Z.of_nat n)
                  ++ ": surrogates not allowed"
              end)
      else encode_error_from (position + 1) rest
  end.

(** What [s.encode("utf-8")] raises, if it raises: a [str] encodes unless
    it holds a surrogate. *)
Definition encode_error (s : string) : option string :=
  encode_error_from 0 (chars s).

Definition encodable (s : string) : bool :=
  match encode_error s with None => true | Some _ => false end.

(** *** [int(v)] *)

(** The first code point of each run of ten decimal digits (category Nd)
    of Unicode 14.0, the version CPython 3.11 carries; a digit's value is its
    offset in its run. *)
Definition decimal_starts : list Z :=
  [48; 1632; 1776; 1984; 2406; 2534; 2662; 2790; 2918; 3046; 3174; 3302; 3430;
   3558; 3664; 3792; 3872; 4160; 4240; 6112; 6160; 6470; 6608; 6784; 6800; 6992;
   7088; 7232; 7248; 42528; 43216; 43264; 43472; 43504; 43600; 44016; 65296;
   66720; 68912; 69734; 69872; 69942; 70096; 70384; 70736; 70864; 71248; 71360;
   71472; 71904; 72016; 72784; 73040; 73120; 92768; 92864; 93008; 120782;
   120792; 120802; 120812; 120822; 123200; 123632; 125264; 130032].

(** [Py_UNICODE_TODECIMAL]. *)
Definition decimal_value (ch : string) : option Z :=
  match code_point ch with
  | Some cp =>
      match find (fun z => (z <=? cp) && (cp <=? z + 9)) decimal_starts with
      | Some z => Some (cp - z)
      | None => None
      end
  | None => None
  end.

(** The whitespace [int] skips around a literal: that of [str.isspace]
    without the four separators U+001C..001F. *)
Definition is_int_space (ch : string) : bool :=
  is_space ch && negb (mem_string ch (map str1 [28; 29; 30; 31]%nat)).

Fixpoint lstrip_int_space (l : list string) : list string :=
  match l with
  | ch :: rest => if is_int_space ch then lstrip_int_space rest else l
  | [] => []
  end.

(** What a string is as a literal of [int]. *)
Inductive literal : Type :=
| Invalid
| TooManyDigits (digits : Z)
| Literal (z : Z).

(** [sys.get_int_max_str_digits()], as CPython 3.11 starts. *)
Definition int_max_str_digits : Z := 4300.

(** The digits of a literal and what follows them: decimal digits, single
    underscores allowed between two digits; the run ends at the first
    character that is neither, its length is checked against the limit, and
    only whitespace may follow. *)
Fixpoint scan_digits (acc count : Z) (after_digit : bool) (l : list string) : literal :=
  let finish (rest : list string) :=
    if negb after_digit then Invalid
    else if int_max_str_digits <? count then TooManyDigits count
    else if forallb is_int_space rest then Literal acc
    else Invalid in
  match l with
  | [] => finish []
  | ch :: rest =>
      if String.eqb ch "_" then
        if after_digit then scan_digits acc count false rest else Invalid
      else
        match decimal_value ch with
        | Some d => scan_digits (10 * acc + d) (count + 1) true rest
        | None => finish l
        end
  end.

Definition negate (r : literal) : literal :=
  match r with Literal z => Literal (- z) | _ => r end.

(** The integer literal grammar of [int(str)] in base 10: whitespace, an
    optional sign, digits, whitespace. *)
Definition parse_int (s : string) : literal :=
  match lstrip_int_space (chars s) with
  | ch :: rest =>
      if String.eqb ch "-" then negate (scan_digits 0 0 false rest)
      else if String.eqb ch "+" then scan_digits 0 0 false rest
      else scan_digits 0 0 false (ch :: rest)
  | [] => Invalid
  end.

(** [int(x)] for a float: truncation toward zero. *)
Definition int_of_float (f : pyfloat) : result Z :=
  match f with
  | FFinite m e =>
      if 0 <=? e then Ok (m * 2 ^ e) else Ok (Z.quot m (2 ^ (- e)))
  | FInf _ => Raise OverflowError
  | FNaN => Raise (ValueError "cannot convert float NaN to integer")
  end.

(** [int(v)].  For a string that is no literal, Python's message goes on
    with a colon and the [repr] of the string; the message kept here stops
    before them. *)
Definition int (v : pyval) : result Z :=
  match v with
  | PInt z => Ok z
  | PBool b => Ok (if b then 1 else 0)
  | PFloat f => int_of_float f
  | PStr s =>
      match parse_int s with
      | Literal z => Ok z
      | TooManyDigits digits =>
          Raise (ValueError
                   ("Exceeds the limit (4300 digits) for integer string conversion: value has "
                    ++ str_of_Z digits
                    ++ " digits; use sys.set_int_max_str_digits() to increase the limit"))
      | Invalid => Raise (ValueError "invalid literal for int() with base 10")
      end
  | PNone | PList _ | PDict _ => Raise TypeError
  end.

(** *** Dictionaries and containers *)

Fixpoint dict_get (k : string) (d : list (string * pyval)) : option pyval :=
  match d with
  | [] => None
  | (k', v) :: rest => if String.eqb k k' then Some v else dict_get k rest
  end.

(** [v[k]] with a string key. *)
Definition getitem (v : pyval) (k : string) : result pyval :=
  match v with
  | PDict d =>
      match dict_get k d with Some x => Ok x | None => Raise (KeyError k) end
  | _ => Raise TypeError
  end.

(** [v.get(k, default)]: only dictionaries have the method. *)
Definition get (v : pyval) (k : string) (default : pyval) : result pyval :=
  match v with
  | PDict d =>
      match dict_get k d with Some x => Ok x | None => Ok default end
  | _ => Raise AttributeError
  end.

Definition pyval_is_str (s : string) (v : pyval) : bool :=
  match v with PStr s' => String.eqb s s' | _ => false end.

(** [k in v] for a string [k]: key of a dictionary, element of a list,
    substring of a string; other values are not containers. *)
Definition contains_key (k : string) (v : pyval) : result bool :=
  match v with
  | PDict d => Ok (match dict_get k d with Some _ => true | None => false end)
  | PList l => Ok (existsb (pyval_is_str k) l)
  | PStr s => Ok (contains k s)
  | _ => Raise TypeError
  end.

(** [v.strip()]: only strings have the method. *)
Definition strip_method (v : pyval) : result string :=
  match v with
  | PStr s => Ok (strip s)
  | _ => Raise AttributeError
  end.

End Py.

Import Py.

Declare Scope py_scope.
Delimit Scope py_scope with py.
Notation "x <- r ;; k" := (Py.bind r (fun x => k))
  (at level 61, r at next level, right associativity) : py_scope.


(* ================================================================== *)
(** ** The database file                                                *)
(* ================================================================== *)

(** What the code does with a price: start a sum at 0, add, multiply a
    price by an integer quantity, print with two decimals. *)
Class PriceArith (P : Type) : Type := {
  pzero : P;
  padd : P -> P -> P;
  pscale : P -> Z -> P;
  pformat2 : P -> string
}.

(** Rows of the four tables of [init_db]'s schema.  NOT NULL columns carry
    their value, nullable columns an [option]. *)
Record category_row : Type := {
  cat_id : Z;
  cat_slug : string;
  cat_name : string;
  cat_description : option string;
  cat_image_url : option string
}.

Record order_row : Type := {
  ord_id : Z;
  ord_customer_name : string;
  ord_email : string;
  ord_phone : string;
  ord_address : string;
  ord_status : string;
  ord_verification_code : option string;
  ord_created_at : string
}.

Record order_item_row : Type := {
  oi_id : Z;
  oi_order_id : Z;
  oi_product_id : Z;
  oi_quantity : Z
}.

Record product_row (P : Type) : Type := {
  prod_id : Z;
  prod_category_id : Z;
  prod_subcategory : string;
  prod_name : string;
  prod_description : option string;
  prod_unit : option string;
  prod_price : P;
  prod_image_url : option string
}.
Arguments prod_id {P} _.
Arguments prod_category_id {P} _.
Arguments prod_subcategory {P} _.
Arguments prod_name {P} _.
Arguments prod_description {P} _.
Arguments prod_unit {P} _.
Arguments prod_price {P} _.
Arguments prod_image_url {P} _.

(** The file: tables in rowid order and the AUTOINCREMENT counters. *)
Record database (P : Type) : Type := {
  categories : list category_row;
  products : list (product_row P);
  orders : list order_row;
  order_items : list order_item_row;
  seq_categories : Z;
  seq_products : Z;
  seq_orders : Z;
  seq_order_items : Z
}.
Arguments categories {P} _.
Arguments products {P} _.
Arguments orders {P} _.
Arguments order_items {P} _.
Arguments seq_categories {P} _.
Arguments seq_products {P} _.
Arguments seq_orders {P} _.
Arguments seq_order_items {P} _.

(** SQLite's INTEGER is a signed 64-bit value. *)
Definition int64_min : Z := - 2 ^ 63.
Definition int64_max : Z := 2 ^ 63 - 1.
Definition in_int64 (z : Z) : bool := (int64_min <=? z) && (z <=? int64_max).

(** Binding a Python [int] as a statement parameter. *)
Definition bind_int (z : Z) : result Z :=
  if in_int64 z then Ok z else Raise OverflowError.

(** The limits of the SQLite library the process runs with, as far as a
    request can reach them: the bytes of a statement's text
    (SQLITE_LIMIT_SQL_LENGTH), the number of its parameters
    (SQLITE_LIMIT_VARIABLE_NUMBER), and the bytes of a string and of a row
    (SQLITE_LIMIT_LENGTH).  They are fixed when the library is built. *)
Class Engine : Type := {
  max_sql_length : Z;
  max_variable_number : Z;
  max_length : Z
}.

(** [INT_MAX] of the C compiler. *)
Definition c_int_max : Z := 2 ^ 31 - 1.

(** The bytes of the UTF-8 encoding of a string. *)
Definition utf8_size (s : string) : Z := Z.of_nat (String.length s).

(** [cursor.execute(sql, parameters)] up to the compiled statement: the
    driver refuses a text longer than the engine's limit
    ([sqlite3.DataError]); the engine then refuses, while it parses the text,
    a statement with more parameters than its limit
    ([sqlite3.OperationalError]).  No parameter is bound before. *)
Definition prepare {Lim : Engine} (sql : string) (variables : nat) : result unit :=
  if max_sql_length <? utf8_size sql
  then Raise (DataError "query string is too large")
  else if max_variable_number <? Z.of_nat variables
  then Raise (OperationalError "too many SQL variables")
  else Ok tt.

(** Binding a Python [str] as a statement parameter: the driver encodes it
    as UTF-8 (on a lone surrogate the codec raises [UnicodeEncodeError]),
    refuses more than [INT_MAX] bytes, and the engine refuses more bytes than
    its limit. *)
Definition bind_text {Lim : Engine} (s : string) : result string :=
  match Py.encode_error s with
  | Some msg => Raise (ValueError msg)
  | None =>
      if c_int_max <? utf8_size s then Raise OverflowError
      else if max_length <? utf8_size s then Raise (DataError "string or blob too big")
      else Ok s
  end.

(** The bytes of a variable-length integer of the record format. *)
Definition varint_len (x : Z) : Z :=
  if x <? 2 ^ 7 then 1 else if x <? 2 ^ 14 then 2 else if x <? 2 ^ 21 then 3
  else if x <? 2 ^ 28 then 4 else if x <? 2 ^ 35 then 5 else if x <? 2 ^ 42 then 6
  else if x <? 2 ^ 49 then 7 else if x <? 2 ^ 56 then 8 else 9.

(** The bytes of a row of TEXT columns behind an INTEGER PRIMARY KEY, in
    the record format: a header with its own length (one byte), the NULL that
    stands for the key (one byte) and the serial type [2n + 13] of each text
    of [n] bytes, then the texts. *)
Definition record_size (texts : list string) : Z :=
  1 + 1 + fold_right Z.add 0 (map (fun s => varint_len (2 * utf8_size s + 13)) texts)
  + fold_right Z.add 0 (map utf8_size texts).

Definition mem_Z (z : Z) (l : list Z) : bool := existsb (Z.eqb z) l.

(** The rowid AUTOINCREMENT gives a new row: one more than the largest
    rowid the table has ever held. *)
Definition next_rowid (seq : Z) (ids : list Z) : Z :=
  Z.max seq (fold_right Z.max 0 ids) + 1.

(** [ORDER BY]: a stable insertion sort on the comparison of the keys. *)
Fixpoint insert_by {A : Type} (leb : A -> A -> bool) (x : A) (l : list A) : list A :=
  match l with
  | [] => [x]
  | y :: rest => if leb x y then x :: l else y :: insert_by leb x rest
  end.

Definition order_by {A : Type} (leb : A -> A -> bool) (l : list A) : list A :=
  fold_right (insert_by leb) [] l.

(** [map] for a function that may raise: the first exception wins. *)
Fixpoint map_result {A B : Type} (f : A -> result B) (l : list A) : result (list B) :=
  match l with
  | [] => Ok []
  | x :: rest =>
      (y <- f x ;; ys <- map_result f rest ;; Ok (y :: ys))%py
  end.

(** The canonical catalogue [seed_data] reconciles against: the local
    [catalog_seed] of the source, one record per dictionary.  Keys the code
    reads with [item.get(...)] are optional. *)
Record seed_item (P : Type) : Type := {
  si_subcategory : string;
  si_name : string;
  si_description : option string;
  si_unit : option string;
  si_price : option P;
  si_image_url : option string
}.
Arguments si_subcategory {P} _.
Arguments si_name {P} _.
Arguments si_description {P} _.
Arguments si_unit {P} _.
Arguments si_price {P} _.
Arguments si_image_url {P} _.

Record seed_category (P : Type) : Type := {
  sc_slug : string;
  sc_name : string;
  sc_description : string;
  sc_image_url : option string;
  sc_items : list (seed_item P)
}.
Arguments sc_slug {P} _.
Arguments sc_name {P} _.
Arguments sc_description {P} _.
Arguments sc_image_url {P} _.
Arguments sc_items {P} _.

(** The slugs of the five categories the source's [catalog_seed] lists. *)
Definition canonical_slugs : list string :=
  ["detergent-cleaning"; "food-packaging"; "hygiene-safety";
   "cloths-wipes"; "tissues-napkins"].

(** What [get_catalog] returns. *)
Record catalog_item (P : Type) : Type := {
  ci_id : Z;
  ci_name : string;
  ci_description : option string;
  ci_unit : option string;
  ci_price : P;
  ci_imageUrl : option string
}.
Arguments ci_id {P} _.
Arguments ci_name {P} _.
Arguments ci_description {P} _.
Arguments ci_unit {P} _.
Arguments ci_price {P} _.
Arguments ci_imageUrl {P} _.

Record subcategory_group (P : Type) : Type := {
  sg_subcategory : string;
  sg_items : list (catalog_item P)
}.
Arguments sg_subcategory {P} _.
Arguments sg_items {P} _.

Record catalog_category (P : Type) : Type := {
  cc_id : Z;
  cc_slug : string;
  cc_name : string;
  cc_description : option string;
  cc_imageUrl : option string;
  cc_subcategories : list (subcategory_group P)
}.
Arguments cc_id {P} _.
Arguments cc_slug {P} _.
Arguments cc_name {P} _.
Arguments cc_description {P} _.
Arguments cc_imageUrl {P} _.
Arguments cc_subcategories {P} _.

(** What [get_order_summary] returns. *)
Record summary_line (P : Type) : Type := {
  sl_name : string;
  sl_price : P;
  sl_quantity : Z;
  sl_lineTotal : P
}.
Arguments sl_name {P} _.
Arguments sl_price {P} _.
Arguments sl_quantity {P} _.
Arguments sl_lineTotal {P} _.

Record order_summary (P : Type) : Type := {
  os_id : Z;
  os_customerName : string;
  os_email : string;
  os_phone : string;
  os_address : string;
  os_status : string;
  os_createdAt : string;
  os_items : list (summary_line P);
  os_total : P
}.
Arguments os_id {P} _.
Arguments os_customerName {P} _.
Arguments os_email {P} _.
Arguments os_phone {P} _.
Arguments os_address {P} _.
Arguments os_status {P} _.
Arguments os_createdAt {P} _.
Arguments os_items {P} _.
Arguments os_total {P} _.

Section Store.
Context {P : Type} {PA : PriceArith P} {Lim : Engine}.

(** *** Connections, cursors and transactions *)

(** A block of statements run on a cursor: it reads and writes the
    connection's view of the file and may raise. *)
Definition cursor (A : Type) : Type := database P -> result A * database P.

Definition ret {A : Type} (a : A) : cursor A := fun d => (Ok a, d).

Definition raise {A : Type} (e : exn) : cursor A := fun d => (Raise e, d).

Definition lift {A : Type} (r : result A) : cursor A := fun d => (r, d).

Definition cbind {A B : Type} (m : cursor A) (k : A -> cursor B) : cursor B :=
  fun d =>
    match m d with
    | (Ok a, d') => k a d'
    | (Raise e, d') => (Raise e, d')
    end.

(** A [SELECT]: it reads the current view. *)
Definition query {A : Type} (q : database P -> A) : cursor A :=
  fun d => (Ok (q d), d).

(** [with db_cursor() as cursor: body].  [conn.commit()] follows the
    [yield] and is reached only when the body returns; when the body raises,
    [finally: conn.close()] closes the connection and what the body wrote is
    dropped with it. *)
Definition db_cursor {A : Type} (body : cursor A) : database P -> result A * database P :=
  fun d =>
    match body d with
    | (Ok a, d') => (Ok a, d')
    | (Raise e, _) => (Raise e, d)
    end.

End Store.

Notation "x <~ m ;; k" := (cbind m (fun x => k))
  (at level 61, m at next level, right associativity) : py_scope.

Section Statements.
Context {P : Type} {PA : PriceArith P} {Lim : Engine}.
#[local] Open Scope py_scope.

Definition set_categories (l : list category_row) (d : database P) : database P :=
  {| categories := l; products := products d; orders := orders d;
     order_items := order_items d; seq_categories := seq_categories d;
     seq_products := seq_products d; seq_orders := seq_orders d;
     seq_order_items := seq_order_items d |}.

Definition set_products (l : list (product_row P)) (d : database P) : database P :=
  {| categories := categories d; products := l; orders := orders d;
     order_items := order_items d; seq_categories := seq_categories d;
     seq_products := seq_products d; seq_orders := seq_orders d;
     seq_order_items := seq_order_items d |}.

Definition set_orders (l : list order_row) (d : database P) : database P :=
  {| categories := categories d; products := products d; orders := l;
     order_items := order_items d; seq_categories := seq_categories d;
     seq_products := seq_products d; seq_orders := seq_orders d;
     seq_order_items := seq_order_items d |}.

Definition set_order_items (l : list order_item_row) (d : database P) : database P :=
  {| categories := categories d; products := products d; orders := orders d;
     order_items := l; seq_categories := seq_categories d;
     seq_products := seq_products d; seq_orders := seq_orders d;
     seq_order_items := seq_order_items d |}.

(** [for x in l: body(x)] on a cursor. *)
Fixpoint for_each {A : Type} (body : A -> cursor (P := P) unit) (l : list A) : cursor (P := P) unit :=
  match l with
  | [] => ret tt
  | x :: rest => _ <~ body x ;; for_each body rest
  end.

(** *** Statements on [orders] and [order_items] *)

(** The row [INSERT INTO orders] appends, with AUTOINCREMENT's id, and
    [cursor.lastrowid]. *)
Definition write_order (customer_name email phone address created_at : string) : cursor (P := P) Z :=
  fun d =>
    let id := next_rowid (seq_orders d) (map ord_id (orders d)) in
    let row := {| ord_id := id; ord_customer_name := customer_name;
                  ord_email := email; ord_phone := phone; ord_address := address;
                  ord_status := "received"; ord_verification_code := Some "";
                  ord_created_at := created_at |} in
    (Ok id,
     {| categories := categories d; products := products d;
        orders := orders d ++ [row]; order_items := order_items d;
        seq_categories := seq_categories d; seq_products := seq_products d;
        seq_orders := id; seq_order_items := seq_order_items d |}).

(** [INSERT INTO orders (...) VALUES (?, ?, ?, ?, 'received', '', ?)] with
    its five parameters: they are bound in order, then the engine assembles
    the row, refuses it when it is longer than its limit, and writes it. *)
Definition insert_order (customer_name email phone address created_at : string) : cursor (P := P) Z :=
  customer_name <~ lift (bind_text customer_name) ;;
  email <~ lift (bind_text email) ;;
  phone <~ lift (bind_text phone) ;;
  address <~ lift (bind_text address) ;;
  created_at <~ lift (bind_text created_at) ;;
  if max_length <? record_size [customer_name; email; phone; address; "received"; "";
                                created_at]
  then raise (DataError "string or blob too big")
  else write_order customer_name email phone address created_at.

(** [INSERT INTO order_items (order_id, product_id, quantity) VALUES (?, ?, ?)]
    with [PRAGMA foreign_keys = ON]: both parents must exist.  [order_id] is
    the rowid the engine has just handed out; the two integers that come
    from the request are range-checked when bound. *)
Definition insert_order_item (order_id product_id quantity : Z) : cursor (P := P) unit :=
  pid <~ lift (bind_int product_id) ;;
  qty <~ lift (bind_int quantity) ;;
  fun d =>
    if existsb (fun o => ord_id o =? order_id) (orders d)
       && existsb (fun p => prod_id p =? pid) (products d)
    then
      let id := next_rowid (seq_order_items d) (map oi_id (order_items d)) in
      let row := {| oi_id := id; oi_order_id := order_id;
                    oi_product_id := pid; oi_quantity := qty |} in
      (Ok tt,
       {| categories := categories d; products := products d;
          orders := orders d; order_items := order_items d ++ [row];
          seq_categories := seq_categories d; seq_products := seq_products d;
          seq_orders := seq_orders d; seq_order_items := id |})
    else (Raise IntegrityError, d).

End Statements.

(* ================================================================== *)
(** ** [database.py]                                                   *)
(* ================================================================== *)

Section Database.
Context {P : Type} {PA : PriceArith P} {Lim : Engine}.
#[local] Open Scope py_scope.
#[local] Abbreviation cur := (cursor (P := P)).

(** *** [_apply_migrations] and [init_db] *)

Definition normalize_status (o : order_row) : order_row :=
  if String.eqb (ord_status o) "pending_verification" then
    {| ord_id := ord_id o; ord_customer_name := ord_customer_name o;
       ord_email := ord_email o; ord_phone := ord_phone o;
       ord_address := ord_address o; ord_status := "received";
       ord_verification_code := ord_verification_code o;
       ord_created_at := ord_created_at o |}
  else o.

(** The statements of the migration.  [ALTER TABLE categories ADD COLUMN
    image_url] changes the schema only: a table that predates the column is
    one whose rows all read NULL there.  [UPDATE products SET price =
    COALESCE(price, 0)] leaves a price that is not NULL as it is.  The last
    statement rewrites the legacy status. *)
Definition _apply_migrations : cur unit :=
  fun d =>
    let d1 := set_products (map (fun p => p) (products d)) d in
    (Ok tt, set_orders (map normalize_status (orders d1)) d1).

(** [CREATE TABLE IF NOT EXISTS] finds the four tables of a [database]
    in place. *)
Definition init_db : database P -> result unit * database P :=
  db_cursor _apply_migrations.

(** *** [seed_data] *)

Definition products_of_category (cid : Z) (d : database P) : list (product_row P) :=
  filter (fun p => prod_category_id p =? cid) (products d).

(** [order_items] rows whose product belongs to category [cid]. *)
Definition references_category (cid : Z) (d : database P) (oi : order_item_row) : bool :=
  mem_Z (oi_product_id oi) (map prod_id (products_of_category cid d)).

(** [SELECT COUNT( * ) FROM order_items WHERE product_id IN
    (SELECT id FROM products WHERE category_id = ?)]. *)
Definition count_referencing (cid : Z) : cur Z :=
  query (fun d => Z.of_nat (List.length (filter (references_category cid d) (order_items d)))).

(** [DELETE FROM order_items WHERE product_id IN (SELECT id FROM products
    WHERE category_id = ?)]. *)
Definition delete_order_items_of_category (cid : Z) : cur unit :=
  fun d =>
    (Ok tt, set_order_items
              (filter (fun oi => negb (references_category cid d oi)) (order_items d)) d).

(** [DELETE FROM products WHERE category_id = ?]: refused while an order
    item still references one of the rows ([order_items.product_id] has no
    ON DELETE action). *)
Definition delete_products_of_category (cid : Z) : cur unit :=
  fun d =>
    if existsb (references_category cid d) (order_items d)
    then (Raise IntegrityError, d)
    else (Ok tt, set_products
                   (filter (fun p => negb (prod_category_id p =? cid)) (products d)) d).

(** [DELETE FROM categories WHERE id = ?]: a deleted category takes its
    products with it (ON DELETE CASCADE), under the same refusal. *)
Definition delete_category (cid : Z) : cur unit :=
  fun d =>
    if existsb (fun c => cat_id c =? cid) (categories d) then
      if existsb (references_category cid d) (order_items d)
      then (Raise IntegrityError, d)
      else
        (Ok tt,
         set_categories (filter (fun c => negb (cat_id c =? cid)) (categories d))
           (set_products
              (filter (fun p => negb (prod_category_id p =? cid)) (products d)) d))
    else (Ok tt, d).

(** The body of the first loop, for one row of [existing_categories]. *)
Definition prune_category (target_slugs : list string) (existing : Z * string) : cur unit :=
  if mem_string (snd existing) target_slugs then ret tt
  else
    referencing <~ count_referencing (fst existing) ;;
    if referencing =? 0 then
      _ <~ delete_order_items_of_category (fst existing) ;;
      _ <~ delete_products_of_category (fst existing) ;;
      delete_category (fst existing)
    else ret tt.

(** [UPDATE categories SET name = ?, description = ?, image_url = ? WHERE id = ?]. *)
Definition update_category (c : seed_category P) (cid : Z) : cur unit :=
  fun d =>
    (Ok tt,
     set_categories
       (map (fun r =>
               if cat_id r =? cid then
                 {| cat_id := cat_id r; cat_slug := cat_slug r;
                    cat_name := sc_name c;
                    cat_description := Some (sc_description c);
                    cat_image_url := sc_image_url c |}
               else r)
            (categories d)) d).

(** [INSERT INTO categories (slug, name, description, image_url)] and
    [cursor.lastrowid]; [slug] is UNIQUE. *)
Definition insert_category (c : seed_category P) : cur Z :=
  fun d =>
    if existsb (fun r => String.eqb (cat_slug r) (sc_slug c)) (categories d)
    then (Raise IntegrityError, d)
    else
      let id := next_rowid (seq_categories d) (map cat_id (categories d)) in
      let row := {| cat_id := id; cat_slug := sc_slug c; cat_name := sc_name c;
                    cat_description := Some (sc_description c);
                    cat_image_url := sc_image_url c |} in
      (Ok id,
       {| categories := categories d ++ [row]; products := products d;
          orders := orders d; order_items := order_items d;
          seq_categories := id; seq_products := seq_products d;
          seq_orders := seq_orders d; seq_order_items := seq_order_items d |}).

(** [item.get("price", 0.0)]. *)
Definition seed_price (it : seed_item P) : P :=
  match si_price it with Some p => p | None => pzero end.

(** [UPDATE products SET subcategory = ?, description = ?, unit = ?,
    price = ?, image_url = ? WHERE id = ?]. *)
Definition update_product (it : seed_item P) (pid : Z) : cur unit :=
  fun d =>
    (Ok tt,
     set_products
       (map (fun r =>
               if prod_id r =? pid then
                 {| prod_id := prod_id r; prod_category_id := prod_category_id r;
                    prod_subcategory := si_subcategory it; prod_name := prod_name r;
                    prod_description := si_description it; prod_unit := si_unit it;
                    prod_price := seed_price it; prod_image_url := si_image_url it |}
               else r)
            (products d)) d).

(** [INSERT INTO products (category_id, subcategory, name, description,
    unit, price, image_url)]: the category must exist. *)
Definition insert_product (cid : Z) (it : seed_item P) : cur unit :=
  fun d =>
    if existsb (fun c => cat_id c =? cid) (categories d) then
      let id := next_rowid (seq_products d) (map prod_id (products d)) in
      let row := {| prod_id := id; prod_category_id := cid;
                    prod_subcategory := si_subcategory it; prod_name := si_name it;
                    prod_description := si_description it; prod_unit := si_unit it;
                    prod_price := seed_price it; prod_image_url := si_image_url it |} in
      (Ok tt,
       {| categories := categories d; products := products d ++ [row];
          orders := orders d; order_items := order_items d;
          seq_categories := seq_categories d; seq_products := id;
          seq_orders := seq_orders d; seq_order_items := seq_order_items d |})
    else (Raise IntegrityError, d).

(** The inner loop's body, for one item of a seed category. *)
Definition upsert_product (cid : Z) (it : seed_item P) : cur unit :=
  existing_product <~
    query (fun d => find (fun p => (prod_category_id p =? cid)
                                   && String.eqb (prod_name p) (si_name it))
                         (products d)) ;;
  match existing_product with
  | Some p => update_product it (prod_id p)
  | None => insert_product cid it
  end.

(** The second loop's body, for one seed category. *)
Definition upsert_category (c : seed_category P) : cur unit :=
  existing_category <~
    query (fun d => find (fun r => String.eqb (cat_slug r) (sc_slug c)) (categories d)) ;;
  category_id <~
    match existing_category with
    | Some r => _ <~ update_category c (cat_id r) ;; ret (cat_id r)
    | None => insert_category c
    end ;;
  for_each (upsert_product category_id) (sc_items c).

(** [seed_data], with the literal [catalog_seed] of the source as its
    argument. *)
Definition seed_data (catalog_seed : list (seed_category P))
  : database P -> result unit * database P :=
  db_cursor
    (let target_slugs := map sc_slug catalog_seed in
     existing_categories <~
       query (fun d => map (fun c => (cat_id c, cat_slug c)) (categories d)) ;;
     _ <~ for_each (prune_category target_slugs) existing_categories ;;
     for_each upsert_category catalog_seed).

(** *** [get_catalog] *)

Definition category_name_leb (a b : category_row) : bool :=
  String.leb (cat_name a) (cat_name b).

(** The key of [ORDER BY subcategory, name] under the BINARY collation. *)
Definition pair_leb (a b : string * string) : bool :=
  match String.compare (fst a) (fst b) with
  | Lt => true
  | Eq => String.leb (snd a) (snd b)
  | Gt => false
  end.

Definition product_key (p : product_row P) : string * string :=
  (prod_subcategory p, prod_name p).

Definition product_leb (a b : product_row P) : bool :=
  pair_leb (product_key a) (product_key b).

Definition catalog_item_of (p : product_row P) : catalog_item P :=
  {| ci_id := prod_id p; ci_name := prod_name p;
     ci_description := prod_description p; ci_unit := prod_unit p;
     ci_price := prod_price p; ci_imageUrl := prod_image_url p |}.

(** [entry = subcategory_map.setdefault(key, {"subcategory": key, "items": []})]
    followed by [entry["items"].append(item)]: the entry is the object the
    dictionary holds, so the append is seen through the dictionary, and a new
    key goes last. *)
Fixpoint setdefault_append (key : string) (item : catalog_item P)
    (subcategory_map : list (subcategory_group P)) : list (subcategory_group P) :=
  match subcategory_map with
  | [] => [ {| sg_subcategory := key; sg_items := [item] |} ]
  | g :: rest =>
      if String.eqb (sg_subcategory g) key
      then {| sg_subcategory := sg_subcategory g; sg_items := sg_items g ++ [item] |} :: rest
      else g :: setdefault_append key item rest
  end.

(** The loop over the products of one category; the result is
    [list(subcategory_map.values())]. *)
Definition group_products (rows : list (product_row P)) : list (subcategory_group P) :=
  fold_left (fun m p => setdefault_append (prod_subcategory p) (catalog_item_of p) m)
            rows [].

(** The second [SELECT] of [get_catalog], for one category. *)
Definition select_products_of (cid : Z) (d : database P) : list (product_row P) :=
  order_by product_leb (products_of_category cid d).

Definition get_catalog : database P -> result (list (catalog_category P)) * database P :=
  db_cursor
    (categories_rows <~ query (fun d => order_by category_name_leb (categories d)) ;;
     query (fun d =>
       map (fun category =>
              {| cc_id := cat_id category; cc_slug := cat_slug category;
                 cc_name := cat_name category;
                 cc_description := cat_description category;
                 cc_imageUrl := cat_image_url category;
                 cc_subcategories :=
                   group_products (select_products_of (cat_id category) d) |})
           categories_rows)).

(** *** [_get_products_by_ids] *)

(** [d[k] = v] on a dictionary with integer keys. *)
Fixpoint dict_set {V : Type} (k : Z) (v : V) (d : list (Z * V)) : list (Z * V) :=
  match d with
  | [] => [(k, v)]
  | (k', v') :: rest =>
      if k' =? k then (k', v) :: rest else (k', v') :: dict_set k v rest
  end.

(** [{row["id"]: row for row in rows}]. *)
Definition dict_of_rows (rows : list (product_row P)) : list (Z * product_row P) :=
  fold_left (fun d row => dict_set (prod_id row) row d) rows [].

(** [sep.join(l)]. *)
Fixpoint join (sep : string) (l : list string) : string :=
  match l with
  | [] => ""
  | [x] => x
  | x :: rest => x ++ sep ++ join sep rest
  end.

(** The text of the statement, one [?] per id. *)
Definition select_products_sql (product_ids : list Z) : string :=
  let placeholders := join "," (map (fun _ => "?") product_ids) in
  "SELECT id, name, price FROM products WHERE id IN (" ++ placeholders ++ ");".

(** [SELECT id, name, price FROM products WHERE id IN (?, ..., ?)] with
    [product_ids] bound, then the dictionary by id. *)
Definition _get_products_by_ids (product_ids : list Z) : cur (list (Z * product_row P)) :=
  _ <~ lift (prepare (select_products_sql product_ids) (List.length product_ids)) ;;
  ids <~ lift (map_result bind_int product_ids) ;;
  rows <~ query (fun d => filter (fun p => mem_Z (prod_id p) ids) (products d)) ;;
  ret (dict_of_rows rows).

(** *** [create_order] *)

(** [int(item["productId"])]. *)
Definition item_product_id (item : pyval) : result Z :=
  v <- getitem item "productId" ;; Py.int v.

(** The first loop over [items]. *)
Fixpoint check_quantities (items : list pyval) : result unit :=
  match items with
  | [] => Ok tt
  | item :: rest =>
      v <- Py.get item "quantity" (PInt 0) ;;
      quantity <- Py.int v ;;
      if quantity <=? 0
      then Raise (ValueError "Quantities must be greater than zero.")
      else check_quantities rest
  end.

(** The body of the second loop over [items]. *)
Definition insert_cart_line (order_id : Z) (item : pyval) : cur unit :=
  product_id <~ lift (item_product_id item) ;;
  quantity <~ lift (v <- getitem item "quantity" ;; Py.int v) ;;
  insert_order_item order_id product_id quantity.

(** [create_order]; [timestamp] is what [datetime.utcnow().isoformat(
    timespec="seconds")] reads from the clock. *)
Definition create_order (timestamp customer_name email phone address : string)
    (items : list pyval) : database P -> result Z * database P :=
  fun d =>
    match items with
    | [] => (Raise (ValueError "Cart is empty."), d)
    | _ :: _ =>
        db_cursor
          (product_ids <~ lift (map_result item_product_id items) ;;
           products <~ _get_products_by_ids product_ids ;;
           if negb (Nat.eqb (List.length products) (List.length product_ids))
           then raise (ValueError "One or more products do not exist.")
           else
             _ <~ lift (check_quantities items) ;;
             order_id <~ insert_order customer_name email phone address timestamp ;;
             _ <~ for_each (insert_cart_line order_id) items ;;
             ret order_id) d
    end.

(** *** [get_order_summary] *)

(** The rows of [order_items JOIN products ON order_items.product_id =
    products.id WHERE order_items.order_id = ?], order items in rowid
    order. *)
Definition select_order_lines (order_id : Z) (d : database P) : list (string * P * Z) :=
  flat_map
    (fun oi =>
       map (fun p => (prod_name p, prod_price p, oi_quantity oi))
           (filter (fun p => prod_id p =? oi_product_id oi) (products d)))
    (filter (fun oi => oi_order_id oi =? order_id) (order_items d)).

Definition line_total (row : string * P * Z) : P :=
  pscale (snd (fst row)) (snd row).

(** [sum(...)]: the running total starts at 0 and adds left to right. *)
Definition py_sum (l : list P) : P := fold_left padd l pzero.

Definition get_order_summary (order_id : Z)
  : database P -> result (option (order_summary P)) * database P :=
  db_cursor
    (oid <~ lift (bind_int order_id) ;;
     order <~ query (fun d => find (fun o => ord_id o =? oid) (orders d)) ;;
     match order with
     | None => ret None
     | Some order =>
         items <~ query (select_order_lines oid) ;;
         let total := py_sum (map line_total items) in
         ret (Some
                {| os_id := ord_id order;
                   os_customerName := ord_customer_name order;
                   os_email := ord_email order; os_phone := ord_phone order;
                   os_address := ord_address order; os_status := ord_status order;
                   os_createdAt := ord_created_at order;
                   os_items :=
                     map (fun row =>
                            {| sl_name := fst (fst row); sl_price := snd (fst row);
                               sl_quantity := snd row; sl_lineTotal := line_total row |})
                         items;
                   os_total := total |})
     end).

(** *** [verify_order] *)

(** The summary of an order is a dictionary of nine keys, so [not summary]
    holds for [None] only; [verification_code] is not read. *)
Definition verify_order (order_id : Z) (verification_code : string)
  : database P -> result (bool * string) * database P :=
  fun d =>
    match get_order_summary order_id d with
    | (Raise e, d') => (Raise e, d')
    | (Ok None, d') => (Ok (false, "Order not found."), d')
    | (Ok (Some _), d') =>
        (Ok (true, "Order already received and queued for dispatch."), d')
    end.

End Database.

(* ================================================================== *)
(** ** [config.py] and [email_service.py]                              *)
(* ================================================================== *)

(** The fields of [Settings] the notifier reads. *)
Record Settings : Type := {
  smtp_host : option string;
  smtp_port : Z;
  smtp_username : option string;
  smtp_password : option string;
  email_from : option string;
  email_use_tls : bool
}.

(** An [EmailMessage]: the three headers the code sets and the body. *)
Record EmailMessage : Type := {
  msg_subject : string;
  msg_from : string;
  msg_to : option string;
  msg_body : string
}.

(** What the notifier does to the outside world, in order. *)
Inductive effect : Type :=
| LogInfo
| LogError
| SmtpConnect (host : string) (port : Z)
| SmtpStartTls
| SmtpLogin (username password : string)
| SmtpSendMessage (message : EmailMessage)
| SmtpQuit.

(** The mail server as the code meets it: each call either returns or
    raises some [Exception]. *)
Record SmtpServer : Type := {
  on_connect : string -> Z -> option exn;
  on_starttls : option exn;
  on_login : string -> string -> option exn;
  on_send_message : EmailMessage -> option exn;
  on_quit : option exn
}.

(** Truth value of a [str] and of an [Optional[str]]. *)
Definition truthy (s : string) : bool := negb (String.eqb s "").

Definition truthy_opt (s : option string) : bool :=
  match s with Some s' => truthy s' | None => false end.

Definition newline : string := Py.str1 10.

(** ["\n".join(lines)]. *)
Fixpoint join_lines (lines : list string) : string :=
  match lines with
  | [] => ""
  | [l] => l
  | l :: rest => l ++ newline ++ join_lines rest
  end.

Section Notifier.
Context {P : Type} {PA : PriceArith P} {Lim : Engine}.

(** The text of the header object [email.policy.default]'s header factory
    builds from a raw value (for an address header, the parsed address). *)
Variable header_value : string -> string -> string.

(** [message[name] = value] under [email.policy.default]: a value that
    spans more than one line is refused.  On an address header the factory
    also runs a parser, which raises on further values (one that ends in "@",
    for instance); what is proved of a message that is built is therefore
    stated for plain addresses ([plain_address]), which the parser accepts. *)
Definition header_store_parse (name value : string) : result string :=
  if (1 <? Py.splitlines_len value)%nat
  then Raise (ValueError
                "Header values may not contain linefeed or carriage return characters")
  else Ok (header_value name value).

Definition item_line (item : summary_line P) : string :=
  "• " ++ Py.str_of_Z (sl_quantity item) ++ " × " ++ sl_name item
       ++ " – $" ++ pformat2 (sl_lineTotal item).

Definition body_lines (order_summary : order_summary P) : list string :=
  [ "Hello " ++ os_customerName order_summary ++ ","; "";
    "Thanks for placing an order with Ziad's Supplies. We've queued it for dispatch and will reach out to confirm delivery details shortly.";
    ""; "Order ID: " ++ Py.str_of_Z (os_id order_summary);
    "Payment method: Cash on Delivery" ]
  ++ match os_items order_summary with
     | [] => []
     | items => [""; "Items:"] ++ map item_line items
     end
  ++ [""; "Total (COD): $" ++ pformat2 (os_total order_summary)]
  ++ [""; "We'll be in touch to finalise dispatch details. If any adjustments are needed, simply reply to this email.";
      ""; "Best regards,"; "Ziad's Supplies Team"].

Definition build_order_confirmation_email (settings : Settings)
    (order_summary : order_summary P) : result EmailMessage :=
  let recipient_email := os_email order_summary in
  (subject <- header_store_parse "Subject" "Ziad's Supplies – Order received" ;;
   sender <- header_store_parse "From"
               (match email_from settings with
                | Some a => if truthy a then a
                            else "Ziad's Supplies <no-reply@ziads-supplies.local>"
                | None => "Ziad's Supplies <no-reply@ziads-supplies.local>"
                end) ;;
   recipient <- (if truthy recipient_email
                 then (v <- header_store_parse "To" recipient_email ;; Ok (Some v))
                 else Ok None) ;;
   Ok {| msg_subject := subject; msg_from := sender; msg_to := recipient;
         msg_body := join_lines (body_lines order_summary) |})%py.

(** One call on the open connection: its effect is done, and what follows
    runs only if it did not raise. *)
Definition smtp_step (e : effect) (outcome : option exn)
    (rest : option exn * list effect) : option exn * list effect :=
  match outcome with
  | Some x => (Some x, [e])
  | None => (fst rest, e :: snd rest)
  end.

(** The body of the [with] block. *)
Definition smtp_dialogue (settings : Settings) (server : SmtpServer)
    (message : EmailMessage) : option exn * list effect :=
  (if email_use_tls settings
   then smtp_step SmtpStartTls (on_starttls server)
   else fun rest => rest)
    ((match smtp_username settings, smtp_password settings with
      | Some u, Some p =>
          if truthy u && truthy p
          then smtp_step (SmtpLogin u p) (on_login server u p)
          else fun rest => rest
      | _, _ => fun rest => rest
      end)
       (smtp_step (SmtpSendMessage message) (on_send_message server message)
          (None, []))).

(** [with smtplib.SMTP(host, port, timeout=15) as smtp: ...]: once the
    connection is open, leaving the block sends QUIT, whether the body
    raised or not. *)
Definition smtp_session (settings : Settings) (server : SmtpServer) (host : string)
    (message : EmailMessage) : option exn * list effect :=
  match on_connect server host (smtp_port settings) with
  | Some x => (Some x, [SmtpConnect host (smtp_port settings)])
  | None =>
      let body := smtp_dialogue settings server message in
      (match on_quit server with Some x => Some x | None => fst body end,
       (SmtpConnect host (smtp_port settings) :: snd body ++ [SmtpQuit])%list)
  end.

Definition send_order_confirmation_email (settings : Settings) (server : SmtpServer)
    (order_summary : order_summary P) : result bool * list effect :=
  match build_order_confirmation_email settings order_summary with
  | Raise e => (Raise e, [])
  | Ok message =>
      match smtp_host settings, msg_to message with
      | Some host, Some recipient_email =>
          if truthy host && truthy_opt (email_from settings) && truthy recipient_email
          then
            match smtp_session settings server host message with
            | (None, effects) => (Ok true, (effects ++ [LogInfo])%list)
            | (Some _, effects) => (Ok false, (effects ++ [LogError])%list)
            end
          else (Ok false, [LogInfo])
      | _, _ => (Ok false, [LogInfo])
      end
  end.

End Notifier.

(* ================================================================== *)
(** ** [server.py]: the order endpoint                                 *)
(* ================================================================== *)

(** The answer [_handle_create_order] writes, or the exception that leaves
    it when nothing catches it. *)
Inductive response : Type :=
| Created (order_id : Z)
| BadRequest (error : string)
| InternalServerError (error : string)
| Unhandled (e : exn).

(** A call of the handler into the order store. *)
Inductive store_call : Type :=
| CreateOrderCall (customer_name email phone address : string) (items : list pyval)
| GetOrderSummaryCall (order_id : Z).

Definition required_fields : list string :=
  ["customerName"; "email"; "phone"; "address"; "items"].

Section Server.
Context {P : Type} {PA : PriceArith P} {Lim : Engine}.
Variable header_value : string -> string -> string.

(** [repr] of a float, a list or a dictionary, which is what [str] gives
    for them. *)
Variable repr_of : pyval -> string.

(** [str(v)]. *)
Definition str (v : pyval) : string :=
  match v with
  | PStr s => s
  | PNone => "None"
  | PBool true => "True"
  | PBool false => "False"
  | PInt z => Py.str_of_Z z
  | PFloat _ | PList _ | PDict _ => repr_of v
  end.

(** The first loop of [_validate_order_payload]. *)
Fixpoint first_missing_field (fields : list string) (data : pyval) : result (option string) :=
  match fields with
  | [] => Ok None
  | field :: rest =>
      (present <- Py.contains_key field data ;;
       if negb present then Ok (Some field) else first_missing_field rest data)%py
  end.

Definition is_dict (v : pyval) : bool :=
  match v with PDict _ => true | _ => false end.

(** The last loop of [_validate_order_payload]. *)
Fixpoint check_items (items : list pyval) : result (option string) :=
  match items with
  | [] => Ok None
  | item :: rest =>
      if negb (is_dict item) then Ok (Some "Each cart item must be an object.")
      else
        (has_id <- Py.contains_key "productId" item ;;
         has_qty <- (if has_id then Py.contains_key "quantity" item else Ok false) ;;
         if negb has_id || negb has_qty
         then Ok (Some "Cart items require productId and quantity.")
         else check_items rest)%py
  end.

Definition _validate_order_payload (data : pyval) : result (option string) :=
  (missing <- first_missing_field required_fields data ;;
   match missing with
   | Some field => Ok (Some ("Missing required field: " ++ field))
   | None =>
       items <- Py.getitem data "items" ;;
       match items with
       | PList ((_ :: _) as l) =>
           email_v <- Py.getitem data "email" ;;
           let email := Py.strip (str email_v) in
           if negb (Py.contains "@" email)
           then Ok (Some "A valid email address is required.")
           else
             phone_v <- Py.getitem data "phone" ;;
             let phone := Py.strip (str phone_v) in
             if (Py.len phone <? 6)%nat
             then Ok (Some "Phone number looks too short.")
             else check_items l
       | _ => Ok (Some "Cart cannot be empty.")
       end
   end)%py.

(** The two [except] clauses of the handler. *)
Definition handle_exception (e : exn) : response :=
  match e with
  | ValueError msg => BadRequest msg
  | _ => InternalServerError "We could not complete your order. Please try again."
  end.

(** The arguments of the call to [create_order], evaluated left to
    right.  [items] is a list once validation has passed. *)
Definition order_arguments (data : pyval)
  : result (string * string * string * string * list pyval) :=
  (name_v <- Py.getitem data "customerName" ;;
   customer_name <- Py.strip_method name_v ;;
   email_v <- Py.getitem data "email" ;;
   email <- Py.strip_method email_v ;;
   phone_v <- Py.getitem data "phone" ;;
   phone <- Py.strip_method phone_v ;;
   address_v <- Py.getitem data "address" ;;
   address <- Py.strip_method address_v ;;
   items_v <- Py.getitem data "items" ;;
   match items_v with
   | PList items => Ok (customer_name, email, phone, address, items)
   | _ => Raise TypeError
   end)%py.

(** The [try] block of [_handle_create_order]. *)
Definition place_order (settings : Settings) (server : SmtpServer)
    (timestamp : string) (data : pyval) (d : database P)
  : response * database P * list store_call :=
  match order_arguments data with
  | Raise e => (handle_exception e, d, [])
  | Ok (customer_name, email, phone, address, items) =>
      let call := CreateOrderCall customer_name email phone address items in
      match create_order timestamp customer_name email phone address items d with
      | (Raise e, d1) => (handle_exception e, d1, [call])
      | (Ok order_id, d1) =>
          match get_order_summary order_id d1 with
          | (Raise e, d2) =>
              (handle_exception e, d2, [call; GetOrderSummaryCall order_id])
          | (Ok summary, d2) =>
              (match summary with
               | Some s =>
                   match fst (send_order_confirmation_email header_value
                                settings server s) with
                   | Raise e => handle_exception e
                   | Ok _ => Created order_id
                   end
               | None => Created order_id
               end, d2, [call; GetOrderSummaryCall order_id])
          end
      end
  end.

(** [_handle_create_order] from the parsed body [data] on: the response,
    the database afterwards and the calls made into the order store. *)
Definition _handle_create_order (settings : Settings) (server : SmtpServer)
    (timestamp : string) (data : pyval) (d : database P)
  : response * database P * list store_call :=
  match _validate_order_payload data with
  | Raise e => (Unhandled e, d, [])
  | Ok validation_error =>
      if truthy_opt validation_error
      then (BadRequest (match validation_error with Some m => m | None => "" end), d, [])
      else place_order settings server timestamp data d
  end.

End Server.

(* ================================================================== *)
(** ** The catalogue of the source and the start of the server         *)
(* ================================================================== *)

Section Startup.
Context {P : Type} {PA : PriceArith P} {Lim : Engine}.

(** The literal [catalog_seed] of [seed_data]: five categories, fifty-three
    items, every key present in every dictionary and every price [0.0]. *)
Definition catalog_seed : list (seed_category P) :=
  [
  {| sc_slug := "detergent-cleaning";
     sc_name := "Detergent & Cleaning Liquids";
     sc_description := "Bulk chlorine, antiseptic solutions, floor detergents, dishwashing liquids and hand soaps for kitchen hygiene protocols.";
     sc_image_url := Some "/static/images/category-detergent.svg";
     sc_items := [
      {| si_subcategory := "Chlorine"; si_name := "Chlorine 4L";
         si_description := Some "Concentrated chlorine for dishwashing stations.";
         si_unit := Some "Jerrycan 4L"; si_price := Some pzero;
         si_image_url := Some "/static/images/product-chlorine.svg" |};
      {| si_subcategory := "Chlorine"; si_name := "Chlorine 10L";
         si_description := Some "Medium volume chlorine for daily cleaning.";
         si_unit := Some "Jerrycan 10L"; si_price := Some pzero;
         si_image_url := Some "/static/images/product-chlorine.svg" |};
      {| si_subcategory := "Chlorine"; si_name := "Chlorine 22L";
         si_description := Some "High capacity chlorine stock.";
         si_unit := Some "Jerrycan 22L"; si_price := Some pzero;
         si_image_url := Some "/static/images/product-chlorine.svg" |};
      {| si_subcategory := "Chlorine"; si_name := "Chlorine 30L";
         si_description := Some "Bulk chlorine for central kitchens.";
         si_unit := Some "Jerrycan 30L"; si_price := Some pzero;
         si_image_url := Some "/static/images/product-chlorine.svg" |};
      {| si_subcategory := "Antiseptic"; si_name := "Antiseptic 4L";
         si_description := Some "Ready-to-use antiseptic for food-prep surfaces.";
         si_unit := Some "Jerrycan 4L"; si_price := Some pzero;
         si_image_url := Some "/static/images/product-antiseptic.svg" |};
      {| si_subcategory := "Antiseptic"; si_name := "Antiseptic 10L";
         si_description := Some "Bulk supply for high-frequency sanitation.";
         si_unit := Some "Jerrycan 10L"; si_price := Some pzero;
         si_image_url := Some "/static/images/product-antiseptic.svg" |};
      {| si_subcategory := "Floor Detergent"; si_name := "Floor Detergent 4L";
         si_description := Some "Neutral floor cleaner for daily maintenance.";
         si_unit := Some "Jerrycan 4L"; si_price := Some pzero;
         si_image_url := Some "/static/images/product-floor.svg" |};
      {| si_subcategory := "Floor Detergent"; si_name := "Floor Detergent 10L";
         si_description := Some "High coverage floor detergent.";
         si_unit := Some "Jerrycan 10L"; si_price := Some pzero;
         si_image_url := Some "/static/images/product-floor.svg" |};
      {| si_subcategory := "Floor Detergent"; si_name := "Floor Detergent 22L";
         si_description := Some "Bulk floor detergent for large venues.";
         si_unit := Some "Jerrycan 22L"; si_price := Some pzero;
         si_image_url := Some "/static/images/product-floor.svg" |};
      {| si_subcategory := "Floor Detergent"; si_name := "Floor Detergent 30L";
         si_description := Some "Heavy-duty stock for facilities teams.";
         si_unit := Some "Jerrycan 30L"; si_price := Some pzero;
         si_image_url := Some "/static/images/product-floor.svg" |};
      {| si_subcategory := "Dishwashing"; si_name := "Dishwashing 4L";
         si_description := Some "Concentrated dishwashing liquid.";
         si_unit := Some "Jerrycan 4L"; si_price := Some pzero;
         si_image_url := Some "/static/images/product-dish.svg" |};
      {| si_subcategory := "Dishwashing"; si_name := "Dishwashing 10L";
         si_description := Some "Economical pack for dishwashing lines.";
         si_unit := Some "Jerrycan 10L"; si_price := Some pzero;
         si_image_url := Some "/static/images/product-dish.svg" |};
      {| si_subcategory := "Dishwashing"; si_name := "Dishwashing 22L";
         si_description := Some "Bulk supply for central dish rooms.";
         si_unit := Some "Jerrycan 22L"; si_price := Some pzero;
         si_image_url := Some "/static/images/product-dish.svg" |};
      {| si_subcategory := "Dishwashing"; si_name := "Dishwashing 30L";
         si_description := Some "Maximum volume dishwashing liquid.";
         si_unit := Some "Jerrycan 30L"; si_price := Some pzero;
         si_image_url := Some "/static/images/product-dish.svg" |};
      {| si_subcategory := "Hand Soap"; si_name := "Hand Soap 4L";
         si_description := Some "Fragrance-free formula suitable for kitchen teams.";
         si_unit := Some "Jerrycan 4L"; si_price := Some pzero;
         si_image_url := Some "/static/images/product-hand-soap.svg" |};
      {| si_subcategory := "Hand Soap"; si_name := "Hand Soap 10L";
         si_description := Some "High-volume refill for dispenser systems.";
         si_unit := Some "Jerrycan 10L"; si_price := Some pzero;
         si_image_url := Some "/static/images/product-hand-soap.svg" |} ] |};
  {| sc_slug := "food-packaging";
     sc_name := "Food & Packaging Containers";
     sc_description := "Pizza boxes, plastic takeaway containers, salad bowls and kraft packaging for delivery and dine-out programs.";
     sc_image_url := Some "/static/images/category-packaging.svg";
     sc_items := [
      {| si_subcategory := "Pizza Boxes"; si_name := "Pizza Box 20cm";
         si_description := Some "Corrugated pizza box 20cm, vented.";
         si_unit := Some "Bundle"; si_price := Some pzero;
         si_image_url := Some "/static/images/product-pizza-box.svg" |};
      {| si_subcategory := "Pizza Boxes"; si_name := "Pizza Box 30cm";
         si_description := Some "Corrugated pizza box 30cm, vented.";
         si_unit := Some "Bundle"; si_price := Some pzero;
         si_image_url := Some "/static/images/product-pizza-box.svg" |};
      {| si_subcategory := "Pizza Boxes"; si_name := "Pizza Box 35cm";
         si_description := Some "Wide format pizza box 35cm.";
         si_unit := Some "Bundle"; si_price := Some pzero;
         si_image_url := Some "/static/images/product-pizza-box.svg" |};
      {| si_subcategory := "Pizza Boxes"; si_name := "Pizza Box 40cm";
         si_description := Some "XL pizza box 40cm for family portions.";
         si_unit := Some "Bundle"; si_price := Some pzero;
         si_image_url := Some "/static/images/product-pizza-box.svg" |};
      {| si_subcategory := "Plastic Boxes"; si_name := "Plastic Box 100cc";
         si_description := Some "Microwave-safe PP box 100cc.";
         si_unit := Some "Carton"; si_price := Some pzero;
         si_image_url := Some "/static/images/product-plastic-box.svg" |};
      {| si_subcategory := "Plastic Boxes"; si_name := "Plastic Box 150cc";
         si_description := Some "Microwave-safe PP box 150cc.";
         si_unit := Some "Carton"; si_price := Some pzero;
         si_image_url := Some "/static/images/product-plastic-box.svg" |};
      {| si_subcategory := "Plastic Boxes"; si_name := "Plastic Box 375cc";
         si_description := Some "Microwave-safe PP box 375cc.";
         si_unit := Some "Carton"; si_price := Some pzero;
         si_image_url := Some "/static/images/product-plastic-box.svg" |};
      {| si_subcategory := "Plastic Boxes"; si_name := "Plastic Box 750cc";
         si_description := Some "Microwave-safe PP box 750cc.";
         si_unit := Some "Carton"; si_price := Some pzero;
         si_image_url := Some "/static/images/product-plastic-box.svg" |};
      {| si_subcategory := "Plastic Boxes"; si_name := "Plastic Box 1000cc";
         si_description := Some "Microwave-safe PP box 1000cc.";
         si_unit := Some "Carton"; si_price := Some pzero;
         si_image_url := Some "/static/images/product-plastic-box.svg" |};
      {| si_subcategory := "Plastic Boxes"; si_name := "Plastic Box 1500cc";
         si_description := Some "Microwave-safe PP box 1500cc.";
         si_unit := Some "Carton"; si_price := Some pzero;
         si_image_url := Some "/static/images/product-plastic-box.svg" |};
      {| si_subcategory := "Sandwich Wrappers"; si_name := "Sandwich Wrappers";
         si_description := Some "Grease-resistant sandwich wrap sheets.";
         si_unit := Some "Bundle"; si_price := Some pzero;
         si_image_url := Some "/static/images/product-wrapper.svg" |};
      {| si_subcategory := "Salad Bowls"; si_name := "Salad Bowls";
         si_description := Some "Clear salad bowls with lid.";
         si_unit := Some "Carton"; si_price := Some pzero;
         si_image_url := Some "/static/images/product-salad-bowl.svg" |};
      {| si_subcategory := "Kraft Bags"; si_name := "Kraft Bags";
         si_description := Some "Sturdy kraft takeaway bags.";
         si_unit := Some "Bundle"; si_price := Some pzero;
         si_image_url := Some "/static/images/product-kraft-bag.svg" |};
      {| si_subcategory := "Carton Plates"; si_name := "Carton Plates";
         si_description := Some "Rigid carton plates for catering service.";
         si_unit := Some "Bundle"; si_price := Some pzero;
         si_image_url := Some "/static/images/product-carton-plate.svg" |} ] |};
  {| sc_slug := "hygiene-safety";
     sc_name := "Hygiene & Safety";
     sc_description := "Protective gloves, hair nets, sleeves and trash bags for front and back of house teams.";
     sc_image_url := Some "/static/images/category-hygiene.svg";
     sc_items := [
      {| si_subcategory := "Gloves"; si_name := "Latex Gloves - Small (Blue)";
         si_description := Some "Powder-free latex gloves, blue, size small.";
         si_unit := Some "Box"; si_price := Some pzero;
         si_image_url := Some "/static/images/product-gloves.svg" |};
      {| si_subcategory := "Gloves"; si_name := "Latex Gloves - Medium (Blue)";
         si_description := Some "Powder-free latex gloves, blue, size medium.";
         si_unit := Some "Box"; si_price := Some pzero;
         si_image_url := Some "/static/images/product-gloves.svg" |};
      {| si_subcategory := "Gloves"; si_name := "Latex Gloves - Large (Blue)";
         si_description := Some "Powder-free latex gloves, blue, size large.";
         si_unit := Some "Box"; si_price := Some pzero;
         si_image_url := Some "/static/images/product-gloves.svg" |};
      {| si_subcategory := "Gloves"; si_name := "Latex Gloves - Small (Black)";
         si_description := Some "Powder-free latex gloves, black, size small.";
         si_unit := Some "Box"; si_price := Some pzero;
         si_image_url := Some "/static/images/product-gloves.svg" |};
      {| si_subcategory := "Gloves"; si_name := "Latex Gloves - Medium (Black)";
         si_description := Some "Powder-free latex gloves, black, size medium.";
         si_unit := Some "Box"; si_price := Some pzero;
         si_image_url := Some "/static/images/product-gloves.svg" |};
      {| si_subcategory := "Gloves"; si_name := "Latex Gloves - Large (Black)";
         si_description := Some "Powder-free latex gloves, black, size large.";
         si_unit := Some "Box"; si_price := Some pzero;
         si_image_url := Some "/static/images/product-gloves.svg" |};
      {| si_subcategory := "Hair Nets"; si_name := "Hair Nets (White)";
         si_description := Some "Breathable disposable hair nets, white.";
         si_unit := Some "Pack"; si_price := Some pzero;
         si_image_url := Some "/static/images/product-hairnet.svg" |};
      {| si_subcategory := "Hair Nets"; si_name := "Hair Nets (Black)";
         si_description := Some "Breathable disposable hair nets, black.";
         si_unit := Some "Pack"; si_price := Some pzero;
         si_image_url := Some "/static/images/product-hairnet.svg" |};
      {| si_subcategory := "Hand Sleeves"; si_name := "Hand Sleeves (White)";
         si_description := Some "Disposable hand sleeves, white.";
         si_unit := Some "Pack"; si_price := Some pzero;
         si_image_url := Some "/static/images/product-sleeve.svg" |};
      {| si_subcategory := "Hand Sleeves"; si_name := "Hand Sleeves (Black)";
         si_description := Some "Disposable hand sleeves, black.";
         si_unit := Some "Pack"; si_price := Some pzero;
         si_image_url := Some "/static/images/product-sleeve.svg" |};
      {| si_subcategory := "Trash Bags"; si_name := "Trash Bags - Small";
         si_description := Some "High-density small trash bags.";
         si_unit := Some "Roll"; si_price := Some pzero;
         si_image_url := Some "/static/images/product-trash-bag.svg" |};
      {| si_subcategory := "Trash Bags"; si_name := "Trash Bags - Medium";
         si_description := Some "High-density medium trash bags.";
         si_unit := Some "Roll"; si_price := Some pzero;
         si_image_url := Some "/static/images/product-trash-bag.svg" |};
      {| si_subcategory := "Trash Bags"; si_name := "Trash Bags - Large";
         si_description := Some "High-density large trash bags.";
         si_unit := Some "Roll"; si_price := Some pzero;
         si_image_url := Some "/static/images/product-trash-bag.svg" |};
      {| si_subcategory := "Trash Bags"; si_name := "Trash Bags - 85cm";
         si_description := Some "Extra-strong trash bags 85cm.";
         si_unit := Some "Roll"; si_price := Some pzero;
         si_image_url := Some "/static/images/product-trash-bag.svg" |};
      {| si_subcategory := "Trash Bags"; si_name := "Trash Bags - 110cm";
         si_description := Some "Extra-strong trash bags 110cm.";
         si_unit := Some "Roll"; si_price := Some pzero;
         si_image_url := Some "/static/images/product-trash-bag.svg" |};
      {| si_subcategory := "Trash Bags"; si_name := "Trash Bags - 125cm";
         si_description := Some "Extra-strong trash bags 125cm.";
         si_unit := Some "Roll"; si_price := Some pzero;
         si_image_url := Some "/static/images/product-trash-bag.svg" |} ] |};
  {| sc_slug := "cloths-wipes";
     sc_name := "Microfiber Cloths & Wipes";
     sc_description := "Reusable microfiber cloths and disposable wipes for service stations.";
     sc_image_url := Some "/static/images/category-cloths.svg";
     sc_items := [
      {| si_subcategory := "Microfiber Cloths"; si_name := "Microfiber Color-Coded Cloths";
         si_description := Some "Color-coded cloths for HACCP separation.";
         si_unit := Some "Pack of 20"; si_price := Some pzero;
         si_image_url := Some "/static/images/product-microfiber.svg" |};
      {| si_subcategory := "Wipes"; si_name := "Service Wipes";
         si_description := Some "Disposable wipes for food contact surfaces.";
         si_unit := Some "Tub of 200"; si_price := Some pzero;
         si_image_url := Some "/static/images/product-wipes.svg" |} ] |};
  {| sc_slug := "tissues-napkins";
     sc_name := "Tissues & Napkins";
     sc_description := "Interfold napkins, toilet napkins and kitchen rolls stocked for dining rooms.";
     sc_image_url := Some "/static/images/category-tissues.svg";
     sc_items := [
      {| si_subcategory := "Interfold Napkins"; si_name := "Interfold Napkins 2kg";
         si_description := Some "Food-service interfold napkins 2kg.";
         si_unit := Some "Pack"; si_price := Some pzero;
         si_image_url := Some "/static/images/product-interfold.svg" |};
      {| si_subcategory := "Interfold Napkins"; si_name := "Interfold Napkins 3kg";
         si_description := Some "Food-service interfold napkins 3kg.";
         si_unit := Some "Pack"; si_price := Some pzero;
         si_image_url := Some "/static/images/product-interfold.svg" |};
      {| si_subcategory := "Interfold Napkins"; si_name := "Interfold Napkins 4kg";
         si_description := Some "Food-service interfold napkins 4kg.";
         si_unit := Some "Pack"; si_price := Some pzero;
         si_image_url := Some "/static/images/product-interfold.svg" |};
      {| si_subcategory := "Toilet Napkins"; si_name := "Toilet Napkins (6 rolls)";
         si_description := Some "Soft-touch toilet napkins pack of 6 rolls.";
         si_unit := Some "Pack"; si_price := Some pzero;
         si_image_url := Some "/static/images/product-toilet.svg" |};
      {| si_subcategory := "Kitchen Napkins"; si_name := "Kitchen Napkins (6 rolls)";
         si_description := Some "Highly absorbent kitchen napkins pack of 6.";
         si_unit := Some "Pack"; si_price := Some pzero;
         si_image_url := Some "/static/images/product-kitchen.svg" |} ] |} ].

(** [run], up to the point where the HTTP server is created: [init_db()]
    then [seed_data()], the second only if the first returned. *)
Definition run : database P -> result unit * database P :=
  fun d =>
    match init_db d with
    | (Raise e, d1) => (Raise e, d1)
    | (Ok _, d1) => seed_data catalog_seed d1
    end.

End Startup.

(* ================================================================== *)
(** ** Sample data                                                     *)
(* ================================================================== *)

(** Exact rational prices, for the worked examples. *)
#[export] Instance Q_prices : PriceArith Q := {
  pzero := 0%Q;
  padd := Qplus;
  pscale := fun p n => Qmult p (inject_Z n);
  pformat2 := fun _ => "0.00"
}.

(** The limits of SQLite 3.40.1 as Debian builds it, for the examples. *)
#[export] Instance sqlite_limits : Engine := {
  max_sql_length := 1000000000;
  max_variable_number := 250000;
  max_length := 1000000000
}.

Module Sample.

Definition product (id cid : Z) (sub name : string) (price : Q) : product_row Q :=
  {| prod_id := id; prod_category_id := cid; prod_subcategory := sub;
     prod_name := name; prod_description := None; prod_unit := None;
     prod_price := price; prod_image_url := None |}.

Definition category (id : Z) (slug name : string) : category_row :=
  {| cat_id := id; cat_slug := slug; cat_name := name;
     cat_description := None; cat_image_url := None |}.

(** A shop with a canonical category, a retired category whose product an
    order references, and a retired category nothing references. *)
Definition shop : database Q :=
  {| categories := [category 1 "detergent-cleaning" "Detergent & Cleaning Liquids";
                    category 2 "old-stock" "Clearance";
                    category 3 "seasonal" "Barbecue"];
     products := [product 7 1 "Chlorine" "Chlorine 4L" 4;
                  product 9 1 "Chlorine" "Chlorine 10L" (25 # 2);
                  product 10 2 "Misc" "Bucket" 3;
                  product 11 3 "Coal" "Charcoal 5kg" 6];
     orders := [ {| ord_id := 1; ord_customer_name := "Rami"; ord_email := "rami@example.com";
                    ord_phone := "03123456"; ord_address := "Beirut";
                    ord_status := "pending_verification";
                    ord_verification_code := Some "4821";
                    ord_created_at := "2024-01-05T10:00:00" |} ];
     order_items := [ {| oi_id := 1; oi_order_id := 1; oi_product_id := 10; oi_quantity := 2 |} ];
     seq_categories := 3; seq_products := 11; seq_orders := 1; seq_order_items := 1 |}.

(** The head of the source's [catalog_seed]: its first category with the
    first three items. *)
Definition catalog_excerpt : list (seed_category Q) :=
  [ {| sc_slug := "detergent-cleaning";
       sc_name := "Detergent & Cleaning Liquids";
       sc_description := "Bulk chlorine, antiseptic solutions, floor detergents, dishwashing liquids and hand soaps for kitchen hygiene protocols.";
       sc_image_url := Some "/static/images/category-detergent.svg";
       sc_items :=
         [ {| si_subcategory := "Chlorine"; si_name := "Chlorine 4L";
              si_description := Some "Concentrated chlorine for dishwashing stations.";
              si_unit := Some "Jerrycan 4L"; si_price := Some 0%Q;
              si_image_url := Some "/static/images/product-chlorine.svg" |};
           {| si_subcategory := "Chlorine"; si_name := "Chlorine 10L";
              si_description := Some "Medium volume chlorine for daily cleaning.";
              si_unit := Some "Jerrycan 10L"; si_price := Some 0%Q;
              si_image_url := Some "/static/images/product-chlorine.svg" |};
           {| si_subcategory := "Chlorine"; si_name := "Chlorine 22L";
              si_description := Some "High capacity chlorine stock.";
              si_unit := Some "Jerrycan 22L"; si_price := Some 0%Q;
              si_image_url := Some "/static/images/product-chlorine.svg" |} ] |} ].

Definition line (product_id quantity : pyval) : pyval :=
  PDict [("productId", product_id); ("quantity", quantity)].

Definition settings_unset : Settings :=
  {| smtp_host := None; smtp_port := 587; smtp_username := None;
     smtp_password := None; email_from := None; email_use_tls := true |}.

Definition settings_mail : Settings :=
  {| smtp_host := Some "mail.example.com"; smtp_port := 587; smtp_username := None;
     smtp_password := None; email_from := Some "shop@example.com";
     email_use_tls := true |}.

Definition server_up : SmtpServer :=
  {| on_connect := fun _ _ => None; on_starttls := None; on_login := fun _ _ => None;
     on_send_message := fun _ => None; on_quit := None |}.

Definition server_down : SmtpServer :=
  {| on_connect := fun _ _ => Some (OtherError "connection refused");
     on_starttls := None; on_login := fun _ _ => None;
     on_send_message := fun _ => None; on_quit := None |}.

(** A header factory that keeps the raw text. *)
Definition raw_header (name value : string) : string := value.

Definition no_repr (v : pyval) : string := "".

Definition payload (name email phone address items : pyval) : pyval :=
  PDict [("customerName", name); ("email", email); ("phone", phone);
         ("address", address); ("items", items)].

End Sample.

Import Sample.


(** A cart line as the shop's client sends it: both fields JSON integers. *)
Definition cart_line (l : Z * Z) : pyval :=
  PDict [("productId", PInt (fst l)); ("quantity", PInt (snd l))].

Definition cart_items (cart : list (Z * Z)) : list pyval := map cart_line cart.

(** What the two [int(...)] coercions of [create_order] read in a cart
    line, when both succeed. *)
Definition coerce_line (item : pyval) : option (Z * Z) :=
  match item with
  | PDict d =>
      match Py.dict_get "productId" d, Py.dict_get "quantity" d with
      | Some v, Some w =>
          match Py.int v, Py.int w with
          | Ok product_id, Ok quantity => Some (product_id, quantity)
          | _, _ => None
          end
      | _, _ => None
      end
  | _ => None
  end.

(* ================================================================== *)
(** ** The vocabulary of the properties                                *)
(* ================================================================== *)

Section Vocabulary.
Context {P : Type} {PA : PriceArith P} {Lim : Engine}.

Definition known_product (d : database P) (id : Z) : bool :=
  existsb (fun p => prod_id p =? id) (products d).

Definition coerces (items : list pyval) (cart : list (Z * Z)) : Prop :=
  Forall2 (fun item l => coerce_line item = Some l) items cart.

Definition new_order_id (d : database P) : Z :=
  next_rowid (seq_orders d) (map ord_id (orders d)).

(** The rows the second loop of [create_order] appends, one per line. *)
Fixpoint with_items (order_id : Z) (cart : list (Z * Z)) (d : database P) : database P :=
  match cart with
  | [] => d
  | l :: rest =>
      let id := next_rowid (seq_order_items d) (map oi_id (order_items d)) in
      with_items order_id rest
        {| categories := categories d; products := products d; orders := orders d;
           order_items :=
             (order_items d ++
              [ {| oi_id := id; oi_order_id := order_id;
                   oi_product_id := fst l; oi_quantity := snd l |} ])%list;
           seq_categories := seq_categories d; seq_products := seq_products d;
           seq_orders := seq_orders d; seq_order_items := id |}
  end.

Definition placed (timestamp customer_name email phone address : string)
    (cart : list (Z * Z)) (d : database P) : database P :=
  with_items (new_order_id d) cart
    (snd (write_order customer_name email phone address timestamp d)).

Definition line_key (r : order_item_row) : Z * Z * Z :=
  (oi_order_id r, oi_product_id r, oi_quantity r).


Definition product_of (d : database P) (id : Z) : option (product_row P) :=
  find (fun p => prod_id p =? id) (products d).

(** The current price of product [id]. *)
Definition price_of (d : database P) (id : Z) : P :=
  match product_of d id with Some p => prod_price p | None => pzero end.

Definition name_of (d : database P) (id : Z) : string :=
  match product_of d id with Some p => prod_name p | None => "" end.


(** The invalid carts of the specification, for carts of integer lines. *)
Definition invalid_cart (d : database P) (cart : list (Z * Z)) : Prop :=
  cart = []
  \/ Exists (fun l => known_product d (fst l) = false) cart
  \/ Exists (fun l => snd l <= 0) cart.

(** [m] relates the state it starts from to the state it leaves, whether
    it returns or raises. *)
Definition maintains (R : database P -> database P -> Prop) {A : Type}
    (m : cursor A) : Prop :=
  forall d, R d (snd (m d)).

Definition all_received (d : database P) : Prop :=
  Forall (fun o => ord_status o = "received") (orders d).

(** A file as the process may find it at startup: each order is in the
    current status or in the legacy one. *)
Definition legacy_statuses (d : database P) : Prop :=
  Forall (fun o => ord_status o = "received"
                   \/ ord_status o = "pending_verification") (orders d).

(** The states the storefront can leave the file in: started by [init_db]
    on a file as found, then any sequence of [init_db], [seed_data],
    [create_order] and the two read operations. *)
Inductive reachable (catalog_seed : list (seed_category P)) : database P -> Prop :=
| reach_startup d0 :
    legacy_statuses d0 -> reachable catalog_seed (snd (init_db d0))
| reach_init_db d :
    reachable catalog_seed d -> reachable catalog_seed (snd (init_db d))
| reach_seed_data d :
    reachable catalog_seed d -> reachable catalog_seed (snd (seed_data catalog_seed d))
| reach_create_order d timestamp customer_name email phone address items :
    reachable catalog_seed d ->
    reachable catalog_seed
      (snd (create_order timestamp customer_name email phone address items d))
| reach_get_catalog d :
    reachable catalog_seed d -> reachable catalog_seed (snd (get_catalog d))
| reach_get_order_summary d order_id :
    reachable catalog_seed d ->
    reachable catalog_seed (snd (get_order_summary order_id d)).

Definition keeps_received (d d' : database P) : Prop :=
  all_received d -> all_received d'.

Definition same_orders (d d' : database P) : Prop := orders d' = orders d.

Definition unchanged (d d' : database P) : Prop := d' = d.

(** The items of the groups in order, each under the label of its group. *)
Definition tagged (groups : list (subcategory_group P)) : list (string * catalog_item P) :=
  flat_map (fun g => map (fun it => (sg_subcategory g, it)) (sg_items g)) groups.

Definition group_keys (groups : list (subcategory_group P)) : list string :=
  map sg_subcategory groups.


Definition tag_product (p : product_row P) : string * catalog_item P :=
  (prod_subcategory p, catalog_item_of p).

(** From a state that satisfies [Pre], [m] returns (it does not raise)
    and leaves a state that satisfies [Post]. *)
Definition ensures {A : Type} (Pre : database P -> Prop) (m : cursor A)
    (Post : A -> database P -> Prop) : Prop :=
  forall d, Pre d -> exists a d', m d = (Ok a, d') /\ Post a d'.

(** Some order item references a product of category [cid]. *)
Definition referenced (d : database P) (cid : Z) : bool :=
  existsb (references_category cid d) (order_items d).

(** The constraints the catalogue tables come with: ids are unique
    (PRIMARY KEY) and AUTOINCREMENT's counter is not below an id in use. *)
Definition catalog_ok (d : database P) : Prop :=
  NoDup (map cat_id (categories d))
  /\ NoDup (map prod_id (products d))
  /\ Forall (fun c => cat_id c <= seq_categories d) (categories d).

Definition steady (d0 d : database P) : Prop :=
  catalog_ok d /\ order_items d = order_items d0.

(** The category is in place, with the products it started with. *)
Definition kept (c : category_row) (d0 d : database P) : Prop :=
  steady d0 d /\ In c (categories d)
  /\ products_of_category (cat_id c) d = products_of_category (cat_id c) d0.

(** The category and its products are gone. *)
Definition gone (c : category_row) (d0 d : database P) : Prop :=
  steady d0 d
  /\ existsb (fun c' => cat_id c' =? cat_id c) (categories d) = false
  /\ products_of_category (cat_id c) d = []
  /\ cat_id c <= seq_categories d.

(** What the first loop still has to visit, in the case where [c] is to
    be removed: [c] is in place until its own row is met and gone after. *)
Definition pruning (c : category_row) (d0 : database P)
    (rest : list (Z * string)) (d : database P) : Prop :=
  NoDup (map fst rest)
  /\ (forall x, In x rest -> fst x = cat_id c -> snd x = cat_slug c)
  /\ (if mem_Z (cat_id c) (map fst rest) then kept c d0 d else gone c d0 d).

(** [d'] holds every product and category of [d], possibly with other
    columns updated, and the same order items. *)
Definition extends (d d' : database P) : Prop :=
  order_items d' = order_items d
  /\ (forall p, In p (products d) ->
        exists p', In p' (products d') /\ prod_id p' = prod_id p
                   /\ prod_category_id p' = prod_category_id p)
  /\ (forall c, In c (categories d) ->
        exists c', In c' (categories d') /\ cat_id c' = cat_id c
                   /\ cat_slug c' = cat_slug c).

(** [d'] holds the same order items as [d], every product one of them
    references and the category of each such product. *)
Definition keeps_referenced (d d' : database P) : Prop :=
  order_items d' = order_items d
  /\ (forall oi p, In oi (order_items d) -> In p (products d) ->
        prod_id p = oi_product_id oi ->
        exists p', In p' (products d') /\ prod_id p' = prod_id p
                   /\ prod_category_id p' = prod_category_id p)
  /\ (forall oi p c, In oi (order_items d) -> In p (products d) ->
        prod_id p = oi_product_id oi ->
        In c (categories d) -> cat_id c = prod_category_id p ->
        exists c', In c' (categories d') /\ cat_id c' = cat_id c
                   /\ cat_slug c' = cat_slug c).

End Vocabulary.



Definition str_lt (a b : string) : Prop := String.compare a b = Lt.

Definition header_error : string :=
  "Header values may not contain linefeed or carriage return characters".

(** The summary of an order whose email address has a line break inside:
    "a@b", LF, "c".  The endpoint accepts such an address (it contains "@"). *)
Definition summary_line_break : order_summary Q :=
  {| os_id := 2; os_customerName := "Nour"; os_email := "a@b" ++ newline ++ "c";
     os_phone := "03987654"; os_address := "Tripoli"; os_status := "received";
     os_createdAt := "2024-02-01T09:30:00";
     os_items := [ {| sl_name := "Chlorine 4L"; sl_price := 4%Q; sl_quantity := 2;
                      sl_lineTotal := 8%Q |} ];
     os_total := 8%Q |}.

Definition single_line (s : string) : bool := negb (1 <? Py.splitlines_len s)%nat.

(** The address the message is sent from. *)
Definition sender_of (settings : Settings) : string :=
  match email_from settings with
  | Some a => if truthy a then a else "Ziad's Supplies <no-reply@ziads-supplies.local>"
  | None => "Ziad's Supplies <no-reply@ziads-supplies.local>"
  end.

Definition no_smtp (effects : list effect) : bool :=
  forallb (fun e => match e with LogInfo | LogError => true | _ => false end) effects.

Definition configured (settings : Settings) : bool :=
  truthy_opt (smtp_host settings) && truthy_opt (email_from settings).

Definition has_key (k : string) (fields : list (string * pyval)) : bool :=
  match Py.dict_get k fields with Some _ => true | None => false end.

Definition well_formed_item (item : pyval) : bool :=
  match item with
  | PDict d => has_key "productId" d && has_key "quantity" d
  | _ => false
  end.

(** The acceptance condition in the words of the specification: the five
    fields are present, [items] is a non-empty list of objects that each
    carry [productId] and [quantity], the trimmed email contains "@", and
    the trimmed phone has at least six characters. *)
Definition spec_payload_accepted (repr_of : pyval -> string)
    (fields : list (string * pyval)) : bool :=
  forallb (fun f => has_key f fields) required_fields
  && match Py.dict_get "items" fields with
     | Some (PList (x :: l)) => forallb well_formed_item (x :: l)
     | _ => false
     end
  && match Py.dict_get "email" fields with
     | Some v => Py.contains "@" (Py.strip (str repr_of v))
     | None => false
     end
  && match Py.dict_get "phone" fields with
     | Some v => negb (Py.len (Py.strip (str repr_of v)) <? 6)%nat
     | None => false
     end.

Definition is_none {A : Type} (o : option A) : bool :=
  match o with None => true | Some _ => false end.

(** The carts [create_order] accepts, as lines of integers: not empty, no
    product on two lines, every product in the table, every quantity
    positive, and every number within SQLite's INTEGER. *)
Definition accepted_cart {P : Type} (d : database P) (cart : list (Z * Z)) : Prop :=
  cart <> []
  /\ NoDup (map fst cart)
  /\ Forall (fun l => known_product d (fst l) = true /\ in_int64 (fst l) = true
                      /\ 0 < snd l /\ in_int64 (snd l) = true) cart.

(** The statement of [_get_products_by_ids] for these ids is within the
    engine's limits: its text is no longer than SQLITE_LIMIT_SQL_LENGTH and it
    has no more parameters than SQLITE_LIMIT_VARIABLE_NUMBER. *)
Definition within_limits {Lim : Engine} (product_ids : list Z) : bool :=
  (utf8_size (select_products_sql product_ids) <=? max_sql_length)
  && (Z.of_nat (List.length product_ids) <=? max_variable_number).

(** The texts of an order can be bound and stored: none holds a lone
    surrogate, none is longer than [INT_MAX] bytes, and the row they make is
    within SQLITE_LIMIT_LENGTH. *)
Definition storable {Lim : Engine}
    (timestamp customer_name email phone address : string) : bool :=
  forallb (fun s => Py.encodable s && (utf8_size s <=? c_int_max))
          [customer_name; email; phone; address; timestamp]
  && (record_size [customer_name; email; phone; address; "received"; ""; timestamp]
      <=? max_length).

(** The row [create_order] writes to [orders]. *)
Definition received_order (order_id : Z)
    (timestamp customer_name email phone address : string) : order_row :=
  {| ord_id := order_id; ord_customer_name := customer_name; ord_email := email;
     ord_phone := phone; ord_address := address; ord_status := "received";
     ord_verification_code := Some ""; ord_created_at := timestamp |}.

(** What an order item row holds beside its own id. *)
Definition line_of (r : order_item_row) : option (Z * Z) :=
  Some (oi_product_id r, oi_quantity r).

Definition order_exists {P : Type} (d : database P) (order_id : Z) : bool :=
  existsb (fun o => ord_id o =? order_id) (orders d).

(** The order items of one order, in rowid order. *)
Definition items_of_order {P : Type} (d : database P) (order_id : Z) : list order_item_row :=
  filter (fun oi => oi_order_id oi =? order_id) (order_items d).

(** The summary line of an order item at the current name and price of its
    product. *)
Definition current_line {P : Type} {PA : PriceArith P} (d : database P)
    (oi : order_item_row) : summary_line P :=
  {| sl_name := name_of d (oi_product_id oi);
     sl_price := price_of d (oi_product_id oi);
     sl_quantity := oi_quantity oi;
     sl_lineTotal := pscale (price_of d (oi_product_id oi)) (oi_quantity oi) |}.

(** A text field of a request body: the value under the key, when the body
    is an object and the value a string. *)
Definition text_field (data : pyval) (k : string) : option string :=
  match data with
  | PDict fields =>
      match Py.dict_get k fields with Some (PStr s) => Some s | _ => None end
  | _ => None
  end.

Definition is_created (answer : response) : bool :=
  match answer with Created _ => true | _ => false end.

(** *** Reconciliation *)

Section ReconcileVocabulary.
Context {P : Type} {PA : PriceArith P} {Lim : Engine}.

(** The two lookups of the second loop of [seed_data]. *)
Definition slug_is (slug : string) (r : category_row) : bool :=
  String.eqb (cat_slug r) slug.

Definition product_is (cid : Z) (name : string) (p : product_row P) : bool :=
  (prod_category_id p =? cid) && String.eqb (prod_name p) name.

(** A product row that holds the fields of a seed item. *)
Definition seeded_product (cid : Z) (it : seed_item P) (p : product_row P) : Prop :=
  prod_category_id p = cid /\ prod_name p = si_name it
  /\ prod_subcategory p = si_subcategory it /\ prod_description p = si_description it
  /\ prod_unit p = si_unit it /\ prod_price p = seed_price it
  /\ prod_image_url p = si_image_url it.

(** The product [seed_data] would find for the item holds the item's
    fields. *)
Definition item_seeded (d : database P) (cid : Z) (it : seed_item P) : Prop :=
  exists p, find (product_is cid (si_name it)) (products d) = Some p
            /\ seeded_product cid it p.

(** The category [seed_data] would find for the slug holds the seed's
    fields, and so do the products of its items. *)
Definition category_seeded (d : database P) (sc : seed_category P) : Prop :=
  exists c, find (slug_is (sc_slug sc)) (categories d) = Some c
    /\ cat_name c = sc_name sc /\ cat_description c = Some (sc_description sc)
    /\ cat_image_url c = sc_image_url sc
    /\ Forall (item_seeded d (cat_id c)) (sc_items sc).

(** Every category in the table is one of the catalogue or has a product
    that an order item references. *)
Definition canonical_or_referenced (targets : list string) (d : database P) : Prop :=
  Forall (fun c => mem_string (cat_slug c) targets || referenced d (cat_id c) = true)
         (categories d).

(** A file in line with a seed catalogue. *)
Definition reconciled (seed : list (seed_category P)) (d : database P) : Prop :=
  NoDup (map cat_id (categories d)) /\ NoDup (map prod_id (products d))
  /\ canonical_or_referenced (map sc_slug seed) d
  /\ Forall (category_seeded d) seed.

(** A seed catalogue that names each category once and, within a
    category, each item once. *)
Definition well_formed_seed (seed : list (seed_category P)) : Prop :=
  NoDup (map sc_slug seed)
  /\ Forall (fun sc => NoDup (map si_name (sc_items sc))) seed.

(** What the first loop has still to visit: every category in place is
    canonical, referenced, or ahead in the list. *)
Definition pruned_so_far (targets : list string) (rest : list (Z * string))
    (d : database P) : Prop :=
  NoDup (map cat_id (categories d)) /\ NoDup (map prod_id (products d))
  /\ Forall (fun c => mem_string (cat_slug c) targets || referenced d (cat_id c) = true
                      \/ In (cat_id c, cat_slug c) rest) (categories d).

End ReconcileVocabulary.

(** Pairwise distinct strings, decided. *)
Fixpoint distinct (l : list string) : bool :=
  match l with
  | [] => true
  | x :: rest => negb (mem_string x rest) && distinct rest
  end.

Definition well_formed_seedb {P : Type} (seed : list (seed_category P)) : bool :=
  distinct (map sc_slug seed)
  && forallb (fun sc => distinct (map si_name (sc_items sc))) seed.

(** *** What a catalogue shows *)

Section CatalogVocabulary.
Context {P : Type} {PA : PriceArith P} {Lim : Engine}.

(** The catalogue shows the item, under the item's subcategory and with the
    item's fields, in the category [cc]. *)
Definition shows_item (cc : catalog_category P) (it : seed_item P) : Prop :=
  exists ci,
    In (si_subcategory it, ci) (tagged (cc_subcategories cc))
    /\ ci_name ci = si_name it /\ ci_description ci = si_description it
    /\ ci_unit ci = si_unit it /\ ci_price ci = seed_price it
    /\ ci_imageUrl ci = si_image_url it.

(** The catalogue shows the seed category with all its items. *)
Definition shows_category (catalog : list (catalog_category P))
    (sc : seed_category P) : Prop :=
  exists cc,
    In cc catalog /\ cc_slug cc = sc_slug sc /\ cc_name cc = sc_name sc
    /\ cc_description cc = Some (sc_description sc)
    /\ cc_imageUrl cc = sc_image_url sc
    /\ Forall (shows_item cc) (sc_items sc).

(** [m.get(k)] on a dictionary with integer keys. *)
Fixpoint dict_lookup {V : Type} (k : Z) (m : list (Z * V)) : option V :=
  match m with
  | [] => None
  | (k', v) :: rest => if k' =? k then Some v else dict_lookup k rest
  end.

End CatalogVocabulary.

(** *** Orders and their items *)

Section IntegrityVocabulary.
Context {P : Type} {PA : PriceArith P} {Lim : Engine}.

(** Orders and their items hold together: no order id twice; every order
    item belongs to an order of the table, references a product of the table
    and has a positive quantity; every order has at least one item. *)
Definition integrity (d : database P) : Prop :=
  NoDup (map ord_id (orders d))
  /\ Forall (fun oi => order_exists d (oi_order_id oi) = true
                       /\ known_product d (oi_product_id oi) = true
                       /\ 0 < oi_quantity oi) (order_items d)
  /\ Forall (fun o => existsb (fun oi => oi_order_id oi =? ord_id o) (order_items d)
                      = true) (orders d).

(** One call into the store, with any arguments, returning or raising. *)
Inductive store_step (seed : list (seed_category P)) : database P -> database P -> Prop :=
| step_init_db d : store_step seed d (snd (init_db d))
| step_seed_data d : store_step seed d (snd (seed_data seed d))
| step_create_order d timestamp customer_name email phone address items :
    store_step seed d
      (snd (create_order timestamp customer_name email phone address items d))
| step_get_catalog d : store_step seed d (snd (get_catalog d))
| step_get_order_summary d order_id :
    store_step seed d (snd (get_order_summary order_id d))
| step_verify_order d order_id verification_code :
    store_step seed d (snd (verify_order order_id verification_code d)).

End IntegrityVocabulary.

(** Characters of a plain mail address: ASCII letters and digits and the
    four signs [.], [_], [+] and [-]. *)
Definition address_char (c : ascii) : bool :=
  let n := nat_of_ascii c in
  ((65 <=? n) && (n <=? 90) || (97 <=? n) && (n <=? 122)
   || (48 <=? n) && (n <=? 57) || (n =? 46) || (n =? 95) || (n =? 43) || (n =? 45))%nat.

(** A non-empty run of address characters. *)
Fixpoint address_part (s : string) : bool :=
  match s with
  | EmptyString => false
  | String c EmptyString => address_char c
  | String c rest => address_char c && address_part rest
  end.

Fixpoint plain_address_from (local_seen : bool) (s : string) : bool :=
  match s with
  | EmptyString => false
  | String c rest =>
      if Ascii.eqb c "@"%char then local_seen && address_part rest
      else address_char c && plain_address_from true rest
  end.

(** A plain address: a non-empty local part, one "@", a non-empty domain,
    all of address characters.  The header parser of the [email] package
    accepts every such value.  On other single-line values (one that ends
    in "@", for instance) the parser of CPython 3.11 raises [IndexError],
    which [header_store_parse] does not model; the properties of the notifier
    below are therefore stated for plain addresses. *)
Definition plain_address (s : string) : bool := plain_address_from false s.

Definition plain_or_empty (s : string) : bool := String.eqb s "" || plain_address s.

(** Text of address characters and "@" signs. *)
Fixpoint address_text (s : string) : Prop :=
  match s with
  | EmptyString => True
  | String c rest => (address_char c = true \/ c = "@"%char) /\ address_text rest
  end.

(** [EMAIL_FROM] is unset, empty or a plain address. *)
Definition sender_plain (settings : Settings) : bool :=
  match email_from settings with
  | Some a => plain_or_empty a
  | None => true
  end.

(** The whole dialogue with the mail server, as the notifier's code orders
    it, closed by the log line of a delivery. *)
Definition full_dialogue (settings : Settings) (host : string) (message : EmailMessage)
  : list effect :=
  ([SmtpConnect host (smtp_port settings)]
   ++ (if email_use_tls settings then [SmtpStartTls] else [])
   ++ match smtp_username settings, smtp_password settings with
      | Some u, Some p => if truthy u && truthy p then [SmtpLogin u p] else []
      | _, _ => []
      end
   ++ [SmtpSendMessage message; SmtpQuit; LogInfo])%list.

Definition is_login (e : effect) : bool :=
  match e with SmtpLogin _ _ => true | _ => false end.

Definition is_send (e : effect) : bool :=
  match e with SmtpSendMessage _ => true | _ => false end.

(** The summary of Nour's order. *)
Definition summary_of_nour : order_summary Q :=
  {| os_id := 2; os_customerName := "Nour"; os_email := "nour@example.com";
     os_phone := "03987654"; os_address := "Tripoli"; os_status := "received";
     os_createdAt := "2024-02-01T09:30:00";
     os_items := [ {| sl_name := "Chlorine 4L"; sl_price := 4%Q; sl_quantity := 2;
                      sl_lineTotal := 8%Q |} ];
     os_total := 8%Q |}.

(** A mail configuration with credentials, and a server that refuses
    STARTTLS. *)
Definition settings_auth : Settings :=
  {| smtp_host := Some "mail.example.com"; smtp_port := 587;
     smtp_username := Some "shop"; smtp_password := Some "secret";
     email_from := Some "shop@example.com"; email_use_tls := true |}.

Definition server_no_tls : SmtpServer :=
  {| on_connect := fun _ _ => None;
     on_starttls := Some (OtherError "STARTTLS extension not supported by server.");
     on_login := fun _ _ => None; on_send_message := fun _ => None; on_quit := None |}.

(** The body of Nour's request. *)
Definition request_of_nour : pyval :=
  payload (PStr " Nour ") (PStr "nour@example.com") (PStr "03987654")
          (PStr "Tripoli") (PList [line (PInt 7) (PInt 2); line (PInt 9) (PInt 1)]).

(** Nour's order on a shop with rational prices. *)
Definition order_of_nour (items : list pyval) (d : database Q) : result Z * database Q :=
  create_order "2024-02-01T09:30:00" "Nour" "nour@example.com" "03987654" "Tripoli"
    items d.

(* ================================================================== *)
(** ** Properties                                                      *)
(* ================================================================== *)

Section TransactionFacts.
Context {P : Type} {PA : PriceArith P} {Lim : Engine}.

(** A block that raises leaves the file as it was. *)
Lemma db_cursor_raise {A : Type} (body : cursor A) (d d' : database P) (e : exn) :
  db_cursor body d = (Raise e, d') -> d' = d.
Proof.
  unfold db_cursor. destruct (body d) as [[a | e'] d1]; intros H; inversion H; reflexivity.
Qed.

Lemma db_cursor_ok {A : Type} (body : cursor A) (d d' : database P) (a : A) :
  body d = (Ok a, d') -> db_cursor body d = (Ok a, d').
Proof. unfold db_cursor. intros ->. reflexivity. Qed.

Lemma db_cursor_body_raise {A : Type} (body : cursor A) (d d' : database P) (e : exn) :
  body d = (Raise e, d') -> db_cursor body d = (Raise e, d).
Proof. unfold db_cursor. intros ->. reflexivity. Qed.

Lemma find_none_iff {A : Type} (f : A -> bool) (l : list A) :
  find f l = None <-> (forall x, In x l -> f x = false).
Proof.
  split.
  - apply find_none.
  - induction l as [| x l IH]; intros H; simpl; [reflexivity |].
    rewrite (H x (or_introl eq_refl)). apply IH. intros y Hy. apply H. now right.
Qed.

End TransactionFacts.

Section SummaryFacts.
Context {P : Type} {PA : PriceArith P} {Lim : Engine}.

(** C8, for ids in the 64-bit range: for an order id within SQLite's signed 64-bit range
    that identifies no persisted order, [get_order_summary] returns [None]
    without raising and leaves the database as it was. *)
Theorem get_order_summary_not_found (d : database P) (order_id : Z) :
  in_int64 order_id = true ->
  (forall o, In o (orders d) -> (ord_id o =? order_id) = false) ->
  get_order_summary order_id d = (Ok None, d).
Proof.
  intros Hrange Hfresh.
  unfold get_order_summary, db_cursor, cbind, lift, query, bind_int.
  rewrite Hrange.
  destruct (find (fun o => ord_id o =? order_id) (orders d)) as [o |] eqn:Hfind.
  - apply find_some in Hfind. destruct Hfind as [Hin Heq].
    rewrite (Hfresh o Hin) in Heq. discriminate.
  - reflexivity.
Qed.

End SummaryFacts.

(** C8, outside that range: an order id one past the 64-bit
    range is refused when it is bound, so the call raises. *)
Lemma get_order_summary_out_of_range :
  get_order_summary (2 ^ 63) shop = (Raise OverflowError, shop).
Proof. vm_compute. reflexivity. Qed.

Lemma get_order_summary_not_found_witness :
  get_order_summary 5 shop = (Ok None, shop).
Proof.
  apply (get_order_summary_not_found shop 5).
  - reflexivity.
  - intros o [<- | []]. reflexivity.
Defined.

Section OrderFacts.
Context {P : Type} {PA : PriceArith P} {Lim : Engine}.

Lemma coerce_cart_line (l : Z * Z) : coerce_line (cart_line l) = Some l.
Proof. destruct l; reflexivity. Qed.

Lemma coerces_cart_items (cart : list (Z * Z)) : coerces (cart_items cart) cart.
Proof.
  induction cart as [| l cart IH]; constructor; [apply coerce_cart_line | exact IH].
Qed.

(** What a successful coercion says about the three reads of a line. *)
Lemma coerce_line_reads (item : pyval) (l : Z * Z) :
  coerce_line item = Some l ->
  item_product_id item = Ok (fst l)
  /\ (v <- Py.get item "quantity" (PInt 0) ;; Py.int v)%py = Ok (snd l)
  /\ (v <- Py.getitem item "quantity" ;; Py.int v)%py = Ok (snd l).
Proof.
  unfold coerce_line, item_product_id.
  destruct item as [| | | | | | dict]; try discriminate.
  simpl.
  destruct (Py.dict_get "productId" dict) as [v |]; try discriminate.
  destruct (Py.dict_get "quantity" dict) as [w |]; try discriminate.
  simpl.
  destruct (Py.int v) as [a |]; try discriminate.
  destruct (Py.int w) as [b |]; try discriminate.
  intros H; inversion H; subst; simpl. repeat split.
Qed.

Lemma product_ids_of_coerced (items : list pyval) (cart : list (Z * Z)) :
  coerces items cart -> map_result item_product_id items = Ok (map fst cart).
Proof.
  induction 1 as [| item l items cart Hl _ IH]; [reflexivity |].
  simpl. destruct (coerce_line_reads _ _ Hl) as [-> _]. simpl.
  rewrite IH. reflexivity.
Qed.

Lemma check_quantities_of_coerced (items : list pyval) (cart : list (Z * Z)) :
  coerces items cart ->
  check_quantities items =
    if forallb (fun l => 0 <? snd l) cart then Ok tt
    else Raise (ValueError "Quantities must be greater than zero.").
Proof.
  induction 1 as [| item l items cart Hl _ IH]; [reflexivity |].
  destruct (coerce_line_reads _ _ Hl) as [_ [Hq _]].
  cbn [check_quantities forallb].
  unfold Py.bind in Hq |- *.
  destruct (Py.get item "quantity" (PInt 0)) as [v |]; [| discriminate].
  rewrite Hq.
  destruct (Z.leb_spec (snd l) 0) as [Hle | Hgt];
    destruct (Z.ltb_spec 0 (snd l)) as [Hlt | Hge]; try lia; simpl.
  - reflexivity.
  - apply IH.
Qed.

Lemma bind_all_in_range (ids : list Z) :
  forallb in_int64 ids = true -> map_result bind_int ids = Ok ids.
Proof.
  induction ids as [| z ids IH]; [reflexivity |].
  simpl. intros H. apply andb_true_iff in H. destruct H as [Hz Hr].
  unfold bind_int at 1. rewrite Hz. simpl. rewrite (IH Hr). reflexivity.
Qed.

Lemma bind_some_out_of_range (ids : list Z) :
  forallb in_int64 ids = false -> map_result bind_int ids = Raise OverflowError.
Proof.
  induction ids as [| z ids IH]; [discriminate |].
  simpl. unfold bind_int at 1.
  destruct (in_int64 z); simpl; [| reflexivity].
  intros H. rewrite (IH H). reflexivity.
Qed.

(** *** The dictionary of [_get_products_by_ids] *)

Lemma dict_set_keys {V : Type} (k : Z) (v : V) (d : list (Z * V)) :
  map fst (dict_set k v d) =
    if mem_Z k (map fst d) then map fst d else (map fst d ++ [k])%list.
Proof.
  induction d as [| [k' v'] d IH]; [reflexivity |].
  simpl. unfold mem_Z in *. simpl. rewrite (Z.eqb_sym k k').
  destruct (k' =? k) eqn:E; simpl; [reflexivity |].
  rewrite IH. destruct (existsb (Z.eqb k) (map fst d)); reflexivity.
Qed.

Lemma mem_Z_In (z : Z) (l : list Z) : mem_Z z l = true <-> In z l.
Proof.
  unfold mem_Z. rewrite existsb_exists. split.
  - intros [x [Hin Heq]]. apply Z.eqb_eq in Heq. now subst.
  - intros H. exists z. split; [exact H | apply Z.eqb_refl].
Qed.

Lemma mem_Z_false (z : Z) (l : list Z) : mem_Z z l = false <-> ~ In z l.
Proof.
  rewrite <- mem_Z_In. destruct (mem_Z z l); split; intros; congruence.
Qed.

Lemma dict_of_rows_keys_gen (rows : list (product_row P)) (acc : list (Z * product_row P)) :
  NoDup (map fst acc) ->
  let keys := map fst (fold_left (fun d row => dict_set (prod_id row) row d) rows acc) in
  NoDup keys
  /\ (forall k, In k keys <-> In k (map fst acc) \/ In k (map prod_id rows)).
Proof.
  revert acc. induction rows as [| r rows IH]; intros acc Hnd.
  - simpl. split; [exact Hnd | intros k; tauto].
  - simpl.
    assert (Hnd' : NoDup (map fst (dict_set (prod_id r) r acc))).
    { rewrite dict_set_keys. destruct (mem_Z (prod_id r) (map fst acc)) eqn:E.
      - exact Hnd.
      - apply mem_Z_false in E. apply NoDup_app; [exact Hnd | repeat constructor; intros [] | ].
        intros x Hx [Hx' | []]. subst. contradiction. }
    destruct (IH _ Hnd') as [H1 H2]. split; [exact H1 |].
    intros k. rewrite H2, dict_set_keys.
    destruct (mem_Z (prod_id r) (map fst acc)) eqn:E.
    + apply mem_Z_In in E. split; [intros [? | ?]; tauto | intros [? | [<- | ?]]; tauto].
    + rewrite in_app_iff. simpl. tauto.
Qed.

Lemma dict_of_rows_keys (rows : list (product_row P)) :
  NoDup (map fst (dict_of_rows rows))
  /\ (forall k, In k (map fst (dict_of_rows rows)) <-> In k (map prod_id rows)).
Proof.
  destruct (dict_of_rows_keys_gen rows [] (NoDup_nil _)) as [H1 H2].
  split; [exact H1 |]. intros k. rewrite (H2 k). simpl. tauto.
Qed.

Lemma known_product_In (d : database P) (id : Z) :
  known_product d id = true <-> In id (map prod_id (products d)).
Proof.
  unfold known_product. rewrite existsb_exists, in_map_iff. split.
  - intros [p [Hin Heq]]. apply Z.eqb_eq in Heq. now exists p.
  - intros [p [Heq Hin]]. exists p. split; [exact Hin | now apply Z.eqb_eq].
Qed.

(** The test [len(products) != len(product_ids)] passes exactly when the
    requested ids are pairwise distinct and all known. *)
Lemma products_found_length (d : database P) (ids : list Z) :
  List.length (dict_of_rows (filter (fun p => mem_Z (prod_id p) ids) (products d)))
    = List.length ids
  <-> NoDup ids /\ Forall (fun id => known_product d id = true) ids.
Proof.
  set (rows := filter (fun p => mem_Z (prod_id p) ids) (products d)).
  destruct (dict_of_rows_keys rows) as [Hnd Hkeys].
  rewrite <- (length_map fst (dict_of_rows rows)).
  set (keys := map fst (dict_of_rows rows)) in *.
  assert (Hin : forall k, In k keys <-> In k ids /\ In k (map prod_id (products d))).
  { intros k. rewrite Hkeys. unfold rows. rewrite !in_map_iff. split.
    - intros [p [Hp Hf]]. apply filter_In in Hf. destruct Hf as [Hf Hm].
      apply mem_Z_In in Hm. subst. split; [exact Hm | now exists p].
    - intros [Hk [p [Hp Hf]]]. exists p. split; [exact Hp |].
      apply filter_In. split; [exact Hf |]. apply mem_Z_In. now subst. }
  assert (Hincl : incl keys ids) by (intros k Hk; apply Hin in Hk; tauto).
  split.
  - intros Hlen.
    assert (Hnd_ids : NoDup ids).
    { apply (NoDup_incl_NoDup Hnd); [lia | exact Hincl]. }
    split; [exact Hnd_ids |].
    assert (Hback : incl ids keys).
    { apply NoDup_length_incl; [exact Hnd | lia | exact Hincl]. }
    apply Forall_forall. intros id Hid. apply known_product_In.
    apply Hback in Hid. apply Hin in Hid. tauto.
  - intros [Hnd_ids Hall].
    assert (Hback : incl ids keys).
    { intros k Hk. apply Hin. split; [exact Hk |].
      apply known_product_In. rewrite Forall_forall in Hall. now apply Hall. }
    apply Nat.le_antisymm.
    + now apply NoDup_incl_length.
    + now apply NoDup_incl_length.
Qed.

(** *** The state a placed order leaves *)

Lemma with_items_frame (order_id : Z) (cart : list (Z * Z)) (d : database P) :
  categories (with_items order_id cart d) = categories d
  /\ products (with_items order_id cart d) = products d
  /\ orders (with_items order_id cart d) = orders d
  /\ exists rows,
       order_items (with_items order_id cart d) = (order_items d ++ rows)%list
       /\ map line_key rows = map (fun l => (order_id, fst l, snd l)) cart.
Proof.
  revert d. induction cart as [| l cart IH]; intros d.
  - simpl. repeat split. exists []. split; [now rewrite app_nil_r | reflexivity].
  - simpl. destruct (IH
      {| categories := categories d; products := products d; orders := orders d;
         order_items :=
           (order_items d ++
            [ {| oi_id := next_rowid (seq_order_items d) (map oi_id (order_items d));
                 oi_order_id := order_id;
                 oi_product_id := fst l; oi_quantity := snd l |} ])%list;
         seq_categories := seq_categories d; seq_products := seq_products d;
         seq_orders := seq_orders d;
         seq_order_items := next_rowid (seq_order_items d) (map oi_id (order_items d)) |})
      as [Hc [Hp [Ho [rows [Hr Hk]]]]].
    simpl in *. repeat split; try assumption.
    eexists (_ :: rows). split.
    + rewrite Hr, <- app_assoc. reflexivity.
    + simpl. rewrite Hk. reflexivity.
Qed.

(** The second loop succeeds on a cart whose lines bind and whose products
    exist, and appends exactly [with_items]. *)
Lemma insert_lines_ok (order_id : Z) (items : list pyval) (cart : list (Z * Z))
    (d : database P) :
  coerces items cart ->
  Forall (fun l => known_product d (fst l) = true
                   /\ in_int64 (fst l) = true /\ in_int64 (snd l) = true) cart ->
  existsb (fun o => ord_id o =? order_id) (orders d) = true ->
  for_each (insert_cart_line order_id) items d = (Ok tt, with_items order_id cart d).
Proof.
  intros Hco. revert d.
  induction Hco as [| item l items cart Hl _ IH]; intros d Hall Hord.
  - reflexivity.
  - inversion Hall as [| ? ? [Hk [Hi Hq]] Hrest]; subst.
    destruct (coerce_line_reads _ _ Hl) as [Hid [_ Hqty]].
    cbn [for_each]. unfold cbind at 1.
    unfold insert_cart_line, cbind, lift.
    rewrite Hid, Hqty.
    unfold insert_order_item, cbind, lift, bind_int.
    rewrite Hi, Hq, Hord.
    unfold known_product in Hk. rewrite Hk. simpl andb. cbv iota.
    cbn [with_items]. apply IH.
    + eapply Forall_impl; [| exact Hrest]. intros l' H. exact H.
    + exact Hord.
Qed.

Lemma fold_max_ge (ids : list Z) (x : Z) : In x ids -> x <= fold_right Z.max 0 ids.
Proof.
  induction ids as [| y ids IH]; intros H; [destruct H |].
  simpl. destruct H as [-> | H]; [lia | specialize (IH H); lia].
Qed.

(** AUTOINCREMENT never reuses an id of the table. *)
Lemma next_rowid_fresh (seq : Z) (ids : list Z) (x : Z) :
  In x ids -> x < next_rowid seq ids.
Proof. intros H. apply fold_max_ge in H. unfold next_rowid. lia. Qed.

Lemma new_order_id_fresh (d : database P) (o : order_row) :
  In o (orders d) -> (ord_id o =? new_order_id d) = false.
Proof.
  intros H. apply Z.eqb_neq.
  assert (ord_id o < new_order_id d); [| lia].
  apply next_rowid_fresh. now apply in_map.
Qed.

(** *** The limits of the engine *)

Lemma prepare_within (product_ids : list Z) :
  within_limits product_ids = true ->
  prepare (select_products_sql product_ids) (List.length product_ids) = Ok tt.
Proof.
  unfold within_limits, prepare. intros H. apply andb_true_iff in H.
  destruct H as [H1 H2]. apply Z.leb_le in H1, H2.
  destruct (Z.ltb_spec max_sql_length (utf8_size (select_products_sql product_ids)));
    [lia |].
  destruct (Z.ltb_spec max_variable_number (Z.of_nat (List.length product_ids)));
    [lia | reflexivity].
Qed.

Lemma prepare_inv (product_ids : list Z) (u : unit) :
  prepare (select_products_sql product_ids) (List.length product_ids) = Ok u ->
  within_limits product_ids = true.
Proof.
  unfold within_limits, prepare.
  destruct (Z.ltb_spec max_sql_length (utf8_size (select_products_sql product_ids)));
    [discriminate |].
  destruct (Z.ltb_spec max_variable_number (Z.of_nat (List.length product_ids)));
    [discriminate |].
  intros _. apply andb_true_iff. split; apply Z.leb_le; lia.
Qed.

(** Beyond the limits the statement is refused with an error of [sqlite3],
    not with an input error. *)
Lemma prepare_beyond (product_ids : list Z) :
  within_limits product_ids = false ->
  exists e,
    prepare (select_products_sql product_ids) (List.length product_ids) = Raise e
    /\ is_ValueError e = false.
Proof.
  intros H.
  destruct (prepare (select_products_sql product_ids) (List.length product_ids))
    as [[] | e] eqn:Hp.
  - apply prepare_inv in Hp. congruence.
  - exists e. split; [reflexivity |]. unfold prepare in Hp.
    destruct (max_sql_length <? utf8_size (select_products_sql product_ids));
      [inversion Hp; reflexivity |].
    destruct (max_variable_number <? Z.of_nat (List.length product_ids));
      [inversion Hp; reflexivity | discriminate].
Qed.

(** The text of the SELECT for [n] ids has [51 + 2n] bytes (52 for no
    id). *)
Lemma select_products_sql_size (product_ids : list Z) :
  utf8_size (select_products_sql product_ids)
  = match product_ids with
    | [] => 52
    | _ :: _ => 51 + 2 * Z.of_nat (List.length product_ids)
    end.
Proof.
  unfold select_products_sql, utf8_size.
  assert (Hlen : forall a b, String.length (a ++ b) = (String.length a + String.length b)%nat).
  { intros a b. induction a as [| c a IH]; simpl; [reflexivity | now rewrite IH]. }
  assert (Hjoin : forall l : list Z, l <> [] ->
            String.length (join "," (map (fun _ => "?") l)) = (2 * List.length l - 1)%nat).
  { induction l as [| x l IH]; intros Hne; [contradiction |].
    destruct l as [| y l]; [reflexivity |].
    change (join "," (map (fun _ : Z => "?") (x :: y :: l)))
      with ("?" ++ "," ++ join "," (map (fun _ : Z => "?") (y :: l))).
    rewrite !Hlen, IH by discriminate. cbn [String.length List.length]. lia. }
  destruct product_ids as [| x l]; [reflexivity |].
  rewrite !Hlen, Hjoin by discriminate. cbn [String.length List.length]. lia.
Qed.

Lemma varint_len_pos (x : Z) : 0 < varint_len x.
Proof.
  unfold varint_len.
  repeat match goal with |- context [if ?b then _ else _] => destruct b end; lia.
Qed.

Lemma utf8_size_nonneg (s : string) : 0 <= utf8_size s.
Proof. unfold utf8_size. lia. Qed.

Lemma sum_sizes_ge (texts : list string) (s : string) :
  In s texts -> utf8_size s <= fold_right Z.add 0 (map utf8_size texts).
Proof.
  induction texts as [| t texts IH]; intros H; [destruct H |].
  simpl. destruct H as [-> | H].
  - assert (0 <= fold_right Z.add 0 (map utf8_size texts)); [| lia].
    clear. induction texts as [| t texts IH]; simpl;
      [lia | pose proof (utf8_size_nonneg t); lia].
  - specialize (IH H). pose proof (utf8_size_nonneg t). lia.
Qed.

Lemma sum_headers_nonneg (texts : list string) :
  0 <= fold_right Z.add 0 (map (fun s => varint_len (2 * utf8_size s + 13)) texts).
Proof.
  induction texts as [| t texts IH]; cbn [map fold_right]; [lia |].
  pose proof (varint_len_pos (2 * utf8_size t + 13)). lia.
Qed.

(** A text of a row is shorter than the row. *)
Lemma record_size_above (texts : list string) (s : string) :
  In s texts -> utf8_size s < record_size texts.
Proof.
  intros H. unfold record_size.
  pose proof (sum_sizes_ge texts s H). pose proof (sum_headers_nonneg texts). lia.
Qed.

Lemma bind_text_ok (s : string) :
  Py.encodable s = true -> utf8_size s <= c_int_max -> utf8_size s <= max_length ->
  bind_text s = Ok s.
Proof.
  unfold Py.encodable, bind_text. intros H1 H2 H3.
  destruct (Py.encode_error s); [discriminate |].
  destruct (Z.ltb_spec c_int_max (utf8_size s)); [lia |].
  destruct (Z.ltb_spec max_length (utf8_size s)); [lia | reflexivity].
Qed.

Lemma bind_text_inv (s s' : string) :
  bind_text s = Ok s' ->
  s' = s /\ Py.encodable s = true /\ utf8_size s <= c_int_max.
Proof.
  unfold Py.encodable, bind_text.
  destruct (Py.encode_error s); [discriminate |].
  destruct (Z.ltb_spec c_int_max (utf8_size s)); [discriminate |].
  destruct (Z.ltb_spec max_length (utf8_size s)); [discriminate |].
  intros Hs. inversion Hs; subst. repeat split. assumption.
Qed.

(** The INSERT of an order whose texts can be stored writes the row. *)
Lemma insert_order_storable (timestamp customer_name email phone address : string)
    (d : database P) :
  storable timestamp customer_name email phone address = true ->
  insert_order customer_name email phone address timestamp d
  = write_order customer_name email phone address timestamp d.
Proof.
  unfold storable. intros H. apply andb_true_iff in H. destruct H as [Hall Hrow].
  apply Z.leb_le in Hrow.
  assert (Hbind : forall s, In s [customer_name; email; phone; address; timestamp] ->
                            bind_text s = Ok s).
  { intros s Hs. rewrite forallb_forall in Hall. specialize (Hall s Hs).
    apply andb_true_iff in Hall. destruct Hall as [Henc Hint]. apply Z.leb_le in Hint.
    apply bind_text_ok; [exact Henc | exact Hint |].
    assert (utf8_size s
            < record_size [customer_name; email; phone; address; "received"; ""; timestamp]);
      [| lia].
    apply record_size_above. simpl in Hs |- *. intuition. }
  unfold insert_order, cbind, lift.
  rewrite !Hbind by (simpl; tauto).
  destruct (Z.ltb_spec max_length
              (record_size [customer_name; email; phone; address; "received"; ""; timestamp]));
    [lia | reflexivity].
Qed.

(** The INSERT returns only for texts that can be stored, and raises
    without writing. *)
Lemma insert_order_inv (timestamp customer_name email phone address : string)
    (d d' : database P) (r : result Z) :
  insert_order customer_name email phone address timestamp d = (r, d') ->
  match r with
  | Ok order_id =>
      storable timestamp customer_name email phone address = true
      /\ write_order customer_name email phone address timestamp d = (Ok order_id, d')
  | Raise _ => d' = d
  end.
Proof.
  unfold insert_order, cbind, lift.
  destruct (bind_text customer_name) as [s1 |] eqn:H1;
    [| intros H; inversion H; reflexivity].
  destruct (bind_text email) as [s2 |] eqn:H2; [| intros H; inversion H; reflexivity].
  destruct (bind_text phone) as [s3 |] eqn:H3; [| intros H; inversion H; reflexivity].
  destruct (bind_text address) as [s4 |] eqn:H4; [| intros H; inversion H; reflexivity].
  destruct (bind_text timestamp) as [s5 |] eqn:H5; [| intros H; inversion H; reflexivity].
  apply bind_text_inv in H1, H2, H3, H4, H5.
  destruct H1 as [-> [E1 I1]]. destruct H2 as [-> [E2 I2]]. destruct H3 as [-> [E3 I3]].
  destruct H4 as [-> [E4 I4]]. destruct H5 as [-> [E5 I5]].
  destruct (Z.ltb_spec max_length
              (record_size [customer_name; email; phone; address; "received"; ""; timestamp]))
    as [Hbig | Hfit].
  - intros H. inversion H. reflexivity.
  - intros H. destruct r as [order_id | e].
    + split; [| exact H]. unfold storable. apply andb_true_iff. split.
      * cbn [forallb]. rewrite E1, E2, E3, E4, E5.
        apply Z.leb_le in I1, I2, I3, I4, I5. rewrite I1, I2, I3, I4, I5. reflexivity.
      * apply Z.leb_le. lia.
    + unfold write_order in H. discriminate.
Qed.

(** [create_order] on a cart that passes every check. *)
Lemma create_order_placed (timestamp customer_name email phone address : string)
    (items : list pyval) (cart : list (Z * Z)) (d : database P) :
  coerces items cart ->
  cart <> [] ->
  NoDup (map fst cart) ->
  Forall (fun l => known_product d (fst l) = true /\ in_int64 (fst l) = true
                   /\ 0 < snd l /\ in_int64 (snd l) = true) cart ->
  within_limits (map fst cart) = true ->
  storable timestamp customer_name email phone address = true ->
  create_order timestamp customer_name email phone address items d
    = (Ok (new_order_id d), placed timestamp customer_name email phone address cart d).
Proof.
  intros Hco Hne Hnd Hall Hlim Hsto.
  assert (Hitems : exists i rest, items = i :: rest).
  { destruct Hco; [contradiction | eauto]. }
  destruct Hitems as [i [rest Hi]].
  unfold create_order. rewrite Hi, <- Hi.
  apply db_cursor_ok.
  unfold cbind at 1. unfold lift at 1. rewrite (product_ids_of_coerced _ _ Hco).
  unfold cbind at 1. unfold _get_products_by_ids, cbind, lift, query, ret.
  rewrite (prepare_within _ Hlim).
  rewrite bind_all_in_range.
  2:{ apply forallb_forall. intros id Hid. apply in_map_iff in Hid.
      destruct Hid as [l [<- Hl]]. rewrite Forall_forall in Hall.
      destruct (Hall l Hl) as [_ [H _]]. exact H. }
  assert (Hlen : List.length
            (dict_of_rows (filter (fun p => mem_Z (prod_id p) (map fst cart)) (products d)))
          = List.length (map fst cart)).
  { apply products_found_length. split; [exact Hnd |].
    apply Forall_forall. intros id Hid. apply in_map_iff in Hid.
    destruct Hid as [l [<- Hl]]. rewrite Forall_forall in Hall.
    destruct (Hall l Hl) as [H _]. exact H. }
  rewrite Hlen, Nat.eqb_refl. cbn [negb].
  rewrite (check_quantities_of_coerced _ _ Hco).
  replace (forallb (fun l => 0 <? snd l) cart) with true.
  2:{ symmetry. apply forallb_forall. intros l Hl. rewrite Forall_forall in Hall.
      destruct (Hall l Hl) as [_ [_ [H _]]]. now apply Z.ltb_lt. }
  cbv iota beta.
  unfold placed.
  set (d1 := snd (write_order customer_name email phone address timestamp d)).
  assert (Hins : insert_order customer_name email phone address timestamp d
                 = (Ok (new_order_id d), d1)).
  { rewrite (insert_order_storable _ _ _ _ _ d Hsto). reflexivity. }
  rewrite Hins.
  rewrite (insert_lines_ok (new_order_id d) items cart d1 Hco).
  - reflexivity.
  - eapply Forall_impl; [| exact Hall]. intros l [H1 [H2 [_ H4]]].
    repeat split; assumption.
  - unfold d1. simpl. rewrite existsb_app. simpl.
    fold (new_order_id d). rewrite Z.eqb_refl. simpl. apply orb_true_r.
Qed.

(** *** Reading a placed order back *)

Lemma filter_no_match (ps : list (product_row P)) (id : Z) :
  ~ In id (map prod_id ps) -> filter (fun p => prod_id p =? id) ps = [].
Proof.
  induction ps as [| p ps IH]; intros H; [reflexivity |].
  simpl in *. destruct (Z.eqb_spec (prod_id p) id) as [E | E].
  - exfalso. apply H. now left.
  - apply IH. intros H'. apply H. now right.
Qed.

(** With unique ids the join finds one product per order item. *)
Lemma filter_by_id (ps : list (product_row P)) (id : Z) :
  NoDup (map prod_id ps) ->
  In id (map prod_id ps) ->
  exists p, find (fun p => prod_id p =? id) ps = Some p
            /\ filter (fun p => prod_id p =? id) ps = [p].
Proof.
  induction ps as [| q ps IH]; intros Hnd Hin; [destruct Hin |].
  simpl in *. inversion Hnd as [| ? ? Hq Hnd']; subst.
  destruct (Z.eqb_spec (prod_id q) id) as [E | E].
  - exists q. split; [reflexivity |]. rewrite filter_no_match; [reflexivity |].
    now rewrite <- E.
  - destruct Hin as [Hin | Hin]; [contradiction |]. now apply IH.
Qed.



Lemma find_order_placed (d : database P) (row : order_row) :
  ord_id row = new_order_id d ->
  find (fun o => ord_id o =? new_order_id d) (orders d ++ [row]) = Some row.
Proof.
  intros Hrow.
  assert (H : forall l, (forall o, In o l -> (ord_id o =? new_order_id d) = false) ->
                        find (fun o => ord_id o =? new_order_id d) (l ++ [row]) = Some row).
  { induction l as [| o l IH]; intros Hl; simpl.
    - now rewrite Hrow, Z.eqb_refl.
    - rewrite (Hl o (or_introl eq_refl)). apply IH. intros o' Ho'. apply Hl. now right. }
  apply H. intros o Ho. now apply new_order_id_fresh.
Qed.



(** *** Carts that are refused *)

Lemma forallb_false_Exists {A : Type} (f : A -> bool) (l : list A) :
  Exists (fun x => f x = false) l -> forallb f l = false.
Proof.
  induction 1 as [x l H | x l _ IH]; simpl.
  - now rewrite H.
  - rewrite IH. apply andb_false_r.
Qed.

(** C3, with the class of the error: on every invalid cart of integer
    lines [create_order] raises and the database is left as it was, with no
    order and no order item added; the exception is the input error
    ([ValueError]) whenever the product ids of the cart fit the signed 64-bit
    range and the cart is within the limits of the engine (no more lines than
    a statement may have parameters, and the text of the SELECT no longer
    than a statement may be).  Beyond those limits the exception is an error
    of [sqlite3], not the input error. *)
Theorem create_order_invalid_cart
    (timestamp customer_name email phone address : string)
    (cart : list (Z * Z)) (d : database P) :
  invalid_cart d cart ->
  exists e,
    create_order timestamp customer_name email phone address (cart_items cart) d
      = (Raise e, d)
    /\ (forallb in_int64 (map fst cart) = true ->
        within_limits (map fst cart) = true -> is_ValueError e = true)
    /\ (cart <> [] -> within_limits (map fst cart) = false -> is_ValueError e = false).
Proof.
  intros Hinv.
  destruct cart as [| l0 cart0] eqn:Hcart.
  { eexists. split; [reflexivity |]. split; [reflexivity | congruence]. }
  rewrite <- Hcart in *.
  assert (Hco := coerces_cart_items cart).
  unfold create_order.
  assert (Hitems : cart_items cart = cart_line l0 :: cart_items cart0) by (subst; reflexivity).
  rewrite Hitems, <- Hitems.
  unfold db_cursor.
  unfold cbind at 1. unfold lift at 1. rewrite (product_ids_of_coerced _ _ Hco).
  unfold cbind at 1. unfold _get_products_by_ids, cbind at 1, lift at 1.
  destruct (within_limits (map fst cart)) eqn:Hlim.
  2:{ destruct (prepare_beyond _ Hlim) as [e [-> He]].
      exists e. split; [reflexivity |]. split; [discriminate | intros _ _; exact He]. }
  rewrite (prepare_within _ Hlim). unfold cbind at 1, lift at 1.
  destruct (forallb in_int64 (map fst cart)) eqn:Hrange.
  2:{ rewrite (bind_some_out_of_range _ Hrange).
      eexists. split; [reflexivity |]. split; discriminate. }
  rewrite (bind_all_in_range _ Hrange). unfold cbind, query, ret.
  destruct (Nat.eqb (List.length
              (dict_of_rows (filter (fun p => mem_Z (prod_id p) (map fst cart)) (products d))))
              (List.length (map fst cart))) eqn:Hlen.
  2:{ simpl. unfold raise. eexists. split; [reflexivity |].
      split; [reflexivity | discriminate]. }
  simpl negb. cbv iota.
  apply Nat.eqb_eq in Hlen. apply products_found_length in Hlen.
  destruct Hlen as [_ Hknown].
  assert (Hq : forallb (fun l => 0 <? snd l) cart = false).
  { destruct Hinv as [He | [Hu | Hq]].
    - subst. discriminate.
    - exfalso. apply Exists_exists in Hu. destruct Hu as [l [Hl Hu]].
      rewrite Forall_forall in Hknown.
      rewrite (Hknown (fst l)) in Hu; [discriminate |]. now apply in_map.
    - apply forallb_false_Exists. eapply Exists_impl; [| exact Hq].
      intros l Hl. simpl in Hl. now apply Z.ltb_ge. }
  unfold lift. rewrite (check_quantities_of_coerced _ _ Hco), Hq.
  eexists. split; [reflexivity |]. split; [reflexivity | discriminate].
Qed.

(** A cart with more lines than the engine allows parameters in a
    statement is refused when the SELECT is compiled, whatever it holds: the
    error is [sqlite3.OperationalError], which the endpoint answers with 500,
    and nothing is written. *)
Lemma create_order_too_many_lines
    (timestamp customer_name email phone address : string)
    (cart : list (Z * Z)) (d : database P) :
  utf8_size (select_products_sql (map fst cart)) <= max_sql_length ->
  max_variable_number < Z.of_nat (List.length cart) ->
  0 <= max_variable_number ->
  create_order timestamp customer_name email phone address (cart_items cart) d
  = (Raise (OperationalError "too many SQL variables"), d).
Proof.
  intros Hsql Hvars Hpos.
  assert (Hco := coerces_cart_items cart).
  destruct cart as [| l0 cart0] eqn:Hcart; [simpl in Hvars; lia |].
  rewrite <- Hcart in *.
  unfold create_order.
  assert (Hitems : cart_items cart = cart_line l0 :: cart_items cart0) by (subst; reflexivity).
  rewrite Hitems, <- Hitems.
  eapply db_cursor_body_raise.
  unfold cbind at 1. unfold lift at 1. rewrite (product_ids_of_coerced _ _ Hco).
  unfold cbind at 1. unfold _get_products_by_ids, cbind at 1, lift at 1, prepare.
  rewrite length_map.
  destruct (Z.ltb_spec max_sql_length (utf8_size (select_products_sql (map fst cart))));
    [lia |].
  destruct (Z.ltb_spec max_variable_number (Z.of_nat (List.length cart))); [| lia].
  reflexivity.
Qed.

(** *** What the coercions read *)


End OrderFacts.

(** *** The order store on the sample shop *)




(** A customer name that ends in a lone surrogate (the JSON escape \ud800
    after "Nour") cannot be bound to the INSERT: the [UnicodeEncodeError] of
    the codec, a [ValueError], leaves [create_order] and nothing is written. *)
Lemma create_order_lone_surrogate :
  create_order "2024-02-01T09:30:00" ("Nour" ++ Py.str3 237 160 128) "nour@example.com"
    "03987654" "Tripoli" (cart_items [(7, 2); (9, 1)]) shop
  = (Raise (ValueError
              "'utf-8' codec can't encode character '\ud800' in position 4: surrogates not allowed"),
     shop).
Proof. vm_compute. reflexivity. Qed.

(** On the sample engine a cart of 250001 lines is one too long. *)
Lemma create_order_250001_lines :
  create_order "2024-02-01T09:30:00" "Nour" "nour@example.com" "03987654" "Tripoli"
    (cart_items (repeat (7, 1) (Z.to_nat 250001))) shop
  = (Raise (OperationalError "too many SQL variables"), shop).
Proof.
  apply create_order_too_many_lines.
  - rewrite select_products_sql_size.
    destruct (map fst (repeat (7, 1) (Z.to_nat 250001))) as [| x l] eqn:Hl.
    + cbn. lia.
    + rewrite <- Hl, length_map, repeat_length, Z2Nat.id by lia. cbn. lia.
  - rewrite repeat_length, Z2Nat.id by lia. cbn. lia.
  - cbn. lia.
Qed.

(** C2, at the failing input: both lines of the cart name product 7, which
    exists, and the check still raises its unknown-product error. *)
Theorem create_order_repeated_product :
  forallb (known_product shop) [7; 7] = true
  /\ create_order "2024-02-01T09:30:00" "Nour" "nour@example.com" "03987654" "Tripoli"
       [line (PInt 7) (PInt 1); line (PInt 7) (PInt 2)] shop
     = (Raise (ValueError "One or more products do not exist."), shop).
Proof. vm_compute. split; reflexivity. Qed.

Lemma create_order_invalid_cart_witness :
  exists e,
    create_order "2024-02-01T09:30:00" "Nour" "nour@example.com" "03987654" "Tripoli"
      (cart_items [(7, 2); (9, 0)]) shop = (Raise e, shop)
    /\ (forallb in_int64 (map fst [(7, 2); (9, 0)]) = true ->
        within_limits (map fst [(7, 2); (9, 0)]) = true -> is_ValueError e = true)
    /\ ([(7, 2); (9, 0)] <> [] ->
        within_limits (map fst [(7, 2); (9, 0)]) = false -> is_ValueError e = false).
Proof.
  apply (create_order_invalid_cart "2024-02-01T09:30:00" "Nour" "nour@example.com"
           "03987654" "Tripoli" [(7, 2); (9, 0)] shop).
  right. right. apply Exists_cons_tl. apply Exists_cons_hd. simpl. lia.
Defined.

(** C3, a product id outside the 64-bit range: the product id 2^63 resolves
    to no product, and the error that comes back is not the input error. *)
Lemma create_order_unknown_product_out_of_range :
  known_product shop (2 ^ 63) = false
  /\ create_order "2024-02-01T09:30:00" "Nour" "nour@example.com" "03987654" "Tripoli"
       (cart_items [(2 ^ 63, 1)]) shop = (Raise OverflowError, shop)
  /\ is_ValueError OverflowError = false.
Proof. vm_compute. repeat split. Qed.

(** An order is written whole or not at all: whenever [create_order]
    raises, whatever the cart holds and wherever the exception comes from,
    the database is as it was before the call. *)
Lemma create_order_all_or_nothing {P : Type} {PA : PriceArith P} {Lim : Engine}
    (timestamp customer_name email phone address : string) (items : list pyval)
    (d d' : database P) (e : exn) :
  create_order timestamp customer_name email phone address items d = (Raise e, d') ->
  d' = d.
Proof.
  unfold create_order. destruct items as [| item rest].
  - intros H. now inversion H.
  - apply db_cursor_raise.
Qed.

(** The order row of this cart is inserted before the quantity 2^63 is
    refused; nothing of it stays. *)
Lemma create_order_all_or_nothing_witness :
  snd (create_order "2024-02-01T09:30:00" "Nour" "nour@example.com" "03987654" "Tripoli"
         (cart_items [(7, 2 ^ 63)]) shop) = shop.
Proof.
  apply (create_order_all_or_nothing "2024-02-01T09:30:00" "Nour" "nour@example.com"
           "03987654" "Tripoli" (cart_items [(7, 2 ^ 63)]) shop _ OverflowError).
  vm_compute. reflexivity.
Defined.

(** [int] on strings, at the edges of its grammar: a digit of another
    script (U+0663, ARABIC-INDIC DIGIT THREE) counts, alone and after an ASCII
    digit; whitespace, a sign and single underscores are read; the separator
    U+001F, which [str.strip] removes, is not whitespace here; a doubled
    underscore, a blank after the sign and an empty literal are refused; and a
    literal of more than 4300 digits is refused for its length. *)
Lemma int_of_str_examples :
  Py.int (PStr (Py.str2 217 163)) = Ok 3
  /\ Py.int (PStr ("1" ++ Py.str2 217 163)) = Ok 13
  /\ Py.int (PStr (" +1_000" ++ Py.str1 10)) = Ok 1000
  /\ Py.int (PStr "-07") = Ok (-7)
  /\ Py.strip ("1" ++ Py.str1 31) = "1"
  /\ Py.int (PStr ("1" ++ Py.str1 31))
     = Raise (ValueError "invalid literal for int() with base 10")
  /\ Py.int (PStr "1__0") = Raise (ValueError "invalid literal for int() with base 10")
  /\ Py.int (PStr "- 1") = Raise (ValueError "invalid literal for int() with base 10")
  /\ Py.int (PStr "") = Raise (ValueError "invalid literal for int() with base 10")
  /\ Py.int (PStr (string_of_list_ascii (repeat "1"%char 4300)))
     = Ok ((10 ^ 4300 - 1) / 9)
  /\ Py.int (PStr (string_of_list_ascii (repeat "1"%char 4301)))
     = Raise (ValueError
                "Exceeds the limit (4300 digits) for integer string conversion: value has 4301 digits; use sys.set_int_max_str_digits() to increase the limit").
Proof. vm_compute. repeat split. Qed.


(* ================================================================== *)
(** ** Relations every statement of a block maintains                  *)
(* ================================================================== *)

Section Frames.
Context {P : Type} {PA : PriceArith P} {Lim : Engine}.
Variable R : database P -> database P -> Prop.
Hypothesis R_refl : forall d, R d d.
Hypothesis R_trans : forall a b c, R a b -> R b c -> R a c.

Lemma maintains_ret {A : Type} (a : A) : maintains R (ret a).
Proof. intros d. apply R_refl. Qed.

Lemma maintains_raise {A : Type} (e : exn) : maintains R (raise (A := A) e).
Proof. intros d. apply R_refl. Qed.

Lemma maintains_lift {A : Type} (r : result A) : maintains R (lift r).
Proof. intros d. apply R_refl. Qed.

Lemma maintains_query {A : Type} (q : database P -> A) : maintains R (query q).
Proof. intros d. apply R_refl. Qed.

Lemma maintains_cbind {A B : Type} (m : cursor A) (k : A -> cursor B) :
  maintains R m -> (forall a, maintains R (k a)) -> maintains R (cbind m k).
Proof.
  intros Hm Hk d. unfold cbind. specialize (Hm d).
  destruct (m d) as [[a | e] d1]; simpl in *.
  - eapply R_trans; [exact Hm | apply Hk].
  - exact Hm.
Qed.

Lemma maintains_for_each {A : Type} (body : A -> cursor unit) (l : list A) :
  (forall x, maintains R (body x)) -> maintains R (for_each body l).
Proof.
  intros Hbody. induction l as [| x l IH]; simpl.
  - apply maintains_ret.
  - apply maintains_cbind; [apply Hbody | intros _; exact IH].
Qed.

Lemma maintains_db_cursor {A : Type} (body : cursor A) (d : database P) :
  maintains R body -> R d (snd (db_cursor body d)).
Proof.
  intros Hm. unfold db_cursor. specialize (Hm d).
  destruct (body d) as [[a | e] d1]; simpl in *; [exact Hm | apply R_refl].
Qed.

End Frames.

(** Splits a block into its statements, given that the relation is
    reflexive and transitive; what is left is one goal per statement. *)
Ltac frame_block Hrefl Htrans :=
  repeat first
    [ apply (maintains_cbind _ Htrans); [| intros ? ]
    | apply (maintains_for_each _ Hrefl Htrans); intros ?
    | apply (maintains_ret _ Hrefl)
    | apply (maintains_raise _ Hrefl)
    | apply (maintains_lift _ Hrefl)
    | apply (maintains_query _ Hrefl)
    | match goal with
      | |- maintains _ (if ?c then _ else _) => destruct c
      | |- maintains _ (match ?x with Some _ => _ | None => _ end) => destruct x
      end ].

(** A single statement: run it and compare the two states. *)
Ltac frame_statement :=
  let d := fresh "d" in
  intros d; cbv beta delta [cbind lift bind_int]; simpl;
  repeat match goal with
         | |- context [if ?c then _ else _] => destruct c; simpl
         end;
  try reflexivity.

(* ================================================================== *)
(** ** The status of persisted orders                                  *)
(* ================================================================== *)

Section StatusFacts.
Context {P : Type} {PA : PriceArith P} {Lim : Engine}.

Lemma keeps_received_refl (d : database P) : keeps_received d d.
Proof. intros H. exact H. Qed.

Lemma keeps_received_trans (a b c : database P) :
  keeps_received a b -> keeps_received b c -> keeps_received a c.
Proof. unfold keeps_received. auto. Qed.

Lemma same_orders_refl (d : database P) : same_orders d d.
Proof. reflexivity. Qed.

Lemma same_orders_trans (a b c : database P) :
  same_orders a b -> same_orders b c -> same_orders a c.
Proof. unfold same_orders. congruence. Qed.

Lemma same_orders_keeps (d d' : database P) : same_orders d d' -> keeps_received d d'.
Proof. unfold same_orders, keeps_received, all_received. intros ->. auto. Qed.

(** The migration rewrites the legacy status and leaves no other. *)
Lemma init_db_normalizes (d : database P) :
  legacy_statuses d -> all_received (snd (init_db d)).
Proof.
  unfold legacy_statuses, all_received, init_db, db_cursor, _apply_migrations.
  simpl. intros H. apply Forall_map. eapply Forall_impl; [| exact H].
  intros o [Hr | Hl]; unfold normalize_status.
  - rewrite Hr. simpl. exact Hr.
  - rewrite Hl. reflexivity.
Qed.

Lemma all_received_legacy (d : database P) : all_received d -> legacy_statuses d.
Proof.
  unfold all_received, legacy_statuses. intros H.
  eapply Forall_impl; [| exact H]. intros o Ho. now left.
Qed.

(** No statement of [seed_data] touches the orders table. *)
Lemma seed_data_same_orders (catalog_seed : list (seed_category P)) (d : database P) :
  orders (snd (seed_data catalog_seed d)) = orders d.
Proof.
  unfold seed_data.
  apply (maintains_db_cursor same_orders same_orders_refl).
  unfold same_orders.
  frame_block same_orders_refl same_orders_trans;
    unfold prune_category, upsert_category, upsert_product;
    frame_block same_orders_refl same_orders_trans.
  all: unfold delete_order_items_of_category, delete_products_of_category,
         delete_category, update_category, insert_category, update_product,
         insert_product, count_referencing, query.
  all: frame_statement.
Qed.

Lemma unchanged_refl (d : database P) : unchanged d d.
Proof. reflexivity. Qed.

Lemma unchanged_trans (a b c : database P) :
  unchanged a b -> unchanged b c -> unchanged a c.
Proof. unfold unchanged. congruence. Qed.

(** The two read operations write nothing. *)
Lemma get_catalog_reads_only (d : database P) : snd (get_catalog d) = d.
Proof.
  unfold get_catalog.
  apply (maintains_db_cursor unchanged unchanged_refl).
  frame_block unchanged_refl unchanged_trans.
Qed.

Lemma get_order_summary_reads_only (order_id : Z) (d : database P) :
  snd (get_order_summary order_id d) = d.
Proof.
  unfold get_order_summary.
  apply (maintains_db_cursor unchanged unchanged_refl).
  frame_block unchanged_refl unchanged_trans.
Qed.

(** [create_order] adds at most an order in status 'received' and
    rewrites none. *)
Lemma create_order_keeps_received
    (timestamp customer_name email phone address : string) (items : list pyval)
    (d : database P) :
  keeps_received d (snd (create_order timestamp customer_name email phone address items d)).
Proof.
  unfold create_order. destruct items as [| item rest].
  { apply keeps_received_refl. }
  apply (maintains_db_cursor keeps_received keeps_received_refl).
  frame_block keeps_received_refl keeps_received_trans.
  all: intros d0.
  all: try (apply same_orders_keeps; unfold same_orders; simpl;
            match goal with
            | |- context [if ?c then _ else _] => destruct c
            end; reflexivity).
  unfold keeps_received, all_received. simpl. intros H.
  apply Forall_app. split; [exact H | repeat constructor].
Qed.

(** C9: in every state the storefront can reach (startup migration on the
    file as found, then [init_db], [seed_data], [create_order] and the read
    operations in any order) every persisted order has status
    'received'. *)
Theorem orders_always_received (catalog_seed : list (seed_category P))
    (d : database P) :
  reachable catalog_seed d -> all_received d.
Proof.
  induction 1 as [d0 Hlegacy | d _ IH | d _ IH
                  | d timestamp customer_name email phone address items _ IH
                  | d _ IH | d order_id _ IH].
  - now apply init_db_normalizes.
  - apply init_db_normalizes. now apply all_received_legacy.
  - unfold all_received. rewrite seed_data_same_orders. exact IH.
  - now apply create_order_keeps_received.
  - now rewrite get_catalog_reads_only.
  - now rewrite get_order_summary_reads_only.
Qed.

End StatusFacts.

(** The sample shop is started (its legacy order is normalised), seeded
    and takes an order. *)
Lemma orders_always_received_witness :
  all_received
    (snd (create_order "2024-02-01T09:30:00" "Nour" "nour@example.com" "03987654"
            "Tripoli" (cart_items [(7, 2); (9, 1)])
            (snd (seed_data catalog_excerpt (snd (init_db shop)))))).
Proof.
  apply (orders_always_received catalog_excerpt).
  apply reach_create_order. apply reach_seed_data. apply reach_startup.
  constructor; [now right | constructor].
Defined.

(* ================================================================== *)
(** ** The order of the catalogue                                      *)
(* ================================================================== *)

Section OrderBy.
Context {A : Type}.
Variable leb : A -> A -> bool.
Hypothesis leb_total : forall a b, leb a b = true \/ leb b a = true.
Hypothesis leb_trans : forall a b c, leb a b = true -> leb b c = true -> leb a c = true.

Lemma insert_by_perm (x : A) (l : list A) : Permutation (insert_by leb x l) (x :: l).
Proof.
  induction l as [| y l IH]; simpl; [reflexivity |].
  destruct (leb x y); [reflexivity |].
  rewrite IH. apply perm_swap.
Qed.

Lemma order_by_perm (l : list A) : Permutation (order_by leb l) l.
Proof.
  induction l as [| x l IH]; simpl; [reflexivity |].
  rewrite insert_by_perm. now constructor.
Qed.

Lemma insert_by_sorted (x : A) (l : list A) :
  StronglySorted (fun a b => leb a b = true) l ->
  StronglySorted (fun a b => leb a b = true) (insert_by leb x l).
Proof.
  induction 1 as [| y l Hs IH Hy]; simpl.
  - repeat constructor.
  - destruct (leb x y) eqn:E.
    + constructor; [now constructor |].
      constructor; [exact E |].
      eapply Forall_impl; [| exact Hy]. intros z Hz. now apply (leb_trans x y z).
    + constructor; [exact IH |].
      assert (Hyx : leb y x = true) by (destruct (leb_total x y); congruence).
      apply (Permutation_Forall (Permutation_sym (insert_by_perm x l))).
      now constructor.
Qed.

Lemma order_by_sorted (l : list A) :
  StronglySorted (fun a b => leb a b = true) (order_by leb l).
Proof.
  induction l as [| x l IH]; simpl; [constructor | now apply insert_by_sorted].
Qed.

End OrderBy.

Lemma StronglySorted_map_rel {A B : Type} (f : A -> B)
    (RA : A -> A -> Prop) (RB : B -> B -> Prop) (l : list A) :
  (forall a b, RA a b -> RB (f a) (f b)) ->
  StronglySorted RA l -> StronglySorted RB (map f l).
Proof.
  intros Hf. induction 1 as [| x l _ IH Hx]; simpl; constructor; [exact IH |].
  apply Forall_map. eapply Forall_impl; [| exact Hx]. intros y. apply Hf.
Qed.

(** *** The BINARY collation: strings by code unit *)

Lemma str_lt_trans (a b c : string) : str_lt a b -> str_lt b c -> str_lt a c.
Proof.
  unfold str_lt. intros H1 H2.
  apply OrderedTypeEx.String_as_OT.cmp_lt.
  apply OrderedTypeEx.String_as_OT.cmp_lt in H1, H2.
  exact (OrderedTypeEx.String_as_OT.lt_trans _ _ _ H1 H2).
Qed.

Lemma str_compare_refl (a : string) : String.compare a a = Eq.
Proof.
  destruct (String.compare a a) eqn:E; [reflexivity | |].
  - pose proof (String.compare_antisym a a) as H. rewrite E in H. discriminate.
  - pose proof (String.compare_antisym a a) as H. rewrite E in H. discriminate.
Qed.

Lemma str_leb_cases (a b : string) : String.leb a b = true <-> a = b \/ str_lt a b.
Proof.
  unfold String.leb, str_lt. split.
  - destruct (String.compare a b) eqn:E; intros H; try discriminate.
    + left. now apply String.compare_eq_iff.
    + now right.
  - intros [-> | ->]; [now rewrite str_compare_refl | reflexivity].
Qed.

Lemma str_leb_trans (a b c : string) :
  String.leb a b = true -> String.leb b c = true -> String.leb a c = true.
Proof.
  rewrite !str_leb_cases. intros [-> | H1] [-> | H2]; auto.
  right. now apply (str_lt_trans a b c).
Qed.

Lemma str_lt_leb (a b : string) : str_lt a b -> String.leb a b = true.
Proof. intros H. apply str_leb_cases. now right. Qed.

Lemma str_lt_irrefl (a : string) : str_lt a a -> False.
Proof. unfold str_lt. rewrite str_compare_refl. discriminate. Qed.

Lemma str_lt_leb_trans (a b c : string) :
  str_lt a b -> String.leb b c = true -> str_lt a c.
Proof.
  intros H1 H2. apply str_leb_cases in H2. destruct H2 as [<- | H2]; [exact H1 |].
  now apply (str_lt_trans a b c).
Qed.

Lemma pair_leb_total (a b : string * string) :
  pair_leb a b = true \/ pair_leb b a = true.
Proof.
  unfold pair_leb. rewrite (String.compare_antisym (fst a) (fst b)).
  destruct (String.compare (fst b) (fst a)); simpl; auto.
  apply String.leb_total.
Qed.

Lemma pair_leb_cases (a b : string * string) :
  pair_leb a b = true
  <-> str_lt (fst a) (fst b) \/ (fst a = fst b /\ String.leb (snd a) (snd b) = true).
Proof.
  unfold pair_leb, str_lt. split.
  - destruct (String.compare (fst a) (fst b)) eqn:E; intros H; try discriminate.
    + right. split; [now apply String.compare_eq_iff | exact H].
    + now left.
  - intros [-> | [-> H]]; [reflexivity |]. now rewrite str_compare_refl.
Qed.

Lemma pair_leb_trans (a b c : string * string) :
  pair_leb a b = true -> pair_leb b c = true -> pair_leb a c = true.
Proof.
  rewrite !pair_leb_cases. intros [H1 | [E1 H1]] [H2 | [E2 H2]].
  - left. now apply (str_lt_trans _ (fst b)).
  - left. now rewrite <- E2.
  - left. now rewrite E1.
  - right. split; [congruence | now apply (str_leb_trans _ (snd b))].
Qed.

Lemma pair_leb_fst (a b : string * string) :
  pair_leb a b = true -> String.leb (fst a) (fst b) = true.
Proof.
  intros H. apply pair_leb_cases in H. apply str_leb_cases.
  destruct H as [H | [H _]]; [now right | now left].
Qed.

Section CatalogFacts.
Context {P : Type} {PA : PriceArith P} {Lim : Engine}.

(** Appending under a label that is not below any label seen so far:
    the item goes last, and the labels stay strictly ascending. *)
Lemma setdefault_append_last (s : string) (it : catalog_item P)
    (m : list (subcategory_group P)) :
  StronglySorted str_lt (group_keys m) ->
  Forall (fun k => String.leb k s = true) (group_keys m) ->
  tagged (setdefault_append s it m) = (tagged m ++ [(s, it)])%list
  /\ StronglySorted str_lt (group_keys (setdefault_append s it m))
  /\ Forall (fun k => String.leb k s = true) (group_keys (setdefault_append s it m))
  /\ (forall k, In k (group_keys (setdefault_append s it m)) ->
                In k (group_keys m) \/ k = s).
Proof.
  induction m as [| g rest IH]; intros Hsorted Hle.
  - simpl. repeat split.
    + repeat constructor.
    + repeat constructor. apply str_leb_cases. now left.
    + intros k [<- | []]. now right.
  - simpl in Hsorted, Hle.
    apply StronglySorted_inv in Hsorted. destruct Hsorted as [Hs_rest Hg_lt].
    pose proof (Forall_inv Hle) as Hg_le. pose proof (Forall_inv_tail Hle) as Hrest_le.
    simpl. destruct (String.eqb_spec (sg_subcategory g) s) as [E | E].
    + assert (Hnil : rest = []).
      { destruct rest as [| h rest']; [reflexivity | exfalso].
        pose proof (Forall_inv Hg_lt) as H1. pose proof (Forall_inv Hrest_le) as H2.
        simpl in H1, H2. rewrite <- E in H2.
        exact (str_lt_irrefl _ (str_lt_leb_trans _ _ _ H1 H2)). }
      subst rest. simpl. rewrite !app_nil_r, map_app. simpl. rewrite E.
      repeat split.
      * repeat constructor.
      * repeat constructor. apply str_leb_cases. now left.
      * intros k [<- | []]. now right.
    + destruct (IH Hs_rest Hrest_le) as [Ht [Hs [Hl Hk]]].
      simpl. rewrite Ht, app_assoc. repeat split.
      * constructor; [exact Hs |].
        apply Forall_forall. intros k Hin. destruct (Hk k Hin) as [Hin' | ->].
        -- rewrite Forall_forall in Hg_lt. now apply Hg_lt.
        -- apply str_leb_cases in Hg_le. destruct Hg_le as [Heq | Hlt];
             [contradiction | exact Hlt].
      * constructor; [exact Hg_le | exact Hl].
      * intros k [<- | Hin]; [left; now left |].
        destruct (Hk k Hin) as [Hin' | ->]; [left; now right | now right].
Qed.

Lemma group_products_from (rows : list (product_row P)) (m : list (subcategory_group P)) :
  StronglySorted
    (fun a b => String.leb (prod_subcategory a) (prod_subcategory b) = true) rows ->
  StronglySorted str_lt (group_keys m) ->
  Forall (fun p => Forall (fun k => String.leb k (prod_subcategory p) = true)
                          (group_keys m)) rows ->
  let m' := fold_left (fun m p => setdefault_append (prod_subcategory p)
                                    (catalog_item_of p) m) rows m in
  tagged m' = (tagged m ++ map tag_product rows)%list
  /\ StronglySorted str_lt (group_keys m').
Proof.
  revert m. induction rows as [| p rows IH]; intros m Hrows Hm Hle; simpl.
  - split; [now rewrite app_nil_r | exact Hm].
  - apply StronglySorted_inv in Hrows. destruct Hrows as [Hrows Hp].
    pose proof (Forall_inv Hle) as Hle_p.
    destruct (setdefault_append_last (prod_subcategory p) (catalog_item_of p) m
                Hm Hle_p) as [Ht [Hs [Hl _]]].
    destruct (IH (setdefault_append (prod_subcategory p) (catalog_item_of p) m)
                Hrows Hs) as [Ht' Hs'].
    { apply Forall_forall. intros q Hq.
      eapply Forall_impl; [| exact Hl]. intros k Hk.
      rewrite Forall_forall in Hp. now apply (str_leb_trans k (prod_subcategory p)), Hp. }
    split; [| exact Hs'].
    rewrite Ht', Ht, <- app_assoc. reflexivity.
Qed.




End CatalogFacts.

(* ================================================================== *)
(** ** Blocks that return: pre- and postconditions                     *)
(* ================================================================== *)

Section Ensures.
Context {P : Type} {PA : PriceArith P} {Lim : Engine}.

Lemma ensures_ret {A : Type} (Pre : database P -> Prop) (a : A) :
  ensures Pre (ret a) (fun _ d => Pre d).
Proof. intros d H. exists a, d. split; [reflexivity | exact H]. Qed.

Lemma ensures_cbind {A B : Type} (Pre : database P -> Prop)
    (Mid : A -> database P -> Prop) (Post : B -> database P -> Prop)
    (m : cursor A) (k : A -> cursor B) :
  ensures Pre m Mid -> (forall a, ensures (Mid a) (k a) Post) ->
  ensures Pre (cbind m k) Post.
Proof.
  intros Hm Hk d Hd. destruct (Hm d Hd) as [a [d1 [E1 H1]]].
  destruct (Hk a d1 H1) as [b [d2 [E2 H2]]].
  exists b, d2. unfold cbind. rewrite E1. split; [exact E2 | exact H2].
Qed.

Lemma ensures_weaken {A : Type} (Pre Pre' : database P -> Prop)
    (Post Post' : A -> database P -> Prop) (m : cursor A) :
  ensures Pre m Post -> (forall d, Pre' d -> Pre d) ->
  (forall a d, Post a d -> Post' a d) -> ensures Pre' m Post'.
Proof.
  intros Hm Hpre Hpost d Hd. destruct (Hm d (Hpre d Hd)) as [a [d' [E H]]].
  exists a, d'. split; [exact E | now apply Hpost].
Qed.

(** A loop whose body keeps an invariant for the elements it meets. *)
Lemma ensures_for_each {A : Type} (Inv : database P -> Prop)
    (body : A -> cursor unit) (l : list A) :
  (forall x, In x l -> ensures Inv (body x) (fun _ => Inv)) ->
  ensures Inv (for_each body l) (fun _ => Inv).
Proof.
  induction l as [| x l IH]; intros Hbody; simpl.
  - apply ensures_ret.
  - eapply ensures_cbind.
    + apply Hbody. now left.
    + intros ?. apply IH. intros y Hy. apply Hbody. now right.
Qed.

(** A loop whose invariant depends on what is still to be visited. *)
Lemma ensures_for_each_rest {A : Type} (Inv : list A -> database P -> Prop)
    (body : A -> cursor unit) (l : list A) :
  (forall x rest, ensures (Inv (x :: rest)) (body x) (fun _ => Inv rest)) ->
  ensures (Inv l) (for_each body l) (fun _ => Inv []).
Proof.
  intros Hbody. induction l as [| x l IH]; simpl.
  - apply ensures_ret.
  - eapply ensures_cbind; [apply Hbody | intros ?; exact IH].
Qed.

Lemma ensures_db_cursor {A : Type} (Pre : database P -> Prop) (body : cursor A)
    (Post : A -> database P -> Prop) (d : database P) :
  ensures Pre body Post -> Pre d ->
  exists a, fst (db_cursor body d) = Ok a /\ Post a (snd (db_cursor body d)).
Proof.
  intros H Hd. destruct (H d Hd) as [a [d' [E Hp]]].
  exists a. unfold db_cursor. rewrite E. split; [reflexivity | exact Hp].
Qed.

End Ensures.

(* ================================================================== *)
(** ** Reconciliation of the catalogue                                 *)
(* ================================================================== *)

Section ListFacts.
Context {A : Type}.

Lemma filter_all (f : A -> bool) (l : list A) :
  existsb f l = false -> filter (fun x => negb (f x)) l = l.
Proof.
  induction l as [| x l IH]; simpl; [reflexivity |].
  intros H. apply orb_false_iff in H. destruct H as [Hx Hl].
  rewrite Hx. simpl. now rewrite IH.
Qed.

Lemma filter_none (f : A -> bool) (l : list A) :
  existsb f l = false -> filter f l = [].
Proof.
  induction l as [| x l IH]; simpl; [reflexivity |].
  intros H. apply orb_false_iff in H. destruct H as [Hx Hl].
  rewrite Hx. now apply IH.
Qed.

Lemma length_filter_zero (f : A -> bool) (l : list A) :
  (Z.of_nat (List.length (filter f l)) =? 0) = negb (existsb f l).
Proof.
  induction l as [| x l IH]; simpl; [reflexivity |].
  destruct (f x); simpl; [reflexivity | exact IH].
Qed.

Lemma filter_filter_neg (f : A -> bool) (l : list A) :
  filter f (filter (fun x => negb (f x)) l) = [].
Proof.
  induction l as [| x l IH]; simpl; [reflexivity |].
  destruct (f x) eqn:E; simpl; [exact IH | rewrite E; exact IH].
Qed.

Lemma filter_idem (f : A -> bool) (l : list A) :
  filter f (filter f l) = filter f l.
Proof.
  induction l as [| x l IH]; simpl; [reflexivity |].
  destruct (f x) eqn:E; simpl; [rewrite E, IH; reflexivity | exact IH].
Qed.

Lemma NoDup_map_filter {B : Type} (g : A -> B) (f : A -> bool) (l : list A) :
  NoDup (map g l) -> NoDup (map g (filter f l)).
Proof.
  induction l as [| x l IH]; simpl; intros H; [constructor |].
  inversion H as [| ? ? Hx Hl]; subst.
  destruct (f x); [| now apply IH].
  simpl. constructor; [| now apply IH].
  intros Hin. apply Hx. apply in_map_iff in Hin. destruct Hin as [y [Hy Hf]].
  apply filter_In in Hf. apply in_map_iff. exists y. tauto.
Qed.

(** In a list without repeated keys, a key names one element. *)
Lemma NoDup_map_inj {B : Type} (g : A -> B) (l : list A) (x y : A) :
  NoDup (map g l) -> In x l -> In y l -> g x = g y -> x = y.
Proof.
  induction l as [| z l IH]; simpl; intros Hnd Hx Hy Hg; [destruct Hx |].
  inversion Hnd as [| ? ? Hz Hl]; subst.
  destruct Hx as [Hx | Hx], Hy as [Hy | Hy].
  - congruence.
  - exfalso. apply Hz. rewrite Hx, Hg. now apply in_map.
  - exfalso. apply Hz. rewrite Hy, <- Hg. now apply in_map.
  - now apply IH.
Qed.

End ListFacts.

Section SeedFacts.
Context {P : Type} {PA : PriceArith P} {Lim : Engine}.

Lemma existsb_const_false {A : Type} (f : A -> bool) (l : list A) :
  (forall x, f x = false) -> existsb f l = false.
Proof.
  intros H. induction l as [| x l IH]; simpl; [reflexivity |]. now rewrite H, IH.
Qed.

(** One iteration of the first loop: it returns, it leaves the order
    items alone, and it removes the category with its products exactly when
    the slug is not canonical and nothing references the category. *)
Lemma prune_category_run (targets : list string) (cid' : Z) (slug' : string)
    (d : database P) :
  exists d',
    prune_category targets (cid', slug') d = (Ok tt, d')
    /\ order_items d' = order_items d
    /\ seq_categories d' = seq_categories d
    /\ (if mem_string slug' targets || referenced d cid'
        then categories d' = categories d /\ products d' = products d
        else categories d' = filter (fun c => negb (cat_id c =? cid')) (categories d)
             /\ products d'
                = filter (fun p => negb (prod_category_id p =? cid')) (products d)).
Proof.
  unfold prune_category. cbn [fst snd].
  destruct (mem_string slug' targets) eqn:Hcanon.
  { exists d. cbn [orb]. repeat split. }
  cbn [orb]. unfold cbind at 1, count_referencing, query.
  rewrite length_filter_zero. fold (referenced d cid').
  destruct (referenced d cid') eqn:Href; cbn [negb].
  { exists d. repeat split. }
  unfold cbind at 1, delete_order_items_of_category.
  rewrite (filter_all _ _ Href).
  set (d1 := set_order_items (order_items d) d).
  unfold cbind, delete_products_of_category.
  assert (Href1 : existsb (references_category cid' d1) (order_items d1) = false)
    by exact Href.
  rewrite Href1.
  set (d2 := set_products
               (filter (fun p => negb (prod_category_id p =? cid')) (products d1)) d1).
  unfold delete_category.
  assert (Hgone : existsb (references_category cid' d2) (order_items d2) = false).
  { apply existsb_const_false. intros oi.
    unfold references_category, products_of_category, d2. cbn [products set_products].
    rewrite filter_filter_neg. reflexivity. }
  rewrite Hgone.
  destruct (existsb (fun c => cat_id c =? cid') (categories d2)) eqn:Hex.
  - eexists. split; [reflexivity |]. cbn. repeat split.
    apply filter_idem.
  - exists d2. split; [reflexivity |]. cbn. repeat split.
    symmetry. apply filter_all. exact Hex.
Qed.

Lemma filter_filter_keep {A : Type} (f g : A -> bool) (l : list A) :
  (forall x, f x = true -> g x = true) -> filter f (filter g l) = filter f l.
Proof.
  intros H. induction l as [| x l IH]; simpl; [reflexivity |].
  destruct (g x) eqn:Eg; simpl.
  - destruct (f x); [now rewrite IH | exact IH].
  - destruct (f x) eqn:Ef; [| exact IH]. rewrite (H x Ef) in Eg. discriminate.
Qed.

Lemma existsb_filter_false {A : Type} (f g : A -> bool) (l : list A) :
  existsb f l = false -> existsb f (filter g l) = false.
Proof.
  induction l as [| x l IH]; simpl; [reflexivity |].
  intros H. apply orb_false_iff in H. destruct H as [Hx Hl].
  destruct (g x); simpl; [rewrite Hx |]; now apply IH.
Qed.

Lemma existsb_filter_neg {A : Type} (f : A -> bool) (l : list A) :
  existsb f (filter (fun x => negb (f x)) l) = false.
Proof.
  induction l as [| x l IH]; simpl; [reflexivity |].
  destruct (f x) eqn:E; simpl; [exact IH | now rewrite E].
Qed.

Lemma next_rowid_above (seq : Z) (ids : list Z) : seq < next_rowid seq ids.
Proof. unfold next_rowid. lia. Qed.

Lemma next_rowid_not_in (seq : Z) (ids : list Z) : ~ In (next_rowid seq ids) ids.
Proof. intros H. apply (next_rowid_fresh seq) in H. lia. Qed.

(** An [UPDATE ... WHERE id = ?] outside category [cid] leaves the
    products of [cid] as they are. *)
Lemma update_outside_category (cid pid : Z) (upd : product_row P -> product_row P)
    (ps : list (product_row P)) :
  (forall q, In q ps -> prod_id q = pid -> prod_category_id q <> cid) ->
  (forall q, prod_category_id (upd q) = prod_category_id q) ->
  filter (fun p => prod_category_id p =? cid)
         (map (fun r => if prod_id r =? pid then upd r else r) ps)
  = filter (fun p => prod_category_id p =? cid) ps.
Proof.
  intros Hout Hcat. induction ps as [| q ps IH]; simpl; [reflexivity |].
  rewrite IH by (intros q' Hq'; apply Hout; now right).
  destruct (Z.eqb_spec (prod_id q) pid) as [E | E]; [| reflexivity].
  rewrite Hcat.
  destruct (Z.eqb_spec (prod_category_id q) cid) as [E' | E']; [| reflexivity].
  exfalso. exact (Hout q (or_introl eq_refl) E E').
Qed.

Lemma update_keeps_ids (pid : Z) (upd : product_row P -> product_row P)
    (ps : list (product_row P)) :
  (forall q, prod_id (upd q) = prod_id q) ->
  map prod_id (map (fun r => if prod_id r =? pid then upd r else r) ps)
  = map prod_id ps.
Proof.
  intros H. rewrite map_map. apply map_ext. intros q.
  destruct (prod_id q =? pid); [apply H | reflexivity].
Qed.

(** One iteration of the inner loop, run for a category other than
    [cid]: it returns and touches neither the categories, nor the order
    items, nor the products of [cid]. *)
Lemma upsert_product_run (cid target : Z) (it : seed_item P) (d : database P) :
  target <> cid ->
  existsb (fun c => cat_id c =? target) (categories d) = true ->
  NoDup (map prod_id (products d)) ->
  exists d',
    upsert_product target it d = (Ok tt, d')
    /\ categories d' = categories d
    /\ order_items d' = order_items d
    /\ seq_categories d' = seq_categories d
    /\ NoDup (map prod_id (products d'))
    /\ products_of_category cid d' = products_of_category cid d.
Proof.
  intros Hneq Hcat Hnd.
  unfold upsert_product, cbind, query.
  destruct (find (fun p => (prod_category_id p =? target)
                           && String.eqb (prod_name p) (si_name it)) (products d))
    as [p |] eqn:Hfind.
  - apply find_some in Hfind. destruct Hfind as [Hp Hmatch].
    apply andb_true_iff in Hmatch. destruct Hmatch as [Hpc _].
    apply Z.eqb_eq in Hpc.
    unfold update_product. eexists. split; [reflexivity |].
    cbn [categories products order_items seq_categories set_products].
    repeat split.
    + rewrite update_keeps_ids; [exact Hnd | reflexivity].
    + unfold products_of_category. cbn [products].
      apply update_outside_category; [| reflexivity].
      intros q Hq Hid Hqc.
      assert (q = p) by (apply (NoDup_map_inj prod_id (products d)); auto).
      subst q. congruence.
  - unfold insert_product. rewrite Hcat. eexists. split; [reflexivity |].
    cbn [categories products order_items seq_categories].
    repeat split.
    + rewrite map_app. simpl. apply NoDup_app; [exact Hnd | repeat constructor; intros [] |].
      intros x Hx [<- | []]. exact (next_rowid_not_in _ _ Hx).
    + unfold products_of_category. cbn [products]. rewrite filter_app. simpl.
      destruct (Z.eqb_spec target cid) as [E | E]; [contradiction |].
      now rewrite app_nil_r.
Qed.

Lemma upsert_products_run (cid target : Z) (items : list (seed_item P)) (d : database P) :
  target <> cid ->
  existsb (fun c => cat_id c =? target) (categories d) = true ->
  NoDup (map prod_id (products d)) ->
  exists d',
    for_each (upsert_product target) items d = (Ok tt, d')
    /\ categories d' = categories d
    /\ order_items d' = order_items d
    /\ seq_categories d' = seq_categories d
    /\ NoDup (map prod_id (products d'))
    /\ products_of_category cid d' = products_of_category cid d.
Proof.
  intros Hneq. revert d. induction items as [| it items IH]; intros d Hcat Hnd.
  - exists d. repeat split. exact Hnd.
  - destruct (upsert_product_run cid target it d Hneq Hcat Hnd)
      as [d1 [E1 [Hc1 [Ho1 [Hs1 [Hn1 Hp1]]]]]].
    destruct (IH d1) as [d2 [E2 [Hc2 [Ho2 [Hs2 [Hn2 Hp2]]]]]].
    { now rewrite Hc1. }
    { exact Hn1. }
    exists d2. cbn [for_each]. unfold cbind. rewrite E1.
    split; [exact E2 |]. repeat split; congruence.
Qed.

Lemma has_category_In (t : Z) (l : list category_row) :
  existsb (fun c => cat_id c =? t) l = true <-> In t (map cat_id l).
Proof.
  rewrite existsb_exists, in_map_iff. split.
  - intros [c [Hc E]]. apply Z.eqb_eq in E. now exists c.
  - intros [c [E Hc]]. exists c. split; [exact Hc | now apply Z.eqb_eq].
Qed.

Lemma has_category_ids (t : Z) (l l' : list category_row) :
  map cat_id l' = map cat_id l ->
  existsb (fun c => cat_id c =? t) l' = existsb (fun c => cat_id c =? t) l.
Proof.
  intros H.
  destruct (existsb (fun c => cat_id c =? t) l) eqn:E.
  - apply has_category_In. rewrite H. now apply has_category_In.
  - destruct (existsb (fun c => cat_id c =? t) l') eqn:E'; [| reflexivity].
    apply has_category_In in E'. rewrite H in E'. apply has_category_In in E'.
    congruence.
Qed.

Lemma find_none_existsb {A : Type} (f : A -> bool) (l : list A) :
  find f l = None -> existsb f l = false.
Proof.
  induction l as [| x l IH]; simpl; [reflexivity |].
  destruct (f x); [discriminate | exact IH].
Qed.

(** One iteration of the second loop, when the seed category is not the
    row with id [cid]: it returns, keeps the keys of both tables unique,
    and touches neither the order items, nor a category row with id [cid],
    nor the products of [cid]; no row with id [cid] appears. *)
Lemma upsert_category_run (cid : Z) (sc : seed_category P) (d : database P) :
  NoDup (map cat_id (categories d)) ->
  NoDup (map prod_id (products d)) ->
  Forall (fun c' => cat_id c' <= seq_categories d) (categories d) ->
  cid <= seq_categories d ->
  (forall r, In r (categories d) -> cat_slug r = sc_slug sc -> cat_id r <> cid) ->
  exists d',
    upsert_category sc d = (Ok tt, d')
    /\ order_items d' = order_items d
    /\ NoDup (map cat_id (categories d'))
    /\ NoDup (map prod_id (products d'))
    /\ Forall (fun c' => cat_id c' <= seq_categories d') (categories d')
    /\ cid <= seq_categories d'
    /\ products_of_category cid d' = products_of_category cid d
    /\ (forall c0, In c0 (categories d) -> cat_id c0 = cid -> In c0 (categories d'))
    /\ (existsb (fun c' => cat_id c' =? cid) (categories d) = false ->
        existsb (fun c' => cat_id c' =? cid) (categories d') = false).
Proof.
  intros Hndc Hndp Hseq Hcid Hother.
  unfold upsert_category. unfold cbind at 1, query.
  destruct (find (fun r => String.eqb (cat_slug r) (sc_slug sc)) (categories d))
    as [r |] eqn:Hfind.
  - apply find_some in Hfind. destruct Hfind as [Hr Hslug].
    apply String.eqb_eq in Hslug.
    assert (Hrid : cat_id r <> cid) by now apply Hother.
    unfold cbind at 1. unfold cbind at 1, update_category, ret.
    set (upd := fun r' : category_row =>
                  if cat_id r' =? cat_id r
                  then {| cat_id := cat_id r'; cat_slug := cat_slug r';
                          cat_name := sc_name sc;
                          cat_description := Some (sc_description sc);
                          cat_image_url := sc_image_url sc |}
                  else r').
    set (d1 := set_categories (map upd (categories d)) d).
    assert (Hids : map cat_id (categories d1) = map cat_id (categories d)).
    { unfold d1. cbn [categories set_categories]. rewrite map_map.
      apply map_ext. intros r'. unfold upd. destruct (cat_id r' =? cat_id r); reflexivity. }
    destruct (upsert_products_run cid (cat_id r) (sc_items sc) d1 Hrid)
      as [d2 [E2 [Hc2 [Ho2 [Hs2 [Hn2 Hp2]]]]]].
    { rewrite (has_category_ids _ _ _ Hids). apply has_category_In. now apply in_map. }
    { exact Hndp. }
    exists d2. split; [exact E2 |].
    rewrite Hc2, Ho2, Hs2, Hp2. repeat split; try assumption.
    + now rewrite Hids.
    + unfold d1. cbn [categories set_categories seq_categories].
      apply Forall_map. eapply Forall_impl; [| exact Hseq].
      intros r' Hr'. unfold upd. destruct (cat_id r' =? cat_id r); exact Hr'.
    + intros c0 Hc0 Hid. unfold d1. cbn [categories set_categories].
      apply in_map_iff. exists c0. split; [| exact Hc0].
      unfold upd. destruct (Z.eqb_spec (cat_id c0) (cat_id r)) as [E | E];
        [congruence | reflexivity].
    + intros H. now rewrite (has_category_ids _ _ _ Hids).
  - unfold cbind at 1, insert_category.
    rewrite (find_none_existsb _ _ Hfind).
    set (n := next_rowid (seq_categories d) (map cat_id (categories d))).
    set (row := {| cat_id := n; cat_slug := sc_slug sc; cat_name := sc_name sc;
                   cat_description := Some (sc_description sc);
                   cat_image_url := sc_image_url sc |}).
    set (d1 := {| categories := (categories d ++ [row])%list; products := products d;
                  orders := orders d; order_items := order_items d;
                  seq_categories := n; seq_products := seq_products d;
                  seq_orders := seq_orders d; seq_order_items := seq_order_items d |}).
    assert (Hn : seq_categories d < n) by apply next_rowid_above.
    assert (Hncid : n <> cid) by lia.
    destruct (upsert_products_run cid n (sc_items sc) d1 Hncid)
      as [d2 [E2 [Hc2 [Ho2 [Hs2 [Hn2 Hp2]]]]]].
    { unfold d1. cbn [categories]. rewrite existsb_app. simpl.
      rewrite Z.eqb_refl. simpl. apply orb_true_r. }
    { exact Hndp. }
    exists d2. split; [exact E2 |].
    rewrite Hc2, Ho2, Hs2, Hp2. unfold d1. cbn [categories seq_categories order_items].
    repeat split; try assumption.
    + rewrite map_app. simpl. apply NoDup_app; [exact Hndc | repeat constructor; intros [] |].
      intros x Hx [<- | []]. exact (next_rowid_not_in _ _ Hx).
    + apply Forall_app. split.
      * eapply Forall_impl; [| exact Hseq]. intros r' Hr'. simpl in Hr'. lia.
      * repeat constructor. simpl. lia.
    + lia.
    + intros c0 Hc0 _. apply in_or_app. now left.
    + intros H. rewrite existsb_app, H. simpl.
      destruct (Z.eqb_spec n cid); [contradiction | reflexivity].
Qed.

Section OneCategory.
Variable c : category_row.
Variable d0 : database P.

Lemma kept_referenced (d : database P) :
  (kept c d0) d -> referenced d (cat_id c) = referenced d0 (cat_id c).
Proof.
  intros [[_ Hoi] [_ Hp]]. unfold referenced, references_category.
  now rewrite Hoi, Hp.
Qed.

Lemma steady_filter (d d' : database P) (cid' : Z) :
  (steady d0) d ->
  order_items d' = order_items d ->
  seq_categories d' = seq_categories d ->
  categories d' = filter (fun c' => negb (cat_id c' =? cid')) (categories d) ->
  products d' = filter (fun p => negb (prod_category_id p =? cid')) (products d) ->
  (steady d0) d'.
Proof.
  intros [[Hc [Hp Hs]] Ho] Ho' Hs' Hc' Hp'. unfold steady, catalog_ok.
  rewrite Ho', Hs', Hc', Hp'. repeat split.
  - now apply NoDup_map_filter.
  - now apply NoDup_map_filter.
  - apply Forall_forall. intros x Hx. apply filter_In in Hx.
    rewrite Forall_forall in Hs. now apply Hs.
  - exact Ho.
Qed.

Lemma steady_same (d d' : database P) :
  (steady d0) d ->
  order_items d' = order_items d ->
  seq_categories d' = seq_categories d ->
  categories d' = categories d ->
  products d' = products d ->
  (steady d0) d'.
Proof.
  intros [[Hc [Hp Hs]] Ho] Ho' Hs' Hc' Hp'. unfold steady, catalog_ok.
  rewrite Ho', Hs', Hc', Hp'. repeat split; assumption.
Qed.

(** Pruning some other category, or one that stays, keeps [c] in place. *)
Lemma prune_keeps (targets : list string) (x : Z * string) :
  (fst x = cat_id c ->
   mem_string (snd x) targets = true \/ referenced d0 (cat_id c) = true) ->
  ensures (kept c d0) (prune_category targets x) (fun _ => (kept c d0)).
Proof.
  intros Hself d Hk. destruct x as [cid' slug'].
  destruct (prune_category_run targets cid' slug' d) as [d' [E [Ho [Hs Hcase]]]].
  exists tt, d'. split; [exact E |].
  destruct Hk as [Hst [Hin Hp]].
  destruct (mem_string slug' targets || referenced d cid') eqn:Hcond.
  - destruct Hcase as [Hc' Hp']. unfold kept. split; [| split].
    + exact (steady_same d d' Hst Ho Hs Hc' Hp').
    + now rewrite Hc'.
    + unfold products_of_category in *. now rewrite Hp'.
  - destruct Hcase as [Hc' Hp'].
    assert (Hneq : cid' <> cat_id c).
    { intros ->. apply orb_false_iff in Hcond. destruct Hcond as [Hm Hr].
      rewrite (kept_referenced d) in Hr by (split; [exact Hst | split; assumption]).
      destruct (Hself eq_refl) as [H | H]; simpl in H; congruence. }
    unfold kept. split; [| split].
    + exact (steady_filter d d' cid' Hst Ho Hs Hc' Hp').
    + rewrite Hc'. apply filter_In. split; [exact Hin |].
      destruct (Z.eqb_spec (cat_id c) cid'); [congruence | reflexivity].
    + unfold products_of_category in *. rewrite Hp', filter_filter_keep; [exact Hp |].
      intros p Hpc. apply Z.eqb_eq in Hpc.
      destruct (Z.eqb_spec (prod_category_id p) cid'); [congruence | reflexivity].
Qed.

(** Pruning never brings a removed category back. *)
Lemma prune_stays_gone (targets : list string) (x : Z * string) :
  ensures (gone c d0) (prune_category targets x) (fun _ => (gone c d0)).
Proof.
  intros d Hg. destruct x as [cid' slug'].
  destruct (prune_category_run targets cid' slug' d) as [d' [E [Ho [Hs Hcase]]]].
  exists tt, d'. split; [exact E |].
  destruct Hg as [Hst [Hex [Hp Hle]]].
  destruct (mem_string slug' targets || referenced d cid').
  - destruct Hcase as [Hc' Hp']. unfold gone. split; [| split; [| split]].
    + exact (steady_same d d' Hst Ho Hs Hc' Hp').
    + now rewrite Hc'.
    + unfold products_of_category in *. now rewrite Hp'.
    + now rewrite Hs.
  - destruct Hcase as [Hc' Hp']. unfold gone. split; [| split; [| split]].
    + exact (steady_filter d d' cid' Hst Ho Hs Hc' Hp').
    + rewrite Hc'. now apply existsb_filter_false.
    + unfold products_of_category in *. rewrite Hp'.
      apply filter_none. apply existsb_filter_false.
      destruct (existsb (fun p => prod_category_id p =? cat_id c) (products d)) eqn:Ex;
        [| reflexivity].
      apply existsb_exists in Ex. destruct Ex as [p [Hpin Hpc]].
      assert (In p (filter (fun p => prod_category_id p =? cat_id c) (products d)))
        by (apply filter_In; tauto).
      rewrite Hp in H. destruct H.
    + now rewrite Hs.
Qed.

(** Pruning [c] itself when nothing references it removes it. *)
Lemma prune_removes (targets : list string) :
  mem_string (cat_slug c) targets = false ->
  referenced d0 (cat_id c) = false ->
  ensures (kept c d0) (prune_category targets (cat_id c, cat_slug c)) (fun _ => (gone c d0)).
Proof.
  intros Hcanon Href d Hk.
  destruct (prune_category_run targets (cat_id c) (cat_slug c) d)
    as [d' [E [Ho [Hs Hcase]]]].
  exists tt, d'. split; [exact E |].
  rewrite Hcanon, (kept_referenced d Hk), Href in Hcase. cbn [orb] in Hcase.
  destruct Hcase as [Hc' Hp']. destruct Hk as [Hst [Hin Hp]].
  unfold gone. split; [| split; [| split]].
  - exact (steady_filter d d' (cat_id c) Hst Ho Hs Hc' Hp').
  - rewrite Hc'. apply existsb_filter_neg.
  - unfold products_of_category. rewrite Hp'. apply filter_filter_neg.
  - rewrite Hs. destruct Hst as [[_ [_ Hseq]] _].
    rewrite Forall_forall in Hseq. now apply Hseq.
Qed.

Lemma kept_seq (d : database P) : (kept c d0) d -> cat_id c <= seq_categories d.
Proof.
  intros [[[_ [_ Hseq]] _] [Hin _]]. rewrite Forall_forall in Hseq. now apply Hseq.
Qed.

(** Reconciling a seed category with another slug keeps [c] in place. *)
Lemma upsert_keeps (sc : seed_category P) :
  sc_slug sc <> cat_slug c ->
  ensures (kept c d0) (upsert_category sc) (fun _ => (kept c d0)).
Proof.
  intros Hslug d Hk. pose proof (kept_seq d Hk) as Hle.
  destruct Hk as [[[Hc [Hp Hs]] Ho] [Hin Hpc]].
  destruct (upsert_category_run (cat_id c) sc d Hc Hp Hs Hle)
    as [d' [E [Ho' [Hc' [Hp' [Hs' [_ [Hpc' [Hin' _]]]]]]]]].
  { intros r Hr Hrslug Hid.
    assert (r = c) by (apply (NoDup_map_inj cat_id (categories d)); auto).
    subst r. congruence. }
  exists tt, d'. split; [exact E |].
  unfold kept, steady, catalog_ok. rewrite Ho', Hpc'.
  repeat split; try assumption. now apply Hin'.
Qed.

(** Reconciling a seed category never brings a removed category back. *)
Lemma upsert_stays_gone (sc : seed_category P) :
  ensures (gone c d0) (upsert_category sc) (fun _ => (gone c d0)).
Proof.
  intros d [[[Hc [Hp Hs]] Ho] [Hex [Hpc Hle]]].
  destruct (upsert_category_run (cat_id c) sc d Hc Hp Hs Hle)
    as [d' [E [Ho' [Hc' [Hp' [Hs' [Hle' [Hpc' [_ Hex']]]]]]]]].
  { intros r Hr _ Hid.
    assert (existsb (fun c' => cat_id c' =? cat_id c) (categories d) = true).
    { apply existsb_exists. exists r. split; [exact Hr | now apply Z.eqb_eq]. }
    congruence. }
  exists tt, d'. split; [exact E |].
  unfold gone, steady, catalog_ok. rewrite Ho', Hpc'.
  repeat split; try assumption. now apply Hex'.
Qed.

Lemma first_loop_removes (targets : list string) (existing : list (Z * string)) :
  mem_string (cat_slug c) targets = false ->
  referenced d0 (cat_id c) = false ->
  ensures ((pruning c d0) existing) (for_each (prune_category targets) existing)
          (fun _ => (pruning c d0) []).
Proof.
  intros Hcanon Href. apply ensures_for_each_rest.
  intros x rest d [Hnd [Hslug Hstate]].
  simpl in Hnd. inversion Hnd as [| ? ? Hx Hnd']; subst.
  assert (Hslug' : forall y, In y rest -> fst y = cat_id c -> snd y = cat_slug c).
  { intros y Hy. apply Hslug. now right. }
  unfold mem_Z in Hstate. simpl in Hstate. fold (mem_Z (cat_id c) (map fst rest)) in Hstate.
  destruct (Z.eqb_spec (cat_id c) (fst x)) as [E | E].
  - simpl in Hstate.
    assert (Hx_eq : x = (cat_id c, cat_slug c)).
    { destruct x as [i s]. simpl in *. subst i. f_equal.
      apply (Hslug (cat_id c, s)); [now left | reflexivity]. }
    destruct (prune_removes targets Hcanon Href d Hstate) as [u [d' [Erun Hg]]].
    exists u, d'. rewrite Hx_eq. split; [exact Erun |].
    split; [exact Hnd' |]. split; [exact Hslug' |].
    replace (mem_Z (cat_id c) (map fst rest)) with false; [exact Hg |].
    symmetry. apply mem_Z_false. now rewrite E.
  - simpl in Hstate.
    destruct (mem_Z (cat_id c) (map fst rest)) eqn:Hmem.
    + destruct (prune_keeps targets x) with (d := d) as [u [d' [Erun Hk]]];
        [intros Hfst; congruence | exact Hstate |].
      exists u, d'. split; [exact Erun |].
      split; [exact Hnd' |]. split; [exact Hslug' |]. now rewrite Hmem.
    + destruct (prune_stays_gone targets x d Hstate) as [u [d' [Erun Hg]]].
      exists u, d'. split; [exact Erun |].
      split; [exact Hnd' |]. split; [exact Hslug' |]. now rewrite Hmem.
Qed.

End OneCategory.

Lemma mem_string_false (x : string) (l : list string) :
  mem_string x l = false -> forall y, In y l -> y <> x.
Proof.
  unfold mem_string. intros H y Hy ->.
  assert (existsb (String.eqb x) l = true); [| congruence].
  apply existsb_exists. exists x. split; [exact Hy | apply String.eqb_refl].
Qed.

(** *** What order items reference is never removed *)

Lemma keeps_referenced_refl (d : database P) : keeps_referenced d d.
Proof.
  split; [reflexivity |]. split.
  - intros oi p _ Hp _. now exists p.
  - intros oi p c _ _ _ Hc _. now exists c.
Qed.

Lemma keeps_referenced_trans (a b c : database P) :
  keeps_referenced a b -> keeps_referenced b c -> keeps_referenced a c.
Proof.
  intros [Ho1 [Hp1 Hc1]] [Ho2 [Hp2 Hc2]]. split; [congruence |]. split.
  - intros oi p Hoi Hp Hid.
    destruct (Hp1 oi p Hoi Hp Hid) as [p1 [Hin1 [Hid1 Hcat1]]].
    destruct (Hp2 oi p1) as [p2 [Hin2 [Hid2 Hcat2]]];
      [now rewrite Ho1 | exact Hin1 | congruence |].
    exists p2. repeat split; congruence.
  - intros oi p c0 Hoi Hp Hid Hc0 Hcat.
    destruct (Hp1 oi p Hoi Hp Hid) as [p1 [Hin1 [Hid1 Hcat1]]].
    destruct (Hc1 oi p c0 Hoi Hp Hid Hc0 Hcat) as [c1 [Hcin1 [Hcid1 Hslug1]]].
    destruct (Hc2 oi p1 c1) as [c2 [Hcin2 [Hcid2 Hslug2]]];
      [now rewrite Ho1 | exact Hin1 | congruence | exact Hcin1 | congruence |].
    exists c2. repeat split; congruence.
Qed.

Lemma extends_keeps (d d' : database P) : extends d d' -> keeps_referenced d d'.
Proof.
  intros [Ho [Hp Hc]]. split; [exact Ho |]. split.
  - intros oi p _ Hin _. now apply Hp.
  - intros oi p c _ _ _ Hin _. now apply Hc.
Qed.

Lemma extends_refl (d : database P) : extends d d.
Proof.
  split; [reflexivity |]. split; intros x Hx; now exists x.
Qed.

(** The statements of the second loop only update and add rows. *)
Lemma update_category_extends (sc : seed_category P) (cid : Z) (d : database P) :
  extends d (snd (update_category sc cid d)).
Proof.
  split; [reflexivity |]. split.
  - intros p Hp. now exists p.
  - intros c Hc. cbn [update_category snd categories set_categories].
    eexists. split; [apply in_map_iff; exists c; split; [reflexivity | exact Hc] |].
    destruct (cat_id c =? cid); split; reflexivity.
Qed.

Lemma insert_category_extends (sc : seed_category P) (d : database P) :
  extends d (snd (insert_category sc d)).
Proof.
  unfold insert_category.
  destruct (existsb (fun r => String.eqb (cat_slug r) (sc_slug sc)) (categories d)).
  - apply extends_refl.
  - split; [reflexivity |]. split.
    + intros p Hp. now exists p.
    + intros c Hc. exists c. split; [| split; reflexivity].
      cbn [snd categories]. apply in_or_app. now left.
Qed.

Lemma update_product_extends (it : seed_item P) (pid : Z) (d : database P) :
  extends d (snd (update_product it pid d)).
Proof.
  split; [reflexivity |]. split.
  - intros p Hp. cbn [update_product snd products set_products].
    eexists. split; [apply in_map_iff; exists p; split; [reflexivity | exact Hp] |].
    destruct (prod_id p =? pid); split; reflexivity.
  - intros c Hc. now exists c.
Qed.

Lemma insert_product_extends (cid : Z) (it : seed_item P) (d : database P) :
  extends d (snd (insert_product cid it d)).
Proof.
  unfold insert_product.
  destruct (existsb (fun c => cat_id c =? cid) (categories d)).
  - split; [reflexivity |]. split.
    + intros p Hp. exists p. split; [| split; reflexivity].
      cbn [snd products]. apply in_or_app. now left.
    + intros c Hc. now exists c.
  - apply extends_refl.
Qed.

(** One iteration of the first loop removes nothing an order item
    references. *)
Lemma prune_keeps_referenced (targets : list string) (x : Z * string) :
  maintains (P := P) keeps_referenced (prune_category targets x).
Proof.
  intros d. destruct x as [cid' slug'].
  destruct (prune_category_run targets cid' slug' d) as [d' [E [Ho [_ Hcase]]]].
  rewrite E. cbn [snd].
  destruct (mem_string slug' targets || referenced d cid') eqn:Hcond.
  - destruct Hcase as [Hc Hp]. split; [exact Ho |]. split.
    + intros oi p _ Hin _. exists p. rewrite Hp. auto.
    + intros oi p c _ _ _ Hin _. exists c. rewrite Hc. auto.
  - destruct Hcase as [Hc Hp].
    apply orb_false_iff in Hcond. destruct Hcond as [_ Href].
    assert (Hother : forall oi p, In oi (order_items d) -> In p (products d) ->
                       prod_id p = oi_product_id oi -> prod_category_id p <> cid').
    { intros oi p Hoi Hin Hid Hcat.
      assert (referenced d cid' = true); [| congruence].
      apply existsb_exists. exists oi. split; [exact Hoi |].
      unfold references_category. apply mem_Z_In. rewrite <- Hid.
      apply in_map. apply filter_In. split; [exact Hin | now apply Z.eqb_eq]. }
    split; [exact Ho |]. split.
    + intros oi p Hoi Hin Hid. exists p. split; [| split; reflexivity].
      rewrite Hp. apply filter_In. split; [exact Hin |].
      apply negb_true_iff, Z.eqb_neq. exact (Hother oi p Hoi Hin Hid).
    + intros oi p c Hoi Hin Hid Hcin Hcat. exists c. split; [| split; reflexivity].
      rewrite Hc. apply filter_In. split; [exact Hcin |].
      apply negb_true_iff, Z.eqb_neq. rewrite Hcat.
      exact (Hother oi p Hoi Hin Hid).
Qed.

Lemma upsert_keeps_referenced (sc : seed_category P) :
  maintains (P := P) keeps_referenced (upsert_category sc).
Proof.
  unfold upsert_category, upsert_product.
  frame_block keeps_referenced_refl keeps_referenced_trans.
  all: intros d0; apply extends_keeps.
  all: first [ apply update_category_extends | apply insert_category_extends
             | apply update_product_extends | apply insert_product_extends ].
Qed.

(** Reconciliation removes no product an order item references and no
    category of such a product, and no order item. *)
Lemma seed_data_keeps_referenced (catalog_seed : list (seed_category P))
    (d : database P) :
  keeps_referenced d (snd (seed_data catalog_seed d)).
Proof.
  unfold seed_data.
  apply (maintains_db_cursor keeps_referenced keeps_referenced_refl).
  apply (maintains_cbind _ keeps_referenced_trans);
    [apply (maintains_query _ keeps_referenced_refl) | intros existing].
  apply (maintains_cbind _ keeps_referenced_trans).
  - apply (maintains_for_each _ keeps_referenced_refl keeps_referenced_trans).
    intros x. apply prune_keeps_referenced.
  - intros _.
    apply (maintains_for_each _ keeps_referenced_refl keeps_referenced_trans).
    intros sc. apply upsert_keeps_referenced.
Qed.

(** C5: for a category whose slug is not in the seed catalogue,
    [seed_data] returns, leaves every order item in place, and removes the
    category with its products exactly when no order item references one of
    its products; a referenced category stays with its products as they
    were.  Whatever the slug, every product an order item references and
    the category of that product are still there afterwards.  (The catalogue
    tables satisfy their key constraints.) *)
Theorem seed_data_prunes (catalog_seed : list (seed_category P))
    (d : database P) (c : category_row) :
  catalog_ok d ->
  In c (categories d) ->
  mem_string (cat_slug c) (map sc_slug catalog_seed) = false ->
  fst (seed_data catalog_seed d) = Ok tt
  /\ order_items (snd (seed_data catalog_seed d)) = order_items d
  /\ (if referenced d (cat_id c)
      then In c (categories (snd (seed_data catalog_seed d)))
           /\ products_of_category (cat_id c) (snd (seed_data catalog_seed d))
              = products_of_category (cat_id c) d
      else existsb (fun c' => cat_id c' =? cat_id c)
                   (categories (snd (seed_data catalog_seed d))) = false
           /\ products_of_category (cat_id c) (snd (seed_data catalog_seed d)) = [])
  /\ keeps_referenced d (snd (seed_data catalog_seed d)).
Proof.
  intros Hok Hin Hcanon.
  assert (Hsafe := seed_data_keeps_referenced catalog_seed d).
  revert Hsafe.
  assert (Hkept : kept c d d) by (repeat split; try apply Hok; auto).
  set (targets := map sc_slug catalog_seed) in *.
  assert (Hseed : forall sc, In sc catalog_seed -> sc_slug sc <> cat_slug c).
  { intros sc Hsc. apply (mem_string_false _ _ Hcanon). now apply in_map. }
  unfold seed_data. fold targets.
  destruct (referenced d (cat_id c)) eqn:Href.
  - destruct (ensures_db_cursor (kept c d)
               (cbind (query (fun d1 => map (fun c' => (cat_id c', cat_slug c'))
                                            (categories d1)))
                  (fun existing =>
                     cbind (for_each (prune_category targets) existing)
                       (fun _ => for_each upsert_category catalog_seed)))
               (fun _ => kept c d) d) as [u [Hfst Hpost]]; [| exact Hkept |].
    + apply ensures_cbind with (Mid := fun _ => kept c d).
      * intros d1 H1. eexists _, d1. split; [reflexivity | exact H1].
      * intros existing. apply ensures_cbind with (Mid := fun _ => kept c d).
        -- apply ensures_for_each. intros x _. apply prune_keeps. intros _. now right.
        -- intros _. apply ensures_for_each. intros sc Hsc. now apply upsert_keeps, Hseed.
    + destruct u. destruct Hpost as [[_ Ho] [Hc Hp]]. intros Hsafe.
      split; [exact Hfst |]. split; [exact Ho |]. split; [split; assumption | exact Hsafe].
  - destruct (ensures_db_cursor (kept c d)
               (cbind (query (fun d1 => map (fun c' => (cat_id c', cat_slug c'))
                                            (categories d1)))
                  (fun existing =>
                     cbind (for_each (prune_category targets) existing)
                       (fun _ => for_each upsert_category catalog_seed)))
               (fun _ => gone c d) d) as [u [Hfst Hpost]]; [| exact Hkept |].
    + apply ensures_cbind with (Mid := fun existing d1 => pruning c d existing d1).
      * intros d1 H1. eexists _, d1. split; [reflexivity |].
        pose proof H1 as [[[Hnd _] _] [Hin1 _]].
        unfold pruning. rewrite map_map. simpl. split; [exact Hnd |]. split.
        -- intros x Hx Hfst. apply in_map_iff in Hx. destruct Hx as [c' [<- Hc']].
           simpl in *. f_equal.
           apply (NoDup_map_inj cat_id (categories d1)); auto.
        -- assert (Hm : mem_Z (cat_id c) (map (fun x => cat_id x) (categories d1)) = true).
           { apply mem_Z_In. now apply (in_map cat_id). }
           rewrite Hm. exact H1.
      * intros existing. apply ensures_cbind with (Mid := fun _ => gone c d).
        -- eapply ensures_weaken.
           ++ apply (first_loop_removes c d targets existing Hcanon Href).
           ++ intros d1 H1. exact H1.
           ++ intros a d1 [_ [_ H1]]. exact H1.
        -- intros _. apply ensures_for_each. intros sc _. apply upsert_stays_gone.
    + destruct u. destruct Hpost as [[_ Ho] [Hex [Hp _]]]. intros Hsafe.
      split; [exact Hfst |]. split; [exact Ho |]. split; [split; assumption | exact Hsafe].
Qed.

End SeedFacts.

Lemma shop_catalog_ok : catalog_ok shop.
Proof.
  split; [| split].
  - simpl. repeat constructor; simpl; intuition discriminate.
  - simpl. repeat constructor; simpl; intuition discriminate.
  - repeat constructor; simpl; lia.
Defined.

(** In the sample shop neither "old-stock" nor "seasonal" is in the seed
    catalogue; an order references the bucket of "old-stock", nothing
    references "seasonal". *)
Lemma seed_data_prunes_witness :
  (fst (seed_data catalog_excerpt shop) = Ok tt
   /\ order_items (snd (seed_data catalog_excerpt shop)) = order_items shop
   /\ existsb (fun c' => cat_id c' =? 3)
              (categories (snd (seed_data catalog_excerpt shop))) = false
   /\ products_of_category 3 (snd (seed_data catalog_excerpt shop)) = [])
  /\ (fst (seed_data catalog_excerpt shop) = Ok tt
      /\ order_items (snd (seed_data catalog_excerpt shop)) = order_items shop
      /\ In (category 2 "old-stock" "Clearance")
            (categories (snd (seed_data catalog_excerpt shop)))
      /\ products_of_category 2 (snd (seed_data catalog_excerpt shop))
         = products_of_category 2 shop).
Proof.
  split.
  - destruct (seed_data_prunes catalog_excerpt shop (category 3 "seasonal" "Barbecue")
                shop_catalog_ok (or_intror (or_intror (or_introl eq_refl))) eq_refl)
      as [H1 [H2 [[H3 H4] _]]].
    repeat split; assumption.
  - destruct (seed_data_prunes catalog_excerpt shop (category 2 "old-stock" "Clearance")
                shop_catalog_ok (or_intror (or_introl eq_refl)) eq_refl)
      as [H1 [H2 [[H3 H4] _]]].
    repeat split; assumption.
Defined.

(* ================================================================== *)
(** ** The notifier                                                    *)
(* ================================================================== *)

(** *** Plain addresses *)

(** An address character is an ASCII character other than a line
    boundary. *)
Lemma address_char_ascii (c : ascii) :
  address_char c = true \/ c = "@"%char ->
  Py.is_continuation c = false /\ Py.is_line_boundary (String c "") = false.
Proof.
  destruct c as [[] [] [] [] [] [] [] []]; vm_compute; intros [H | H];
    try discriminate; split; reflexivity.
Qed.

Lemma chars_address_text (s : string) :
  address_text s ->
  Py.chars s = map (fun c => String c "") (list_ascii_of_string s).
Proof.
  induction s as [| c rest IH]; [reflexivity |].
  intros [_ Hrest]. cbn [Py.chars list_ascii_of_string map]. rewrite (IH Hrest).
  destruct rest as [| c' rest']; [reflexivity |].
  cbn [list_ascii_of_string map Py.starts_with_continuation].
  destruct Hrest as [Hc' _]. destruct (address_char_ascii c' Hc') as [-> _].
  reflexivity.
Qed.

Lemma count_lines_text (l : list string) (pending : bool) :
  Forall (fun ch => Py.is_line_boundary ch = false) l ->
  (Py.count_lines l pending <= 1)%nat.
Proof.
  intros H. revert pending. induction H as [| ch l Hch _ IH]; intros pending.
  - simpl. destruct pending; lia.
  - cbn [Py.count_lines]. rewrite Hch. apply IH.
Qed.

Lemma address_text_single_line (s : string) : address_text s -> single_line s = true.
Proof.
  intros H. unfold single_line, Py.splitlines_len.
  apply negb_true_iff, Nat.ltb_ge. apply count_lines_text.
  rewrite (chars_address_text s H). clear -H.
  induction s as [| c rest IH]; [constructor |].
  destruct H as [Hc Hrest]. cbn [list_ascii_of_string map]. constructor.
  - now destruct (address_char_ascii c Hc).
  - now apply IH.
Qed.

Lemma address_part_text (s : string) : address_part s = true -> address_text s.
Proof.
  induction s as [| c rest IH]; [discriminate |].
  cbn [address_part address_text]. destruct rest as [| c' rest'].
  - intros H. split; [now left | exact I].
  - intros H. apply andb_true_iff in H. destruct H as [Hc Hr].
    split; [now left | now apply IH].
Qed.

Lemma plain_address_text (s : string) (local_seen : bool) :
  plain_address_from local_seen s = true -> address_text s.
Proof.
  revert local_seen. induction s as [| c rest IH]; intros b; [discriminate |].
  cbn [plain_address_from address_text].
  destruct (Ascii.eqb_spec c "@"%char) as [-> | _]; intros H;
    apply andb_true_iff in H; destruct H as [H1 H2].
  - split; [now right | now apply address_part_text].
  - split; [now left | now apply (IH true)].
Qed.

Lemma plain_address_truthy (s : string) : plain_address s = true -> truthy s = true.
Proof. destruct s; [discriminate | reflexivity]. Qed.

Lemma plain_or_empty_single_line (s : string) :
  plain_or_empty s = true -> single_line s = true.
Proof.
  unfold plain_or_empty. intros H. apply orb_true_iff in H. destruct H as [H | H].
  - apply String.eqb_eq in H. subst. reflexivity.
  - apply address_text_single_line. now apply (plain_address_text s false).
Qed.

Lemma sender_plain_single_line (settings : Settings) :
  sender_plain settings = true -> single_line (sender_of settings) = true.
Proof.
  unfold sender_plain, sender_of. destruct (email_from settings) as [a |]; intros H.
  - destruct (truthy a); [now apply plain_or_empty_single_line | reflexivity].
  - reflexivity.
Qed.

Section NotifierFacts.
Context {P : Type} {PA : PriceArith P} {Lim : Engine}.
Variable header_value : string -> string -> string.

Lemma subject_single_line :
  header_store_parse header_value "Subject" "Ziad's Supplies – Order received"
  = Ok (header_value "Subject" "Ziad's Supplies – Order received").
Proof. reflexivity. Qed.

(** The message is built whenever the sender address is unset, empty or
    plain and the recipient is empty or plain. *)
Lemma build_ok (settings : Settings) (s : order_summary P) :
  sender_plain settings = true ->
  plain_or_empty (os_email s) = true ->
  exists message,
    build_order_confirmation_email header_value settings s = Ok message
    /\ msg_to message
       = if truthy (os_email s) then Some (header_value "To" (os_email s)) else None.
Proof.
  intros Hfrom Hto.
  apply sender_plain_single_line in Hfrom. apply plain_or_empty_single_line in Hto.
  unfold single_line in Hfrom, Hto.
  apply negb_true_iff in Hfrom, Hto.
  unfold build_order_confirmation_email. rewrite subject_single_line.
  cbn [Py.bind]. fold (sender_of settings).
  unfold header_store_parse at 1. rewrite Hfrom. cbn [Py.bind].
  destruct (truthy (os_email s)).
  - unfold header_store_parse. rewrite Hto. cbn [Py.bind].
    eexists. split; reflexivity.
  - cbn [Py.bind]. eexists. split; reflexivity.
Qed.

(** An address with a line break inside stops the construction of the
    message: the assignment of the header raises. *)
Lemma build_raises (settings : Settings) (s : order_summary P) :
  truthy (os_email s) = true ->
  single_line (os_email s) = false ->
  build_order_confirmation_email header_value settings s
  = Raise (ValueError header_error).
Proof.
  unfold single_line. intros Htruthy Hto. apply negb_false_iff in Hto.
  unfold build_order_confirmation_email. rewrite subject_single_line.
  cbn [Py.bind]. fold (sender_of settings). unfold header_store_parse at 1.
  destruct (1 <? Py.splitlines_len (sender_of settings))%nat; [reflexivity |].
  cbn [Py.bind]. rewrite Htruthy. unfold header_store_parse. rewrite Hto.
  reflexivity.
Qed.

(** What the notifier does once the message is built: it returns a
    boolean; with no host, no sender address or no recipient it returns
    [False] and opens no connection; when the SMTP dialogue raises it
    returns [False]. *)
Lemma send_after_build (settings : Settings) (server : SmtpServer)
    (s : order_summary P) :
  sender_plain settings = true ->
  plain_or_empty (os_email s) = true ->
  exists delivered effects,
    send_order_confirmation_email header_value settings server s
      = (Ok delivered, effects)
    /\ (configured settings && truthy (os_email s) = false ->
        delivered = false /\ no_smtp effects = true)
    /\ (forall host message e,
          smtp_host settings = Some host ->
          fst (smtp_session settings server host message) = Some e ->
          build_order_confirmation_email header_value settings s = Ok message ->
          delivered = false).
Proof.
  intros Hfrom Hto.
  destruct (build_ok settings s Hfrom Hto) as [message [Hbuild Hmsg_to]].
  unfold send_order_confirmation_email, configured. rewrite Hbuild.
  destruct (smtp_host settings) as [host |] eqn:Hhost.
  2:{ exists false, [LogInfo]. split; [| split].
      - destruct (msg_to message); reflexivity.
      - intros _. split; reflexivity.
      - intros host message' e Hh. discriminate. }
  destruct (msg_to message) as [recipient |] eqn:Hto_msg.
  2:{ exists false, [LogInfo]. split; [reflexivity |]. split.
      - intros _. split; reflexivity.
      - reflexivity. }
  cbn [truthy_opt].
  destruct (truthy host && truthy_opt (email_from settings) && truthy recipient) eqn:Hcfg.
  - destruct (smtp_session settings server host message) as [[e |] effects] eqn:Hsession.
    + exists false, (effects ++ [LogError])%list. split; [reflexivity |]. split.
      * intros Hun. exfalso.
        apply andb_true_iff in Hcfg. destruct Hcfg as [Hcfg _].
        destruct (truthy (os_email s)); [| discriminate].
        rewrite Hcfg in Hun. discriminate.
      * reflexivity.
    + exists true, (effects ++ [LogInfo])%list. split; [reflexivity |]. split.
      * intros Hun. exfalso.
        apply andb_true_iff in Hcfg. destruct Hcfg as [Hcfg _].
        destruct (truthy (os_email s)); [| discriminate].
        rewrite Hcfg in Hun. discriminate.
      * intros host' message' e Hh Hs Hb.
        injection Hh as <-. injection Hb as <-. rewrite Hsession in Hs. discriminate.
  - exists false, [LogInfo]. repeat split.
Qed.

(** The notifier passes that exception on: the message is built before
    the [try]. *)
Lemma send_raises (settings : Settings) (server : SmtpServer) (s : order_summary P) :
  truthy (os_email s) = true ->
  single_line (os_email s) = false ->
  send_order_confirmation_email header_value settings server s
  = (Raise (ValueError header_error), []).
Proof.
  intros Ht Hl. unfold send_order_confirmation_email.
  now rewrite build_raises.
Qed.

End NotifierFacts.

(** C6, at the failing input: for every configuration and every mail
    server, the notifier raises on the summary of an order whose email
    address has a line break inside; nothing catches the exception of the
    header assignment, which precedes the [try]. *)
Theorem send_order_confirmation_email_raises
    (header_value : string -> string -> string)
    (settings : Settings) (server : SmtpServer) :
  send_order_confirmation_email header_value settings server summary_line_break
  = (Raise (ValueError header_error), []).
Proof.
  apply send_raises; reflexivity.
Qed.

(** The same exception seen from the endpoint: the order is committed,
    then the notifier raises a [ValueError], and the handler answers 400
    with the header error. *)
Lemma order_committed_then_rejected
    (header_value : string -> string -> string) (repr_of : pyval -> string)
    (settings : Settings) (server : SmtpServer) :
  let outcome :=
    _handle_create_order header_value repr_of settings server "2024-02-01T09:30:00"
      (payload (PStr "Nour") (PStr ("a@b" ++ newline ++ "c")) (PStr "03987654")
               (PStr "Tripoli") (PList [line (PInt 7) (PInt 2)])) shop in
  fst (fst outcome) = BadRequest header_error
  /\ map ord_id (orders (snd (fst outcome))) = [1; 2].
Proof.
  cbv zeta.
  unfold _handle_create_order, place_order.
  cbv -[send_order_confirmation_email header_error].
  rewrite send_raises by reflexivity.
  split; reflexivity.
Qed.

(* ================================================================== *)
(** ** Validation of the order payload                                 *)
(* ================================================================== *)

Section ServerFacts.
Context {P : Type} {PA : PriceArith P} {Lim : Engine}.
Variable header_value : string -> string -> string.
Variable repr_of : pyval -> string.

Lemma check_items_verdict (items : list pyval) :
  exists verdict,
    check_items items = Ok verdict
    /\ is_none verdict = forallb well_formed_item items
    /\ truthy_opt verdict = negb (is_none verdict).
Proof.
  induction items as [| item items IH].
  - exists None. repeat split.
  - cbn [check_items forallb].
    destruct item as [| | | | | | dict]; cbn [is_dict negb well_formed_item andb];
      try (eexists; split; [reflexivity | split; reflexivity]).
    cbn [Py.contains_key Py.bind]. unfold has_key.
    destruct (Py.dict_get "productId" dict); cbn [negb orb andb Py.bind];
      [| eexists; split; [reflexivity | split; reflexivity]].
    destruct (Py.dict_get "quantity" dict); cbn [negb orb andb Py.bind];
      [| eexists; split; [reflexivity | split; reflexivity]].
    exact IH.
Qed.

(** On a JSON object the validation returns, and its verdict is the
    specification's; every message it returns is a non-empty string. *)
Lemma validate_dict (fields : list (string * pyval)) :
  exists verdict,
    _validate_order_payload repr_of (PDict fields) = Ok verdict
    /\ is_none verdict = spec_payload_accepted repr_of fields
    /\ truthy_opt verdict = negb (is_none verdict).
Proof.
  unfold _validate_order_payload, spec_payload_accepted, required_fields.
  cbn [first_missing_field forallb Py.contains_key Py.bind Py.getitem].
  unfold has_key.
  destruct (Py.dict_get "customerName" fields); cbn [negb andb Py.bind];
    [| eexists; split; [reflexivity | split; reflexivity]].
  destruct (Py.dict_get "email" fields) as [email_v |]; cbn [negb andb Py.bind];
    [| eexists; split; [reflexivity | split; reflexivity]].
  destruct (Py.dict_get "phone" fields) as [phone_v |]; cbn [negb andb Py.bind];
    [| eexists; split; [reflexivity | split; reflexivity]].
  destruct (Py.dict_get "address" fields); cbn [negb andb Py.bind];
    [| eexists; split; [reflexivity | split; reflexivity]].
  destruct (Py.dict_get "items" fields) as [items_v |]; cbn [negb andb Py.bind];
    [| eexists; split; [reflexivity | split; reflexivity]].
  destruct items_v as [| | | | | [| x l] |];
    try (eexists; split; [reflexivity | split; reflexivity]).
  destruct (Py.contains "@" (Py.strip (str repr_of email_v))); cbn [negb andb];
    [| eexists; split; [reflexivity | split;
         [now rewrite andb_false_r | reflexivity]]].
  destruct (Py.len (Py.strip (str repr_of phone_v)) <? 6)%nat; cbn [negb andb];
    [eexists; split; [reflexivity | split;
         [now rewrite andb_false_r | reflexivity]] |].
  rewrite !andb_true_r.
  apply check_items_verdict.
Qed.

(** C7, for JSON objects: for a request body that is a JSON object, the
    validation rejects it, and the handler answers 400 without calling the
    order store, exactly when one of the five fields is absent, or [items]
    is not a non-empty list of objects that each carry [productId] and
    [quantity], or the trimmed email has no "@", or the trimmed phone is
    shorter than six characters; otherwise validation passes, and when the
    four text fields are JSON strings the handler calls [create_order] with
    the trimmed fields and the list of items. *)
Theorem validate_order_payload_spec (settings : Settings) (server : SmtpServer)
    (timestamp : string) (fields : list (string * pyval)) (d : database P) :
  exists verdict,
    _validate_order_payload repr_of (PDict fields) = Ok verdict
    /\ is_none verdict = spec_payload_accepted repr_of fields
    /\ (forall message, verdict = Some message ->
          _handle_create_order header_value repr_of settings server timestamp
            (PDict fields) d = (BadRequest message, d, []))
    /\ (verdict = None ->
        forall customer_name email phone address,
          Py.dict_get "customerName" fields = Some (PStr customer_name) ->
          Py.dict_get "email" fields = Some (PStr email) ->
          Py.dict_get "phone" fields = Some (PStr phone) ->
          Py.dict_get "address" fields = Some (PStr address) ->
          exists items answer d' later,
            Py.dict_get "items" fields = Some (PList items)
            /\ _handle_create_order header_value repr_of settings server timestamp
                 (PDict fields) d
               = (answer, d',
                  CreateOrderCall (Py.strip customer_name) (Py.strip email)
                    (Py.strip phone) (Py.strip address) items :: later)).
Proof.
  destruct (validate_dict fields) as [verdict [Hrun [Hspec Htruthy]]].
  exists verdict. split; [exact Hrun |]. split; [exact Hspec |]. split.
  - intros message ->. unfold _handle_create_order. rewrite Hrun.
    cbn [is_none negb] in Htruthy. rewrite Htruthy. reflexivity.
  - intros -> customer_name email phone address Hn He Hp Ha.
    cbn [is_none] in Hspec. symmetry in Hspec.
    unfold spec_payload_accepted in Hspec.
    apply andb_true_iff in Hspec. destruct Hspec as [Hspec _].
    apply andb_true_iff in Hspec. destruct Hspec as [Hspec _].
    apply andb_true_iff in Hspec. destruct Hspec as [_ Hitems].
    destruct (Py.dict_get "items" fields) as [[| | | | | [| x l] |] |] eqn:Hi;
      try discriminate.
    unfold _handle_create_order. rewrite Hrun. cbn [truthy_opt].
    unfold place_order, order_arguments.
    cbn [Py.getitem]. rewrite Hn, He, Hp, Ha, Hi. cbn [Py.bind Py.strip_method].
    destruct (create_order timestamp (Py.strip customer_name) (Py.strip email)
                (Py.strip phone) (Py.strip address) (x :: l) d) as [[order_id | e] d1].
    + destruct (get_order_summary order_id d1) as [[summary | e] d2];
        repeat eexists.
    + repeat eexists.
Qed.

End ServerFacts.

(** C7, two bodies outside that frame.  In the first every field is
    present and well shaped but [customerName] is the number 5: validation
    passes, the handler fails on [.strip()] and answers 500, and the order
    store is not called.  The second body is the JSON number 5, in which no
    field is present: the membership test raises and no answer is written. *)
Lemma validated_payload_not_placed :
  (_validate_order_payload no_repr
     (payload (PInt 5) (PStr "nour@example.com") (PStr "03987654") (PStr "Tripoli")
              (PList [line (PInt 7) (PInt 2)])) = Ok None
   /\ _handle_create_order raw_header no_repr settings_unset server_up
        "2024-02-01T09:30:00"
        (payload (PInt 5) (PStr "nour@example.com") (PStr "03987654") (PStr "Tripoli")
                 (PList [line (PInt 7) (PInt 2)])) shop
      = (InternalServerError "We could not complete your order. Please try again.",
         shop, []))
  /\ _handle_create_order raw_header no_repr settings_unset server_up
       "2024-02-01T09:30:00" (PInt 5) shop
     = (Unhandled TypeError, shop, []).
Proof. vm_compute. repeat split. Qed.

(** A request whose customer name ends in a lone surrogate passes the
    validation and reaches [create_order], whose INSERT cannot bind the name:
    the [UnicodeEncodeError] is a [ValueError], so the handler answers 400
    with the codec's message, and the database is as it was. *)
Lemma lone_surrogate_is_bad_request :
  _handle_create_order raw_header no_repr settings_mail server_up "2024-02-01T09:30:00"
    (payload (PStr ("Nour" ++ Py.str3 237 160 128)) (PStr "nour@example.com")
             (PStr "03987654") (PStr "Tripoli") (PList [line (PInt 7) (PInt 2)])) shop
  = (BadRequest
       "'utf-8' codec can't encode character '\ud800' in position 4: surrogates not allowed",
     shop,
     [CreateOrderCall ("Nour" ++ Py.str3 237 160 128) "nour@example.com" "03987654"
        "Tripoli" [line (PInt 7) (PInt 2)]]).
Proof. vm_compute. reflexivity. Qed.

(* ================================================================== *)
(** ** More on the order store                                         *)
(* ================================================================== *)

Section OrderStoreFacts.
Context {P : Type} {PA : PriceArith P} {Lim : Engine}.

Lemma map_result_bind_int (ids ids' : list Z) :
  map_result bind_int ids = Ok ids' -> ids' = ids /\ forallb in_int64 ids = true.
Proof.
  intros H. destruct (forallb in_int64 ids) eqn:E.
  - rewrite (bind_all_in_range _ E) in H. inversion H. now split.
  - rewrite (bind_some_out_of_range _ E) in H. discriminate.
Qed.

(** The converse of [coerce_line_reads]: the two reads of the second loop
    are the two coercions. *)
Lemma reads_coerce_line (item : pyval) (p q : Z) :
  item_product_id item = Ok p ->
  (v <- Py.getitem item "quantity" ;; Py.int v)%py = Ok q ->
  coerce_line item = Some (p, q).
Proof.
  unfold item_product_id, coerce_line.
  destruct item as [| | | | | | dict]; try discriminate.
  simpl.
  destruct (Py.dict_get "productId" dict) as [v |]; [| discriminate].
  destruct (Py.dict_get "quantity" dict) as [w |]; [| discriminate].
  simpl. intros -> ->. reflexivity.
Qed.

(** The second loop, read backwards: if it returns, every line coerced and
    bound, every product was there, and the rows are those of [with_items]. *)
Lemma insert_lines_inv (order_id : Z) (items : list pyval) (d d' : database P) :
  for_each (insert_cart_line order_id) items d = (Ok tt, d') ->
  exists cart,
    coerces items cart
    /\ Forall (fun l => known_product d (fst l) = true
                        /\ in_int64 (fst l) = true /\ in_int64 (snd l) = true) cart
    /\ d' = with_items order_id cart d.
Proof.
  revert d. induction items as [| item items IH]; intros d H.
  - inversion H. exists []. repeat split; constructor.
  - cbn [for_each] in H. unfold cbind at 1 in H.
    destruct (insert_cart_line order_id item d) as [[[] | e] d1] eqn:Hline;
      [| discriminate].
    unfold insert_cart_line, cbind, lift in Hline.
    destruct (item_product_id item) as [p |] eqn:Hp; [| discriminate].
    destruct (v <- Py.getitem item "quantity" ;; Py.int v)%py as [q |] eqn:Hq;
      [| discriminate].
    unfold insert_order_item, cbind, lift, bind_int in Hline.
    destruct (in_int64 p) eqn:Hpr; [| discriminate].
    destruct (in_int64 q) eqn:Hqr; [| discriminate].
    destruct (existsb (fun o => ord_id o =? order_id) (orders d)
              && existsb (fun p0 => prod_id p0 =? p) (products d)) eqn:Hfk;
      [| discriminate].
    apply andb_true_iff in Hfk. destruct Hfk as [_ Hknown].
    inversion Hline as [Hd1]. clear Hline.
    destruct (IH d1 H) as [cart [Hco [Hall Hd']]].
    exists ((p, q) :: cart). split; [| split].
    + constructor; [now apply reads_coerce_line | exact Hco].
    + constructor; [repeat split; assumption |].
      eapply Forall_impl; [| exact Hall]. intros l [H1 H2]. split; [| exact H2].
      rewrite <- H1, <- Hd1. reflexivity.
    + rewrite Hd', <- Hd1. reflexivity.
Qed.

(** [create_order], read backwards: whatever the items are, a call that
    returns has passed every check, those of the engine included. *)
Lemma create_order_inv_limits (timestamp customer_name email phone address : string)
    (items : list pyval) (d d' : database P) (order_id : Z) :
  create_order timestamp customer_name email phone address items d = (Ok order_id, d') ->
  exists cart,
    (coerces items cart /\ accepted_cart d cart
     /\ order_id = new_order_id d
     /\ d' = placed timestamp customer_name email phone address cart d)
    /\ within_limits (map fst cart) = true
    /\ storable timestamp customer_name email phone address = true.
Proof.
  unfold create_order. destruct items as [| item0 rest0] eqn:Hitems; [discriminate |].
  rewrite <- Hitems.
  unfold db_cursor.
  match goal with |- (match ?b with _ => _ end) = _ -> _ => destruct b as [[a | e] d1] eqn:Hbody end;
    [| discriminate].
  intros H. inversion H; subst a d1. clear H.
  unfold cbind at 1 in Hbody. unfold lift at 1 in Hbody.
  destruct (map_result item_product_id items) as [pids |] eqn:Hpids; [| discriminate].
  unfold cbind at 1 in Hbody.
  unfold _get_products_by_ids, cbind at 1, lift at 1 in Hbody.
  destruct (prepare (select_products_sql pids) (List.length pids)) as [[] |] eqn:Hprep;
    [| discriminate].
  apply prepare_inv in Hprep.
  unfold cbind at 1, lift at 1 in Hbody.
  destruct (map_result bind_int pids) as [ids |] eqn:Hbind; [| discriminate].
  apply map_result_bind_int in Hbind. destruct Hbind as [-> Hrange].
  unfold cbind at 1, query at 1, ret at 1 in Hbody.
  destruct (Nat.eqb (List.length
              (dict_of_rows (filter (fun p => mem_Z (prod_id p) pids) (products d))))
              (List.length pids)) eqn:Hlen; [| discriminate].
  cbn [negb] in Hbody.
  apply Nat.eqb_eq, products_found_length in Hlen. destruct Hlen as [Hnd Hknown].
  unfold cbind at 1, lift at 1 in Hbody.
  destruct (check_quantities items) as [[] |] eqn:Hqty; [| discriminate].
  unfold cbind at 1 in Hbody.
  set (d1 := snd (write_order customer_name email phone address timestamp d)) in *.
  destruct (insert_order customer_name email phone address timestamp d)
    as [[oid |] d1'] eqn:Hins; [| discriminate].
  apply insert_order_inv in Hins. destruct Hins as [Hsto Hins].
  assert (Hw : (Ok oid, d1') = (Ok (new_order_id d), d1)) by (rewrite <- Hins; reflexivity).
  inversion Hw; subst oid d1'. clear Hw Hins.
  unfold cbind at 1 in Hbody.
  destruct (for_each (insert_cart_line (new_order_id d)) items d1) as [[[] | e] d2] eqn:Hloop;
    [| discriminate].
  unfold ret in Hbody. inversion Hbody; subst order_id d2. clear Hbody.
  destruct (insert_lines_inv _ _ _ _ Hloop) as [cart [Hco [Hall Hd']]].
  pose proof (product_ids_of_coerced _ _ Hco) as Hids.
  rewrite Hpids in Hids. inversion Hids; subst pids. clear Hids.
  rewrite (check_quantities_of_coerced _ _ Hco) in Hqty.
  destruct (forallb (fun l => 0 <? snd l) cart) eqn:Hpos; [| discriminate].
  exists cart. split; [| split; [exact Hprep | exact Hsto]].
  split; [exact Hco |]. split; [| split; [reflexivity | exact Hd']].
  split; [| split].
  - intros ->. inversion Hco as [Hnil |]. rewrite <- Hnil in Hitems. discriminate.
  - exact Hnd.
  - apply Forall_forall. intros l Hl.
    rewrite Forall_forall in Hall. destruct (Hall l Hl) as [_ [H2 H3]].
    rewrite Forall_forall in Hknown. rewrite forallb_forall in Hpos.
    repeat split; try assumption.
    + apply Hknown. now apply in_map.
    + apply Z.ltb_lt. now apply Hpos.
Qed.

Lemma create_order_inv (timestamp customer_name email phone address : string)
    (items : list pyval) (d d' : database P) (order_id : Z) :
  create_order timestamp customer_name email phone address items d = (Ok order_id, d') ->
  exists cart,
    coerces items cart /\ accepted_cart d cart
    /\ order_id = new_order_id d
    /\ d' = placed timestamp customer_name email phone address cart d.
Proof.
  intros H. destruct (create_order_inv_limits _ _ _ _ _ _ _ _ _ H) as [cart [Hc _]].
  exists cart. exact Hc.
Qed.

(** [create_order] returns exactly on the accepted carts that the engine
    can take.  Whatever JSON values the lines hold and whatever the customer
    texts are, the call returns an id if and only if every line coerces to a
    pair of integers that makes an accepted cart (not empty, no product on two
    lines, every product in the table, every quantity positive, every number
    within SQLite's INTEGER), the cart has no more lines than the engine
    allows parameters in a statement (and the text of the SELECT is within its
    length limit), and the customer texts can be bound and stored (no lone
    surrogate, the row within the engine's length limit); the id is then the
    next row id of the orders table and the database is the old one with the
    order row and one item row per line appended. *)
Theorem create_order_returns_iff
    (timestamp customer_name email phone address : string)
    (items : list pyval) (d d' : database P) (order_id : Z) :
  create_order timestamp customer_name email phone address items d = (Ok order_id, d')
  <-> exists cart,
        (coerces items cart /\ accepted_cart d cart
         /\ order_id = new_order_id d
         /\ d' = placed timestamp customer_name email phone address cart d)
        /\ within_limits (map fst cart) = true
        /\ storable timestamp customer_name email phone address = true.
Proof.
  split.
  - apply create_order_inv_limits.
  - intros [cart [[Hco [[Hne [Hnd Hall]] [-> ->]]] [Hlim Hsto]]].
    now apply create_order_placed.
Qed.

Lemma line_keys_rows (order_id : Z) (rows : list order_item_row) (cart : list (Z * Z)) :
  map line_key rows = map (fun l => (order_id, fst l, snd l)) cart ->
  Forall2 (fun r l => oi_order_id r = order_id /\ oi_product_id r = fst l
                      /\ oi_quantity r = snd l) rows cart.
Proof.
  revert cart. induction rows as [| r rows IH]; intros [| l cart] H;
    try discriminate; constructor.
  - unfold line_key in H. simpl in H. inversion H. repeat split; assumption.
  - apply IH. simpl in H. now inversion H.
Qed.

(** What a returned [create_order] has done to the file: the new id is
    above every order id of the table; categories and products are untouched;
    the orders of before are in place and one row follows them, with the
    customer's fields as given, status 'received', an empty verification code
    and the timestamp; the order items of before are in place and one row per
    cart line follows them, in cart order, holding what [int] reads in the
    line, under the new order id, with a positive quantity and a product of
    the table, no product twice. *)
Theorem create_order_appends
    (timestamp customer_name email phone address : string)
    (items : list pyval) (d d' : database P) (order_id : Z) :
  create_order timestamp customer_name email phone address items d = (Ok order_id, d') ->
  Forall (fun o => ord_id o < order_id) (orders d)
  /\ categories d' = categories d
  /\ products d' = products d
  /\ orders d'
     = (orders d
        ++ [received_order order_id timestamp customer_name email phone address])%list
  /\ exists rows,
       order_items d' = (order_items d ++ rows)%list
       /\ map line_of rows = map coerce_line items
       /\ Forall (fun r => oi_order_id r = order_id /\ 0 < oi_quantity r
                           /\ known_product d (oi_product_id r) = true) rows
       /\ NoDup (map oi_product_id rows).
Proof.
  intros H. apply create_order_inv in H.
  destruct H as [cart [Hco [[_ [Hnd Hall]] [-> ->]]]].
  unfold placed.
  destruct (with_items_frame (new_order_id d) cart
              (snd (write_order customer_name email phone address timestamp d)))
    as [Hc [Hp [Ho [rows [Hr Hk]]]]].
  split; [| split; [| split; [| split]]].
  - apply Forall_forall. intros o Ho'. apply next_rowid_fresh. now apply in_map.
  - rewrite Hc. reflexivity.
  - rewrite Hp. reflexivity.
  - rewrite Ho. reflexivity.
  - exists rows. split; [exact Hr |].
    apply line_keys_rows in Hk.
    assert (Hfst : map oi_product_id rows = map fst cart).
    { clear -Hk. induction Hk as [| r l rows cart [_ [Hp _]] _ IH]; simpl;
        [reflexivity | now rewrite Hp, IH]. }
    split; [| split].
    + clear -Hk Hco. revert items Hco.
      induction Hk as [| r l rows cart [_ [Hp Hq]] _ IH]; intros items Hco;
        inversion Hco as [| item l' items' cart' Hl Hrest]; subst; simpl.
      * reflexivity.
      * rewrite Hl, (IH _ Hrest). unfold line_of. rewrite Hp, Hq.
        destruct l; reflexivity.
    + clear -Hk Hall. induction Hk as [| r l rows cart [Ho [Hp Hq]] _ IH];
        constructor.
      * inversion Hall as [| ? ? [H1 [_ [H3 _]]] _]; subst.
        rewrite Hp, Hq. repeat split; assumption.
      * apply IH. now inversion Hall.
    + rewrite Hfst. exact Hnd.
Qed.

(** *** [verify_order] *)

Lemma find_order_exists (d : database P) (order_id : Z) :
  order_exists d order_id
  = match find (fun o => ord_id o =? order_id) (orders d) with
    | Some _ => true
    | None => false
    end.
Proof.
  unfold order_exists. induction (orders d) as [| o l IH]; simpl; [reflexivity |].
  destruct (ord_id o =? order_id); [reflexivity | exact IH].
Qed.

(** [verify_order] reports whether the order exists and nothing else: for
    an id within SQLite's INTEGER it answers [True] exactly when an order with
    that id is in the table, whatever verification code is passed and whatever
    code and status the order holds, and [False] with 'Order not found.'
    otherwise; an id outside that range raises [OverflowError]; the database
    is never changed. *)
Theorem verify_order_reports_existence (order_id : Z) (verification_code : string)
    (d : database P) :
  verify_order order_id verification_code d
  = if in_int64 order_id then
      (Ok (if order_exists d order_id
           then (true, "Order already received and queued for dispatch.")
           else (false, "Order not found.")), d)
    else (Raise OverflowError, d).
Proof.
  rewrite find_order_exists.
  unfold verify_order, get_order_summary, db_cursor, cbind, lift, bind_int, query, ret.
  destruct (in_int64 order_id); [| reflexivity].
  destruct (find (fun o => ord_id o =? order_id) (orders d)); reflexivity.
Qed.

(** *** The summary of any order *)

(** With unique product ids, the join of [get_order_summary] finds, for an
    order item whose product exists, that product and no other. *)
Lemma join_current (d : database P) (ois : list order_item_row) :
  NoDup (map prod_id (products d)) ->
  Forall (fun oi => known_product d (oi_product_id oi) = true) ois ->
  flat_map
    (fun oi =>
       map (fun p => (prod_name p, prod_price p, oi_quantity oi))
           (filter (fun p => prod_id p =? oi_product_id oi) (products d))) ois
  = map (fun oi => (name_of d (oi_product_id oi), price_of d (oi_product_id oi),
                    oi_quantity oi)) ois.
Proof.
  intros Hnd Hall. induction Hall as [| oi ois Hk _ IH]; [reflexivity |].
  cbn [flat_map map]. rewrite IH.
  apply known_product_In in Hk.
  destruct (filter_by_id (products d) (oi_product_id oi) Hnd Hk) as [p [Hfind Hfilter]].
  rewrite Hfilter. unfold name_of, price_of, product_of. rewrite Hfind. reflexivity.
Qed.

(** The summary of an order that exists, in a file that satisfies its key
    constraints (unique product ids, every order item referencing a product):
    the fields of the order row, one line per order item of the order in
    rowid order, each at the current name and price of its product with
    [price * quantity] as its line total, and the sum of the line totals as
    the total.  The database is not changed. *)
Theorem get_order_summary_of_order (order_id : Z) (d : database P) (o : order_row) :
  in_int64 order_id = true ->
  NoDup (map prod_id (products d)) ->
  Forall (fun oi => known_product d (oi_product_id oi) = true) (order_items d) ->
  find (fun o' => ord_id o' =? order_id) (orders d) = Some o ->
  exists s,
    get_order_summary order_id d = (Ok (Some s), d)
    /\ os_id s = order_id
    /\ (os_customerName s, os_email s, os_phone s, os_address s)
       = (ord_customer_name o, ord_email o, ord_phone o, ord_address o)
    /\ (os_status s, os_createdAt s) = (ord_status o, ord_created_at o)
    /\ os_items s = map (current_line d) (items_of_order d order_id)
    /\ os_total s = py_sum (map sl_lineTotal (os_items s)).
Proof.
  intros Hrange Hnd Hfk Hfind.
  unfold get_order_summary, db_cursor, cbind, lift, bind_int, query, ret.
  rewrite Hrange, Hfind.
  assert (Hlines : select_order_lines order_id d
                   = map (fun oi => (name_of d (oi_product_id oi),
                                     price_of d (oi_product_id oi), oi_quantity oi))
                         (items_of_order d order_id)).
  { unfold select_order_lines, items_of_order. apply join_current; [exact Hnd |].
    apply Forall_forall. intros oi Hoi. apply filter_In in Hoi.
    rewrite Forall_forall in Hfk. apply Hfk. tauto. }
  rewrite Hlines. eexists. split; [reflexivity |].
  cbn [os_id os_customerName os_email os_phone os_address os_status os_createdAt
       os_items os_total].
  apply find_some in Hfind. destruct Hfind as [_ Hid]. apply Z.eqb_eq in Hid.
  repeat split; try assumption.
  - rewrite map_map. reflexivity.
  - rewrite !map_map. reflexivity.
Qed.

End OrderStoreFacts.

Lemma create_order_appends_witness :
  Forall (fun o => ord_id o < 2) (orders shop)
  /\ categories (snd (order_of_nour (cart_items [(7, 2); (9, 1)]) shop)) = categories shop
  /\ products (snd (order_of_nour (cart_items [(7, 2); (9, 1)]) shop)) = products shop
  /\ orders (snd (order_of_nour (cart_items [(7, 2); (9, 1)]) shop))
     = (orders shop
        ++ [received_order 2 "2024-02-01T09:30:00" "Nour" "nour@example.com"
              "03987654" "Tripoli"])%list
  /\ exists rows,
       order_items (snd (order_of_nour (cart_items [(7, 2); (9, 1)]) shop))
       = (order_items shop ++ rows)%list
       /\ map line_of rows = map coerce_line (cart_items [(7, 2); (9, 1)])
       /\ Forall (fun r => oi_order_id r = 2 /\ 0 < oi_quantity r
                           /\ known_product shop (oi_product_id r) = true) rows
       /\ NoDup (map oi_product_id rows).
Proof.
  apply (create_order_appends "2024-02-01T09:30:00" "Nour" "nour@example.com"
           "03987654" "Tripoli" (cart_items [(7, 2); (9, 1)]) shop).
  vm_compute. reflexivity.
Defined.

(** The legacy order of the sample shop, read back: one line, two buckets
    at 3. *)
Lemma get_order_summary_of_order_witness :
  exists s,
    get_order_summary 1 shop = (Ok (Some s), shop)
    /\ os_id s = 1
    /\ (os_customerName s, os_email s, os_phone s, os_address s)
       = ("Rami", "rami@example.com", "03123456", "Beirut")
    /\ (os_status s, os_createdAt s) = ("pending_verification", "2024-01-05T10:00:00")
    /\ os_items s = map (current_line shop) (items_of_order shop 1)
    /\ os_total s = py_sum (map sl_lineTotal (os_items s)).
Proof.
  apply (get_order_summary_of_order 1 shop
           {| ord_id := 1; ord_customer_name := "Rami"; ord_email := "rami@example.com";
              ord_phone := "03123456"; ord_address := "Beirut";
              ord_status := "pending_verification";
              ord_verification_code := Some "4821";
              ord_created_at := "2024-01-05T10:00:00" |}).
  - reflexivity.
  - simpl. repeat constructor; simpl; intuition discriminate.
  - repeat constructor.
  - reflexivity.
Defined.

(* ================================================================== *)
(** ** More on the notifier                                            *)
(* ================================================================== *)

Section NotifierDialogue.
Context {P : Type} {PA : PriceArith P} {Lim : Engine}.
Variable header_value : string -> string -> string.

(** With plain addresses the notifier never raises.  When the sender
    address is unset, empty or a plain address and the recipient of the
    summary is empty or a plain address, [send_order_confirmation_email]
    returns a boolean; with no host, no sender address or no recipient it
    returns [False] and opens no connection; when a step of the SMTP dialogue
    raises it returns [False]. *)
Theorem send_order_confirmation_email_returns (settings : Settings)
    (server : SmtpServer) (s : order_summary P) :
  sender_plain settings = true ->
  plain_or_empty (os_email s) = true ->
  exists delivered effects,
    send_order_confirmation_email header_value settings server s
      = (Ok delivered, effects)
    /\ (configured settings && truthy (os_email s) = false ->
        delivered = false /\ no_smtp effects = true)
    /\ (forall host message e,
          smtp_host settings = Some host ->
          fst (smtp_session settings server host message) = Some e ->
          build_order_confirmation_email header_value settings s = Ok message ->
          delivered = false).
Proof.
  intros Hfrom Hto. now apply send_after_build.
Qed.

(** A delivery report of [True] is sound: the notifier returns [True]
    only after the whole dialogue has taken place with no step raising, in the
    order connect, STARTTLS when TLS is on, login when a user name and a
    password are set, the message built from the summary, QUIT. *)
Theorem delivery_report_sound (settings : Settings) (server : SmtpServer)
    (s : order_summary P) (effects : list effect) :
  send_order_confirmation_email header_value settings server s = (Ok true, effects) ->
  exists host message,
    smtp_host settings = Some host
    /\ build_order_confirmation_email header_value settings s = Ok message
    /\ effects = full_dialogue settings host message
    /\ on_connect server host (smtp_port settings) = None
    /\ (email_use_tls settings = true -> on_starttls server = None)
    /\ (forall u p, smtp_username settings = Some u -> smtp_password settings = Some p ->
          truthy u && truthy p = true -> on_login server u p = None)
    /\ on_send_message server message = None
    /\ on_quit server = None.
Proof.
  unfold send_order_confirmation_email.
  destruct (build_order_confirmation_email header_value settings s) as [message |];
    [| discriminate].
  destruct (smtp_host settings) as [host |]; [| discriminate].
  destruct (msg_to message) as [recipient |]; [| discriminate].
  destruct (truthy host && truthy_opt (email_from settings) && truthy recipient);
    [| discriminate].
  destruct (smtp_session settings server host message) as [[e |] effects0] eqn:Hsession;
    [discriminate |].
  intros H. inversion H; subst effects. clear H.
  exists host, message. split; [reflexivity |]. split; [reflexivity |].
  unfold smtp_session in Hsession.
  destruct (on_connect server host (smtp_port settings)); [discriminate |].
  destruct (on_quit server); [discriminate |].
  inversion Hsession as [[Hbody Heffects]]. clear Hsession.
  unfold full_dialogue. unfold smtp_dialogue, smtp_step in *.
  destruct (email_use_tls settings); destruct (on_starttls server);
    destruct (smtp_username settings) as [u |]; destruct (smtp_password settings) as [p |];
    try destruct (truthy u && truthy p) eqn:Hup;
    try destruct (on_login server u p) eqn:Hlogin;
    destruct (on_send_message server message);
    simpl in Hbody; try discriminate; simpl; repeat split; try reflexivity;
    try discriminate;
    intros u' p' Hu' Hp' Htruthy; inversion Hu'; inversion Hp'; subst;
    congruence.
Qed.

(** With TLS on, credentials travel only after STARTTLS has succeeded:
    whatever the notifier's outcome, a login in its trace is preceded by a
    STARTTLS that did not raise; and when STARTTLS raises, neither a login nor
    the message is sent. *)
Theorem credentials_follow_starttls (settings : Settings) (server : SmtpServer)
    (s : order_summary P) :
  email_use_tls settings = true ->
  (forall pre u p post,
      snd (send_order_confirmation_email header_value settings server s)
        = (pre ++ SmtpLogin u p :: post)%list ->
      In SmtpStartTls pre /\ on_starttls server = None)
  /\ (forall e, on_starttls server = Some e ->
        existsb is_login
          (snd (send_order_confirmation_email header_value settings server s)) = false
        /\ existsb is_send
             (snd (send_order_confirmation_email header_value settings server s)) = false).
Proof.
  intros Htls.
  unfold send_order_confirmation_email, smtp_session, smtp_dialogue, smtp_step.
  rewrite Htls.
  destruct (build_order_confirmation_email header_value settings s) as [message |].
  2:{ split; [intros [| ? ?] ? ? ? H; discriminate | intros; split; reflexivity]. }
  destruct (smtp_host settings) as [host |].
  2:{ split; [intros [| ? [| ? ?]] ? ? ? H; discriminate | intros; split; reflexivity]. }
  destruct (msg_to message) as [recipient |].
  2:{ split; [intros [| ? [| ? ?]] ? ? ? H; discriminate | intros; split; reflexivity]. }
  destruct (truthy host && truthy_opt (email_from settings) && truthy recipient).
  2:{ split; [intros [| ? [| ? ?]] ? ? ? H; discriminate | intros; split; reflexivity]. }
  destruct (on_connect server host (smtp_port settings)).
  { split; [intros [| ? [| ? [| ? ?]]] ? ? ? H; discriminate
           | intros; split; reflexivity]. }
  destruct (on_starttls server) as [e |].
  { split.
    - intros [| ? [| ? [| ? [| ? [| ? ?]]]]] ? ? ? H; destruct (on_quit server);
        discriminate.
    - intros; destruct (on_quit server); split; reflexivity. }
  split; [| intros e He; discriminate].
  intros pre u p post H.
  destruct pre as [| a [| b pre']].
  - destruct (on_quit server);
      destruct (smtp_username settings) as [u0 |];
      destruct (smtp_password settings) as [p0 |];
      try destruct (truthy u0 && truthy p0); try destruct (on_login server u0 p0);
      destruct (on_send_message server message); discriminate.
  - destruct (on_quit server);
      destruct (smtp_username settings) as [u0 |];
      destruct (smtp_password settings) as [p0 |];
      try destruct (truthy u0 && truthy p0); try destruct (on_login server u0 p0);
      destruct (on_send_message server message); discriminate.
  - assert (Hb : b = SmtpStartTls).
    { destruct (on_quit server);
        destruct (smtp_username settings) as [u0 |];
        destruct (smtp_password settings) as [p0 |];
        try destruct (truthy u0 && truthy p0); try destruct (on_login server u0 p0);
        destruct (on_send_message server message); simpl in H; now inversion H. }
    subst b. split; [right; now left | reflexivity].
Qed.

End NotifierDialogue.

(** With no mail host configured the notifier reports [False] and opens
    no connection. *)
Lemma send_order_confirmation_email_returns_witness :
  exists delivered effects,
    send_order_confirmation_email raw_header settings_unset server_up
      {| os_id := 2; os_customerName := "Nour"; os_email := "nour@example.com";
         os_phone := "03987654"; os_address := "Tripoli"; os_status := "received";
         os_createdAt := "2024-02-01T09:30:00";
         os_items := [ {| sl_name := "Chlorine 4L"; sl_price := 4%Q; sl_quantity := 2;
                          sl_lineTotal := 8%Q |} ];
         os_total := 8%Q |}
      = (Ok delivered, effects)
    /\ delivered = false /\ no_smtp effects = true.
Proof.
  destruct (send_order_confirmation_email_returns raw_header settings_unset server_up
              {| os_id := 2; os_customerName := "Nour"; os_email := "nour@example.com";
                 os_phone := "03987654"; os_address := "Tripoli"; os_status := "received";
                 os_createdAt := "2024-02-01T09:30:00";
                 os_items := [ {| sl_name := "Chlorine 4L"; sl_price := 4%Q;
                                  sl_quantity := 2; sl_lineTotal := 8%Q |} ];
                 os_total := 8%Q |} eq_refl eq_refl)
    as [delivered [effects [Hrun [Hunset _]]]].
  exists delivered, effects. split; [exact Hrun | exact (Hunset eq_refl)].
Defined.

Lemma delivery_report_sound_witness :
  exists host message,
    smtp_host settings_mail = Some host
    /\ build_order_confirmation_email raw_header settings_mail summary_of_nour = Ok message
    /\ snd (send_order_confirmation_email raw_header settings_mail server_up summary_of_nour)
       = full_dialogue settings_mail host message.
Proof.
  destruct (delivery_report_sound raw_header settings_mail server_up summary_of_nour
              (snd (send_order_confirmation_email raw_header settings_mail server_up
                      summary_of_nour)) eq_refl)
    as [host [message [Hhost [Hbuild [Heffects _]]]]].
  exists host, message. repeat split; assumption.
Defined.

(** The server refuses STARTTLS: the password of [settings_auth] is not
    sent, and neither is the message. *)
Lemma credentials_follow_starttls_witness :
  existsb is_login
    (snd (send_order_confirmation_email raw_header settings_auth server_no_tls
            summary_of_nour)) = false
  /\ existsb is_send
       (snd (send_order_confirmation_email raw_header settings_auth server_no_tls
               summary_of_nour)) = false.
Proof.
  exact (proj2 (credentials_follow_starttls raw_header settings_auth server_no_tls
                  summary_of_nour eq_refl)
               (OtherError "STARTTLS extension not supported by server.") eq_refl).
Defined.

(* ================================================================== *)
(** ** More on the order endpoint                                      *)
(* ================================================================== *)

Section EndpointFacts.
Context {P : Type} {PA : PriceArith P} {Lim : Engine}.
Variable header_value : string -> string -> string.
Variable repr_of : pyval -> string.

Lemma handle_exception_not_created (e : exn) : is_created (handle_exception e) = false.
Proof. destruct e; reflexivity. Qed.

Lemma placed_orders (timestamp customer_name email phone address : string)
    (cart : list (Z * Z)) (d : database P) :
  orders (placed timestamp customer_name email phone address cart d)
  = (orders d
     ++ [received_order (new_order_id d) timestamp customer_name email phone address])%list.
Proof.
  unfold placed.
  destruct (with_items_frame (new_order_id d) cart
              (snd (write_order customer_name email phone address timestamp d)))
    as [_ [_ [Ho _]]].
  rewrite Ho. reflexivity.
Qed.

(** The order just placed is found by its id. *)
Lemma get_order_summary_placed (timestamp customer_name email phone address : string)
    (cart : list (Z * Z)) (d : database P) :
  in_int64 (new_order_id d) = true ->
  exists s,
    get_order_summary (new_order_id d)
      (placed timestamp customer_name email phone address cart d)
    = (Ok (Some s), placed timestamp customer_name email phone address cart d)
    /\ os_email s = email.
Proof.
  intros Hrange.
  unfold get_order_summary, db_cursor, cbind, lift, bind_int, query, ret.
  rewrite Hrange, placed_orders.
  rewrite (find_order_placed d
             (received_order (new_order_id d) timestamp customer_name email phone address)
             eq_refl).
  eexists. split; reflexivity.
Qed.

(** What [order_arguments] has read when it returns. *)
Lemma order_arguments_inv (data : pyval)
    (customer_name email phone address : string) (items : list pyval) :
  order_arguments data = Ok (customer_name, email, phone, address, items) ->
  exists name_v email_v phone_v address_v,
    text_field data "customerName" = Some name_v
    /\ text_field data "email" = Some email_v
    /\ text_field data "phone" = Some phone_v
    /\ text_field data "address" = Some address_v
    /\ Py.getitem data "items" = Ok (PList items)
    /\ customer_name = Py.strip name_v /\ email = Py.strip email_v
    /\ phone = Py.strip phone_v /\ address = Py.strip address_v.
Proof.
  unfold order_arguments, text_field.
  destruct data as [| | | | | | fields]; try discriminate.
  cbn [Py.getitem].
  destruct (Py.dict_get "customerName" fields) as [[| | | | a | |] |]; try discriminate.
  destruct (Py.dict_get "email" fields) as [[| | | | b | |] |]; try discriminate.
  destruct (Py.dict_get "phone" fields) as [[| | | | c | |] |]; try discriminate.
  destruct (Py.dict_get "address" fields) as [[| | | | e | |] |]; try discriminate.
  destruct (Py.dict_get "items" fields) as [[| | | | | l |] |]; try discriminate.
  cbn. intros H. inversion H; subst. exists a, b, c, e. repeat split.
Qed.

(** The notifier's answer in terms of the recipient alone, for a sender
    address that is unset, empty or plain: the notifier raises what the
    assignment of the recipient header raises, and returns a boolean when that
    assignment returns or there is no recipient. *)
Lemma send_fst (settings : Settings) (server : SmtpServer) (s : order_summary P) :
  sender_plain settings = true ->
  match (if truthy (os_email s)
         then header_store_parse header_value "To" (os_email s)
         else Ok "") with
  | Raise e =>
      fst (send_order_confirmation_email header_value settings server s) = Raise e
  | Ok _ =>
      exists delivered,
        fst (send_order_confirmation_email header_value settings server s) = Ok delivered
  end.
Proof.
  intros Hfrom. apply sender_plain_single_line in Hfrom.
  unfold single_line in Hfrom. apply negb_true_iff in Hfrom.
  assert (Hsender : header_store_parse header_value "From" (sender_of settings)
                    = Ok (header_value "From" (sender_of settings))).
  { unfold header_store_parse. now rewrite Hfrom. }
  unfold send_order_confirmation_email, build_order_confirmation_email.
  rewrite subject_single_line. cbn [Py.bind]. fold (sender_of settings).
  rewrite Hsender. cbn [Py.bind].
  destruct (truthy (os_email s)).
  - destruct (header_store_parse header_value "To" (os_email s)) as [v | e];
      cbn [Py.bind msg_to]; [| reflexivity].
    destruct (smtp_host settings) as [host |]; [| eexists; reflexivity].
    destruct (truthy host && truthy_opt (email_from settings) && truthy v);
      [| eexists; reflexivity].
    destruct (smtp_session settings server host _) as [[x |] effects];
      eexists; reflexivity.
  - cbn [Py.bind msg_to].
    destruct (smtp_host settings) as [host |]; eexists; reflexivity.
Qed.

(** An answer of 201 means the order is in the file.  Whatever the body,
    if the handler answers [Created] then the four text fields of the body are
    strings, the trimmed email contains "@" and the trimmed phone has at
    least six characters; the order store was called twice, [create_order]
    with the trimmed fields and [get_order_summary] with the id that is
    reported; that call of [create_order] returned this id; and the orders
    table is the one of before followed by the row of this order, in status
    'received'. *)
Theorem created_order_is_persisted (settings : Settings) (server : SmtpServer)
    (timestamp : string) (data : pyval) (d d' : database P) (order_id : Z)
    (calls : list store_call) :
  _handle_create_order header_value repr_of settings server timestamp data d
    = (Created order_id, d', calls) ->
  exists customer_name email phone address items,
    text_field data "customerName" = Some customer_name
    /\ text_field data "email" = Some email
    /\ text_field data "phone" = Some phone
    /\ text_field data "address" = Some address
    /\ Py.getitem data "items" = Ok (PList items)
    /\ Py.contains "@" (Py.strip email) = true
    /\ (6 <= Py.len (Py.strip phone))%nat
    /\ calls = [CreateOrderCall (Py.strip customer_name) (Py.strip email)
                  (Py.strip phone) (Py.strip address) items;
                GetOrderSummaryCall order_id]
    /\ create_order timestamp (Py.strip customer_name) (Py.strip email)
         (Py.strip phone) (Py.strip address) items d = (Ok order_id, d')
    /\ orders d'
       = (orders d
          ++ [received_order order_id timestamp (Py.strip customer_name)
                (Py.strip email) (Py.strip phone) (Py.strip address)])%list.
Proof.
  unfold _handle_create_order.
  destruct (_validate_order_payload repr_of data) as [verdict | e] eqn:Hvalid;
    [| discriminate].
  destruct (truthy_opt verdict) eqn:Htruthy; [discriminate |].
  unfold place_order.
  destruct (order_arguments data) as [[[[[cn em] ph] ad] items] | e] eqn:Hargs.
  2:{ intros H. inversion H as [[Ha Hd Hc]]. pose proof (handle_exception_not_created e) as Hn.
      rewrite Ha in Hn. discriminate. }
  destruct (create_order timestamp cn em ph ad items d) as [[id | e] d1] eqn:Hcreate.
  2:{ intros H. inversion H as [[Ha Hd Hc]]. pose proof (handle_exception_not_created e) as Hn.
      rewrite Ha in Hn. discriminate. }
  pose proof (get_order_summary_reads_only id d1) as Hread.
  destruct (get_order_summary id d1) as [[summary | e] d2] eqn:Hsummary.
  2:{ intros H. inversion H as [[Ha Hd Hc]]. pose proof (handle_exception_not_created e) as Hn.
      rewrite Ha in Hn. discriminate. }
  simpl in Hread. subst d2.
  intros H. inversion H as [[Ha Hd Hc]]. subst d'. clear H.
  assert (Hid : id = order_id).
  { destruct summary as [s |]; [| now inversion Ha].
    destruct (fst (send_order_confirmation_email header_value settings server s))
      as [b | e]; [now inversion Ha |].
    pose proof (handle_exception_not_created e) as Hn. rewrite Ha in Hn. discriminate. }
  subst id. clear Ha.
  destruct (order_arguments_inv _ _ _ _ _ _ Hargs)
    as [name_v [email_v [phone_v [address_v [Hn [He [Hp [Had [Hi [-> [-> [-> ->]]]]]]]]]]]].
  exists name_v, email_v, phone_v, address_v, items.
  repeat (split; [assumption || reflexivity |]).
  assert (Haccepted : exists fields, data = PDict fields
                                     /\ spec_payload_accepted repr_of fields = true).
  { destruct data as [| | | | | | fields]; try discriminate.
    exists fields. split; [reflexivity |].
    destruct (validate_dict repr_of fields) as [v [Hv [Hnone Ht]]].
    rewrite Hvalid in Hv. inversion Hv; subst v.
    rewrite Htruthy in Ht. rewrite <- Hnone.
    destruct (is_none verdict); [reflexivity | discriminate]. }
  destruct Haccepted as [fields [-> Hacc]].
  unfold spec_payload_accepted in Hacc.
  apply andb_true_iff in Hacc. destruct Hacc as [Hacc Hphone].
  apply andb_true_iff in Hacc. destruct Hacc as [_ Hemail].
  unfold text_field in He, Hp.
  destruct (Py.dict_get "email" fields) as [[| | | | b | |] |]; try discriminate.
  destruct (Py.dict_get "phone" fields) as [[| | | | c | |] |]; try discriminate.
  inversion He; inversion Hp; subst. cbn [str] in Hemail, Hphone.
  split; [exact Hemail |].
  split; [apply negb_true_iff, Nat.ltb_ge in Hphone; exact Hphone |].
  split; [reflexivity |]. split; [exact Hcreate |].
  destruct (create_order_inv _ _ _ _ _ _ _ _ _ Hcreate) as [cart [_ [_ [-> ->]]]].
  apply placed_orders.
Qed.

(** An answer other than 201 leaves no order behind, when the addresses
    are plain.  With a sender address that is unset, empty or plain, an orders
    table that has row ids left, and a body whose email, once trimmed, is a
    plain address whenever it is a string: if the handler answers anything
    but [Created] (400, 500, or an exception that leaves the handler), the
    database is the one of before the request. *)
Theorem refused_order_leaves_database (settings : Settings) (server : SmtpServer)
    (timestamp : string) (data : pyval) (d d' : database P) (answer : response)
    (calls : list store_call) :
  sender_plain settings = true ->
  in_int64 (new_order_id d) = true ->
  (forall email, text_field data "email" = Some email ->
                 plain_address (Py.strip email) = true) ->
  _handle_create_order header_value repr_of settings server timestamp data d
    = (answer, d', calls) ->
  is_created answer = false ->
  d' = d.
Proof.
  intros Hsender Hroom Hplain.
  unfold _handle_create_order.
  destruct (_validate_order_payload repr_of data) as [verdict | e];
    [| intros H _; now inversion H].
  destruct (truthy_opt verdict); [intros H _; now inversion H |].
  unfold place_order.
  destruct (order_arguments data) as [[[[[cn em] ph] ad] items] | e] eqn:Hargs;
    [| intros H _; now inversion H].
  destruct (create_order timestamp cn em ph ad items d) as [[id | e] d1] eqn:Hcreate.
  2:{ intros H _. inversion H; subst.
      unfold create_order in Hcreate. destruct items as [| item rest].
      - now inversion Hcreate.
      - now apply db_cursor_raise in Hcreate. }
  destruct (create_order_inv _ _ _ _ _ _ _ _ _ Hcreate) as [cart [_ [_ [-> ->]]]].
  destruct (get_order_summary_placed timestamp cn em ph ad cart d Hroom)
    as [s [Hsummary Hemail]].
  rewrite Hsummary.
  destruct (order_arguments_inv _ _ _ _ _ _ Hargs)
    as [_ [email_v [_ [_ [_ [He [_ [_ [_ [_ [Hem _]]]]]]]]]]].
  specialize (Hplain email_v He). rewrite <- Hem, <- Hemail in Hplain.
  assert (Hto : plain_or_empty (os_email s) = true).
  { unfold plain_or_empty. rewrite Hplain. apply orb_true_r. }
  destruct (send_after_build header_value settings server s Hsender Hto)
    as [delivered [effects [Hrun _]]].
  rewrite Hrun. cbn [fst]. intros H Hnot. inversion H; subst. discriminate.
Qed.

(** The mail transport never changes the answer.  For two mail
    configurations whose sender address is unset, empty or plain, and two mail
    servers behaving in any way, the handler gives the same answer, leaves the
    same database and makes the same calls into the order store. *)
Theorem answer_independent_of_mail (settings settings' : Settings)
    (server server' : SmtpServer) (timestamp : string) (data : pyval) (d : database P) :
  sender_plain settings = true ->
  sender_plain settings' = true ->
  _handle_create_order header_value repr_of settings server timestamp data d
  = _handle_create_order header_value repr_of settings' server' timestamp data d.
Proof.
  intros Hs Hs'.
  unfold _handle_create_order.
  destruct (_validate_order_payload repr_of data) as [verdict | e]; [| reflexivity].
  destruct (truthy_opt verdict); [reflexivity |].
  unfold place_order.
  destruct (order_arguments data) as [[[[[cn em] ph] ad] items] | e]; [| reflexivity].
  destruct (create_order timestamp cn em ph ad items d) as [[id | e] d1]; [| reflexivity].
  destruct (get_order_summary id d1) as [[[s |] | e] d2]; try reflexivity.
  pose proof (send_fst settings server s Hs) as Hrun.
  pose proof (send_fst settings' server' s Hs') as Hrun'.
  destruct (if truthy (os_email s)
            then header_store_parse header_value "To" (os_email s)
            else Ok "") as [v | e].
  - destruct Hrun as [b ->]. destruct Hrun' as [b' ->]. reflexivity.
  - rewrite Hrun, Hrun'. reflexivity.
Qed.

End EndpointFacts.

Lemma created_order_is_persisted_witness :
  exists customer_name email phone address items,
    text_field request_of_nour "customerName" = Some customer_name
    /\ text_field request_of_nour "email" = Some email
    /\ text_field request_of_nour "phone" = Some phone
    /\ text_field request_of_nour "address" = Some address
    /\ Py.getitem request_of_nour "items" = Ok (PList items)
    /\ Py.contains "@" (Py.strip email) = true
    /\ (6 <= Py.len (Py.strip phone))%nat
    /\ snd (_handle_create_order raw_header no_repr settings_unset server_up
              "2024-02-01T09:30:00" request_of_nour shop)
       = [CreateOrderCall (Py.strip customer_name) (Py.strip email)
            (Py.strip phone) (Py.strip address) items;
          GetOrderSummaryCall 2]
    /\ create_order "2024-02-01T09:30:00" (Py.strip customer_name) (Py.strip email)
         (Py.strip phone) (Py.strip address) items shop
       = (Ok 2, snd (fst (_handle_create_order raw_header no_repr settings_unset
                            server_up "2024-02-01T09:30:00" request_of_nour shop)))
    /\ orders (snd (fst (_handle_create_order raw_header no_repr settings_unset
                           server_up "2024-02-01T09:30:00" request_of_nour shop)))
       = (orders shop
          ++ [received_order 2 "2024-02-01T09:30:00" (Py.strip customer_name)
                (Py.strip email) (Py.strip phone) (Py.strip address)])%list.
Proof.
  apply (created_order_is_persisted raw_header no_repr settings_unset server_up
           "2024-02-01T09:30:00" request_of_nour shop).
  vm_compute. reflexivity.
Defined.

(** A request for a product that does not exist is answered 400 and leaves
    the sample shop as it was. *)
Lemma refused_order_leaves_database_witness :
  snd (fst (_handle_create_order raw_header no_repr settings_mail server_up
              "2024-02-01T09:30:00"
              (payload (PStr "Nour") (PStr "nour@example.com") (PStr "03987654")
                       (PStr "Tripoli") (PList [line (PInt 8) (PInt 2)])) shop))
  = shop.
Proof.
  apply (refused_order_leaves_database raw_header no_repr settings_mail server_up
           "2024-02-01T09:30:00"
           (payload (PStr "Nour") (PStr "nour@example.com") (PStr "03987654")
                    (PStr "Tripoli") (PList [line (PInt 8) (PInt 2)]))
           shop _ (BadRequest "One or more products do not exist.")
           [CreateOrderCall "Nour" "nour@example.com" "03987654" "Tripoli"
              [line (PInt 8) (PInt 2)]]).
  - reflexivity.
  - reflexivity.
  - intros email H. vm_compute in H. inversion H. vm_compute. reflexivity.
  - vm_compute. reflexivity.
  - reflexivity.
Defined.

(** Mail not configured, or configured with the server down: the same
    answer to Nour's request. *)
Lemma answer_independent_of_mail_witness :
  _handle_create_order raw_header no_repr settings_unset server_up
    "2024-02-01T09:30:00" request_of_nour shop
  = _handle_create_order raw_header no_repr settings_mail server_down
      "2024-02-01T09:30:00" request_of_nour shop.
Proof.
  apply (answer_independent_of_mail raw_header no_repr settings_unset settings_mail
           server_up server_down "2024-02-01T09:30:00" request_of_nour shop);
    reflexivity.
Defined.

(* ================================================================== *)
(** ** More on the reconciliation of the catalogue                     *)
(* ================================================================== *)

Section FindFacts.
Context {A : Type}.

Lemma find_map_same (f : A -> bool) (g : A -> A) (l : list A) (x : A) :
  (forall a, f (g a) = f a) ->
  find f l = Some x -> find f (map g l) = Some (g x).
Proof.
  intros Hfg. induction l as [| a l IH]; [discriminate |].
  simpl. rewrite Hfg. destruct (f a); [intros H; now inversion H | exact IH].
Qed.

Lemma find_map_none (f : A -> bool) (g : A -> A) (l : list A) :
  (forall a, f (g a) = f a) ->
  find f l = None -> find f (map g l) = None.
Proof.
  intros Hfg. induction l as [| a l IH]; [reflexivity |].
  simpl. rewrite Hfg. destruct (f a); [discriminate | exact IH].
Qed.

Lemma find_app_some (f : A -> bool) (l l' : list A) (x : A) :
  find f l = Some x -> find f (l ++ l') = Some x.
Proof.
  induction l as [| a l IH]; [discriminate |].
  simpl. destruct (f a); [trivial | exact IH].
Qed.

Lemma find_app_none (f : A -> bool) (l : list A) (y : A) :
  find f l = None -> f y = true -> find f (l ++ [y]) = Some y.
Proof.
  intros Hl Hy. induction l as [| a l IH]; simpl in *.
  - now rewrite Hy.
  - destruct (f a); [discriminate | now apply IH].
Qed.

(** An update by key that leaves every row as it is. *)
Lemma map_update_same (key : A -> Z) (k : Z) (upd : A -> A) (l : list A) :
  (forall a, In a l -> key a = k -> upd a = a) ->
  map (fun r => if key r =? k then upd r else r) l = l.
Proof.
  induction l as [| a l IH]; intros H; [reflexivity |].
  simpl. rewrite IH by (intros b Hb; apply H; now right).
  destruct (Z.eqb_spec (key a) k) as [E | E]; [| reflexivity].
  rewrite (H a (or_introl eq_refl) E). reflexivity.
Qed.

Lemma existsb_pointwise (f g : A -> bool) (l : list A) :
  (forall a, f a = g a) -> existsb f l = existsb g l.
Proof.
  intros H. induction l as [| a l IH]; [reflexivity |]. simpl. now rewrite H, IH.
Qed.

End FindFacts.

Section ReconcileFacts.
Context {P : Type} {PA : PriceArith P} {Lim : Engine}.

Lemma product_is_true (cid : Z) (name : string) (p : product_row P) :
  product_is cid name p = true <-> prod_category_id p = cid /\ prod_name p = name.
Proof.
  unfold product_is. rewrite andb_true_iff, Z.eqb_eq, String.eqb_eq. tauto.
Qed.

Lemma set_categories_same (d : database P) : set_categories (categories d) d = d.
Proof. destruct d; reflexivity. Qed.

Lemma set_products_same (d : database P) : set_products (products d) d = d.
Proof. destruct d; reflexivity. Qed.

Lemma set_orders_same (d : database P) : set_orders (orders d) d = d.
Proof. destruct d; reflexivity. Qed.

(** Holding more products never makes a category less referenced. *)
Lemma referenced_extends (d d' : database P) (cid : Z) :
  extends d d' -> referenced d cid = true -> referenced d' cid = true.
Proof.
  intros [Hoi [Hp _]]. unfold referenced. rewrite Hoi, !existsb_exists.
  intros [oi [Hin Href]]. exists oi. split; [exact Hin |].
  unfold references_category in *. apply mem_Z_In in Href. apply mem_Z_In.
  apply in_map_iff in Href. destruct Href as [p [Hid Hpin]].
  unfold products_of_category in *. apply filter_In in Hpin. destruct Hpin as [Hpin Hcat].
  destruct (Hp p Hpin) as [p' [Hin' [Hid' Hcat']]].
  apply in_map_iff. exists p'. split; [congruence |].
  apply filter_In. split; [exact Hin' |]. now rewrite Hcat'.
Qed.

Lemma extends_trans (a b c : database P) : extends a b -> extends b c -> extends a c.
Proof.
  intros [Ho1 [Hp1 Hc1]] [Ho2 [Hp2 Hc2]]. split; [congruence |]. split.
  - intros p Hp. destruct (Hp1 p Hp) as [p1 [Hin1 [Hid1 Hcat1]]].
    destruct (Hp2 p1 Hin1) as [p2 [Hin2 [Hid2 Hcat2]]].
    exists p2. repeat split; congruence.
  - intros x Hx. destruct (Hc1 x Hx) as [x1 [Hin1 [Hid1 Hs1]]].
    destruct (Hc2 x1 Hin1) as [x2 [Hin2 [Hid2 Hs2]]].
    exists x2. repeat split; congruence.
Qed.

(** *** One item of a seed category *)

Lemma upsert_product_seeded (cid : Z) (it : seed_item P) (d : database P) :
  existsb (fun c => cat_id c =? cid) (categories d) = true ->
  NoDup (map prod_id (products d)) ->
  exists d',
    upsert_product cid it d = (Ok tt, d')
    /\ categories d' = categories d
    /\ NoDup (map prod_id (products d'))
    /\ extends d d'
    /\ item_seeded d' cid it
    /\ (forall cid0 it0,
          cid0 <> cid \/ si_name it0 <> si_name it ->
          item_seeded d cid0 it0 -> item_seeded d' cid0 it0).
Proof.
  intros Hcat Hnd. unfold upsert_product, cbind, query.
  fold (product_is (P := P) cid (si_name it)).
  destruct (find (product_is cid (si_name it)) (products d)) as [p |] eqn:Hfind.
  - pose proof (update_product_extends it (prod_id p) d) as Hext.
    unfold update_product in *. cbn [snd] in Hext.
    eexists. split; [reflexivity |]. cbn [categories products set_products].
    set (upd := fun r : product_row P =>
                  {| prod_id := prod_id r; prod_category_id := prod_category_id r;
                     prod_subcategory := si_subcategory it; prod_name := prod_name r;
                     prod_description := si_description it; prod_unit := si_unit it;
                     prod_price := seed_price it; prod_image_url := si_image_url it |}).
    set (g := fun r : product_row P => if prod_id r =? prod_id p then upd r else r).
    assert (Hg : forall c n a, product_is c n (g a) = product_is c n a).
    { intros c n a. unfold g. destruct (prod_id a =? prod_id p); reflexivity. }
    pose proof (find_some _ _ Hfind) as [Hpin Hpis]. apply product_is_true in Hpis.
    destruct Hpis as [Hpc Hpn].
    split; [reflexivity |]. split; [| split; [exact Hext | split]].
    + change (NoDup (map prod_id (map g (products d)))).
      unfold g. rewrite update_keeps_ids; [exact Hnd | reflexivity].
    + exists (g p). split.
      * apply find_map_same; [apply Hg | exact Hfind].
      * unfold g. rewrite Z.eqb_refl. unfold upd, seeded_product. cbn.
        repeat split; assumption.
    + intros cid0 it0 Hneq [p0 [Hfind0 Hseeded0]].
      exists p0. split; [| exact Hseeded0].
      change (find (product_is cid0 (si_name it0)) (map g (products d)) = Some p0).
      rewrite (find_map_same _ g _ p0 (Hg cid0 (si_name it0)) Hfind0).
      f_equal. unfold g.
      destruct (Z.eqb_spec (prod_id p0) (prod_id p)) as [E | E]; [| reflexivity].
      exfalso. pose proof (find_some _ _ Hfind0) as [Hp0in Hp0is].
      apply product_is_true in Hp0is. destruct Hp0is as [Hc0 Hn0].
      assert (p0 = p) by (apply (NoDup_map_inj prod_id (products d)); assumption).
      subst p0. destruct Hneq as [Hneq | Hneq]; apply Hneq; congruence.
  - pose proof (insert_product_extends cid it d) as Hext.
    unfold insert_product in *. rewrite Hcat in *. cbn [snd] in Hext.
    eexists. split; [reflexivity |]. cbn [categories products].
    split; [reflexivity |]. split; [| split; [exact Hext | split]].
    + rewrite map_app. simpl. apply NoDup_app; [exact Hnd | repeat constructor; intros [] |].
      intros x Hx [Hx' | []]. subst x. revert Hx. apply next_rowid_not_in.
    + eexists. split.
      * apply find_app_none; [exact Hfind |].
        apply product_is_true. split; reflexivity.
      * unfold seeded_product. cbn. repeat split.
    + intros cid0 it0 _ [p0 [Hfind0 Hseeded0]].
      exists p0. split; [now apply find_app_some | exact Hseeded0].
Qed.


(** *** The items of a seed category *)

Lemma upsert_products_seeded (cid : Z) (items : list (seed_item P)) (d : database P) :
  existsb (fun c => cat_id c =? cid) (categories d) = true ->
  NoDup (map prod_id (products d)) ->
  NoDup (map si_name items) ->
  exists d',
    for_each (upsert_product cid) items d = (Ok tt, d')
    /\ categories d' = categories d
    /\ NoDup (map prod_id (products d'))
    /\ extends d d'
    /\ Forall (item_seeded d' cid) items
    /\ (forall cid0 it0,
          cid0 <> cid \/ ~ In (si_name it0) (map si_name items) ->
          item_seeded d cid0 it0 -> item_seeded d' cid0 it0).
Proof.
  revert d. induction items as [| it items IH]; intros d Hcat Hnd Hnames.
  - exists d. split; [reflexivity |]. split; [reflexivity |]. split; [exact Hnd |].
    split; [apply extends_refl |]. split; [constructor | auto].
  - simpl in Hnames. inversion Hnames as [| ? ? Hfresh Hnames']; subst.
    destruct (upsert_product_seeded cid it d Hcat Hnd)
      as [d1 [Hrun1 [Hc1 [Hnd1 [Hext1 [Hit1 Hstable1]]]]]].
    rewrite <- Hc1 in Hcat.
    destruct (IH d1 Hcat Hnd1 Hnames')
      as [d' [Hrun [Hc [Hnd' [Hext [Hall Hstable]]]]]].
    exists d'. cbn [for_each]. unfold cbind. rewrite Hrun1.
    split; [exact Hrun |]. split; [congruence |]. split; [exact Hnd' |].
    split; [eapply extends_trans; eassumption |]. split.
    + constructor; [| exact Hall]. apply Hstable; [now right | exact Hit1].
    + intros cid0 it0 Hneq H0. apply Hstable.
      * destruct Hneq as [Hneq | Hneq]; [now left | right].
        intros Hin. apply Hneq. simpl. now right.
      * apply Hstable1; [| exact H0].
        destruct Hneq as [Hneq | Hneq]; [now left | right].
        intros E. apply Hneq. simpl. now left.
Qed.

Lemma slug_is_true (slug : string) (r : category_row) :
  slug_is slug r = true <-> cat_slug r = slug.
Proof. unfold slug_is. apply String.eqb_eq. Qed.

(** The items of a category depend on the products only. *)
Lemma item_seeded_products (d d' : database P) (cid : Z) (it : seed_item P) :
  products d' = products d -> item_seeded d cid it -> item_seeded d' cid it.
Proof. unfold item_seeded. now intros ->. Qed.

(** *** One seed category *)

Lemma upsert_category_seeded (sc : seed_category P) (d : database P) :
  NoDup (map cat_id (categories d)) ->
  NoDup (map prod_id (products d)) ->
  NoDup (map si_name (sc_items sc)) ->
  exists d',
    upsert_category sc d = (Ok tt, d')
    /\ NoDup (map cat_id (categories d'))
    /\ NoDup (map prod_id (products d'))
    /\ extends d d'
    /\ category_seeded d' sc
    /\ (forall sc0, sc_slug sc0 <> sc_slug sc ->
          category_seeded d sc0 -> category_seeded d' sc0)
    /\ (forall c', In c' (categories d') ->
          cat_slug c' = sc_slug sc
          \/ exists c, In c (categories d) /\ cat_id c = cat_id c'
                       /\ cat_slug c = cat_slug c').
Proof.
  intros Hndc Hndp Hnames.
  unfold upsert_category. unfold cbind at 1. unfold query at 1.
  destruct (find (fun r => String.eqb (cat_slug r) (sc_slug sc)) (categories d))
    as [r |] eqn:Hfind.
  - change (find (slug_is (sc_slug sc)) (categories d) = Some r) in Hfind.
    pose proof (find_some _ _ Hfind) as [Hrin Hris]. apply slug_is_true in Hris.
    pose proof (update_category_extends sc (cat_id r) d) as Hext0.
    unfold cbind at 1. unfold cbind at 1. unfold update_category in *. unfold ret.
    cbn [snd] in Hext0.
    set (upd := fun r0 : category_row =>
                  {| cat_id := cat_id r0; cat_slug := cat_slug r0;
                     cat_name := sc_name sc;
                     cat_description := Some (sc_description sc);
                     cat_image_url := sc_image_url sc |}) in *.
    set (g := fun r0 : category_row => if cat_id r0 =? cat_id r then upd r0 else r0) in *.
    set (d0 := set_categories (map g (categories d)) d) in *.
    assert (Hids : map cat_id (categories d0) = map cat_id (categories d)).
    { unfold d0. cbn [categories set_categories]. rewrite map_map. apply map_ext.
      intros a. unfold g. destruct (cat_id a =? cat_id r); reflexivity. }
    assert (Hg : forall s a, slug_is s (g a) = slug_is s a).
    { intros s a. unfold g. destruct (cat_id a =? cat_id r); reflexivity. }
    assert (Hcat0 : existsb (fun c => cat_id c =? cat_id r) (categories d0) = true).
    { rewrite (has_category_ids _ _ _ Hids). apply has_category_In. now apply in_map. }
    destruct (upsert_products_seeded (cat_id r) (sc_items sc) d0 Hcat0 Hndp Hnames)
      as [d' [Hrun [Hc [Hnd' [Hext [Hall Hstable]]]]]].
    exists d'. split; [exact Hrun |].
    split; [rewrite Hc, Hids; exact Hndc |]. split; [exact Hnd' |].
    split; [eapply extends_trans; eassumption |]. split; [| split].
    + exists (g r). rewrite Hc. split.
      * apply find_map_same; [apply Hg | exact Hfind].
      * unfold g. rewrite Z.eqb_refl. cbn. repeat split. exact Hall.
    + intros sc0 Hneq [c0 [Hfind0 [Hn0 [Hd0 [Hi0 Hitems0]]]]].
      pose proof (find_some _ _ Hfind0) as [Hc0in Hc0is]. apply slug_is_true in Hc0is.
      assert (Hid0 : cat_id c0 <> cat_id r).
      { intros E. assert (c0 = r) by (apply (NoDup_map_inj cat_id (categories d)); assumption).
        subst c0. congruence. }
      exists c0. rewrite Hc. split; [| repeat split; try assumption].
      * change (find (slug_is (sc_slug sc0)) (map g (categories d)) = Some c0).
        rewrite (find_map_same _ g _ c0 (Hg (sc_slug sc0)) Hfind0).
        f_equal. unfold g. destruct (Z.eqb_spec (cat_id c0) (cat_id r)); [contradiction |].
        reflexivity.
      * eapply Forall_impl; [| exact Hitems0]. intros it0 H0.
        apply Hstable; [now left |].
        eapply item_seeded_products; [| exact H0]. reflexivity.
    + intros c' Hc'. rewrite Hc in Hc'. right.
      change (In c' (map g (categories d))) in Hc'.
      apply in_map_iff in Hc'. destruct Hc' as [c [<- Hcin]].
      exists c. split; [exact Hcin |]. unfold g.
      destruct (cat_id c =? cat_id r); split; reflexivity.
  - change (find (slug_is (sc_slug sc)) (categories d) = None) in Hfind.
    pose proof (insert_category_extends sc d) as Hext0.
    unfold cbind at 1. unfold insert_category in *.
    assert (Hex : existsb (fun r => String.eqb (cat_slug r) (sc_slug sc)) (categories d)
                  = false) by (now apply find_none_existsb).
    rewrite Hex in *. cbn [snd] in Hext0.
    set (id := next_rowid (seq_categories d) (map cat_id (categories d))) in *.
    set (row := {| cat_id := id; cat_slug := sc_slug sc; cat_name := sc_name sc;
                   cat_description := Some (sc_description sc);
                   cat_image_url := sc_image_url sc |}) in *.
    match type of Hext0 with extends _ ?x => set (d0 := x) in * end.
    assert (Hfresh : ~ In id (map cat_id (categories d))) by apply next_rowid_not_in.
    assert (Hndc0 : NoDup (map cat_id (categories d0))).
    { unfold d0. cbn [categories]. rewrite map_app. simpl.
      apply NoDup_app; [exact Hndc | repeat constructor; intros [] |].
      intros x Hx [Hx' | []]. subst x. contradiction. }
    assert (Hcat0 : existsb (fun c => cat_id c =? id) (categories d0) = true).
    { apply has_category_In. unfold d0. cbn [categories]. rewrite map_app.
      apply in_or_app. right. now left. }
    destruct (upsert_products_seeded id (sc_items sc) d0 Hcat0 Hndp Hnames)
      as [d' [Hrun [Hc [Hnd' [Hext [Hall Hstable]]]]]].
    exists d'. split; [exact Hrun |].
    split; [rewrite Hc; exact Hndc0 |]. split; [exact Hnd' |].
    split; [eapply extends_trans; eassumption |]. split; [| split].
    + exists row. rewrite Hc. split.
      * unfold d0. cbn [categories]. apply find_app_none; [exact Hfind |].
        apply slug_is_true. reflexivity.
      * cbn. repeat split. exact Hall.
    + intros sc0 Hneq [c0 [Hfind0 [Hn0 [Hd0 [Hi0 Hitems0]]]]].
      pose proof (find_some _ _ Hfind0) as [Hc0in _].
      exists c0. rewrite Hc. split; [| repeat split; try assumption].
      * unfold d0. cbn [categories]. now apply find_app_some.
      * eapply Forall_impl; [| exact Hitems0]. intros it0 H0.
        apply Hstable.
        -- left. intros E. apply Hfresh. rewrite <- E. now apply in_map.
        -- eapply item_seeded_products; [| exact H0]. reflexivity.
    + intros c' Hc'. rewrite Hc in Hc'. unfold d0 in Hc'. cbn [categories] in Hc'.
      apply in_app_or in Hc'. destruct Hc' as [Hc' | [<- | []]].
      * right. exists c'. repeat split. exact Hc'.
      * left. reflexivity.
Qed.


(** *** The second loop *)

Lemma upsert_loop_seeded (targets : list string) (seed done : list (seed_category P))
    (d : database P) :
  NoDup (map sc_slug (done ++ seed)) ->
  Forall (fun sc => NoDup (map si_name (sc_items sc))) seed ->
  Forall (fun sc => mem_string (sc_slug sc) targets = true) seed ->
  NoDup (map cat_id (categories d)) ->
  NoDup (map prod_id (products d)) ->
  canonical_or_referenced targets d ->
  Forall (category_seeded d) done ->
  exists d',
    for_each upsert_category seed d = (Ok tt, d')
    /\ NoDup (map cat_id (categories d'))
    /\ NoDup (map prod_id (products d'))
    /\ canonical_or_referenced targets d'
    /\ Forall (category_seeded d') (done ++ seed).
Proof.
  revert done d. induction seed as [| sc seed IH];
    intros done d Hslugs Hnames Htargets Hndc Hndp Hcr Hdone.
  - exists d. rewrite app_nil_r. repeat split; assumption.
  - inversion Hnames as [| ? ? Hn Hnames']; subst.
    inversion Htargets as [| ? ? Ht Htargets']; subst.
    destruct (upsert_category_seeded sc d Hndc Hndp Hn)
      as [d1 [Hrun1 [Hndc1 [Hndp1 [Hext1 [Hsc1 [Hstable1 Horigin1]]]]]]].
    assert (Hslugs' : NoDup (map sc_slug ((done ++ [sc]) ++ seed))).
    { now rewrite <- app_assoc. }
    assert (Hcr1 : canonical_or_referenced targets d1).
    { apply Forall_forall. intros c' Hc'.
      destruct (Horigin1 c' Hc') as [Hs | [c [Hcin [Hid Hs]]]].
      - rewrite Hs, Ht. reflexivity.
      - unfold canonical_or_referenced in Hcr. rewrite Forall_forall in Hcr.
        specialize (Hcr c Hcin). rewrite <- Hs, <- Hid.
        apply orb_true_iff in Hcr. apply orb_true_iff.
        destruct Hcr as [Hcr | Hcr]; [now left | right].
        now apply (referenced_extends d d1). }
    assert (Hdone1 : Forall (category_seeded d1) (done ++ [sc])).
    { apply Forall_app. split; [| now constructor].
      apply Forall_forall. intros sc0 Hsc0. apply Hstable1.
      - rewrite map_app in Hslugs. simpl in Hslugs.
        apply NoDup_remove_2 in Hslugs. intros E. apply Hslugs.
        apply in_or_app. left. rewrite <- E. now apply in_map.
      - rewrite Forall_forall in Hdone. now apply Hdone. }
    destruct (IH (done ++ [sc])%list d1 Hslugs' Hnames' Htargets' Hndc1 Hndp1 Hcr1 Hdone1)
      as [d' [Hrun [Hndc' [Hndp' [Hcr' Hall]]]]].
    exists d'. cbn [for_each]. unfold cbind. rewrite Hrun1.
    split; [exact Hrun |]. repeat split; try assumption.
    now rewrite <- app_assoc in Hall.
Qed.

(** *** The first loop *)

Lemma prune_category_skip (targets : list string) (x : Z * string) (d : database P) :
  mem_string (snd x) targets || referenced d (fst x) = true ->
  prune_category targets x d = (Ok tt, d).
Proof.
  unfold prune_category. destruct (mem_string (snd x) targets); [reflexivity |].
  cbn [orb]. intros Href. unfold cbind at 1, count_referencing, query.
  rewrite length_filter_zero. fold (referenced d (fst x)). rewrite Href. reflexivity.
Qed.

(** Removing the products of one category does not change whether another
    is referenced. *)
Lemma referenced_filter (d d' : database P) (cid cid' : Z) :
  cid <> cid' ->
  order_items d' = order_items d ->
  products d' = filter (fun p => negb (prod_category_id p =? cid')) (products d) ->
  referenced d' cid = referenced d cid.
Proof.
  intros Hneq Hoi Hp. unfold referenced. rewrite Hoi. apply existsb_pointwise.
  intros oi. unfold references_category, products_of_category. rewrite Hp.
  rewrite filter_filter_keep; [reflexivity |].
  intros p Hpc. apply Z.eqb_eq in Hpc. apply negb_true_iff, Z.eqb_neq. congruence.
Qed.

Lemma prune_loop (targets : list string) (existing : list (Z * string)) :
  ensures (P := P) (pruned_so_far targets existing)
          (for_each (prune_category targets) existing)
          (fun _ => pruned_so_far targets []).
Proof.
  apply ensures_for_each_rest. intros [cid slug] rest d [Hndc [Hndp Hall]].
  destruct (prune_category_run targets cid slug d) as [d' [Hrun [Hoi [_ Hcase]]]].
  exists tt, d'. split; [exact Hrun |].
  destruct (mem_string slug targets || referenced d cid) eqn:Hkeep.
  - destruct Hcase as [Hc Hp].
    assert (Href : forall c, referenced d' c = referenced d c).
    { intros c. unfold referenced, references_category, products_of_category.
      now rewrite Hoi, Hp. }
    split; [now rewrite Hc |]. split; [now rewrite Hp |].
    rewrite Hc. eapply Forall_impl; [| exact Hall].
    intros c [H | [H | H]].
    + left. now rewrite Href.
    + inversion H; subst. left. now rewrite Href.
    + now right.
  - destruct Hcase as [Hc Hp].
    split; [rewrite Hc; now apply NoDup_map_filter |].
    split; [rewrite Hp; now apply NoDup_map_filter |].
    rewrite Hc. rewrite Forall_forall in Hall. apply Forall_forall.
    intros c Hcin. apply filter_In in Hcin. destruct Hcin as [Hcin Hid].
    apply negb_true_iff, Z.eqb_neq in Hid.
    rewrite (referenced_filter d d' (cat_id c) cid Hid Hoi Hp).
    destruct (Hall c Hcin) as [H | [H | H]].
    + now left.
    + inversion H as [[E1 E2]]. congruence.
    + now right.
Qed.

(** *** [seed_data] as a whole *)

Lemma seed_data_body_reconciles (seed : list (seed_category P)) (d : database P) :
  well_formed_seed seed ->
  NoDup (map cat_id (categories d)) ->
  NoDup (map prod_id (products d)) ->
  exists d',
    seed_data seed d = (Ok tt, d') /\ reconciled seed d'.
Proof.
  intros [Hslugs Hnames] Hndc Hndp.
  unfold seed_data, db_cursor. unfold cbind at 1. unfold query at 1.
  set (targets := map sc_slug seed).
  set (existing := map (fun c => (cat_id c, cat_slug c)) (categories d)).
  destruct (prune_loop targets existing d) as [[] [d1 [Hrun1 [Hndc1 [Hndp1 Hcr1]]]]].
  { split; [exact Hndc |]. split; [exact Hndp |].
    apply Forall_forall. intros c Hc. right. unfold existing.
    apply in_map_iff. now exists c. }
  assert (Hcr1' : canonical_or_referenced targets d1).
  { eapply Forall_impl; [| exact Hcr1]. intros c [H | []]. exact H. }
  destruct (upsert_loop_seeded targets seed [] d1) as [d' [Hrun [Hndc' [Hndp' [Hcr' Hall]]]]];
    try assumption.
  { apply Forall_forall. intros sc Hsc. unfold targets, mem_string.
    apply existsb_exists. exists (sc_slug sc). split; [now apply in_map |].
    apply String.eqb_refl. }
  { constructor. }
  exists d'. unfold cbind. rewrite Hrun1, Hrun.
  split; [reflexivity |]. repeat split; assumption.
Qed.


(** *** A reconciled file is left as it is *)

Lemma for_each_skip {A : Type} (body : A -> cursor unit) (l : list A) (d : database P) :
  (forall x, In x l -> body x d = (Ok tt, d)) -> for_each body l d = (Ok tt, d).
Proof.
  induction l as [| x l IH]; intros H; [reflexivity |].
  cbn [for_each]. unfold cbind. rewrite (H x (or_introl eq_refl)).
  apply IH. intros y Hy. apply H. now right.
Qed.

Lemma upsert_product_fix (cid : Z) (it : seed_item P) (d : database P) :
  NoDup (map prod_id (products d)) ->
  item_seeded d cid it ->
  upsert_product cid it d = (Ok tt, d).
Proof.
  intros Hnd [p [Hfind [Hc [Hn [Hs [Hd [Hu [Hpr Hi]]]]]]]].
  unfold upsert_product, cbind, query.
  change (find (fun p0 => (prod_category_id p0 =? cid)
                          && String.eqb (prod_name p0) (si_name it)) (products d))
    with (find (product_is cid (si_name it)) (products d)).
  rewrite Hfind. unfold update_product. f_equal.
  rewrite map_update_same; [apply set_products_same |].
  intros a Ha Hid. pose proof (find_some _ _ Hfind) as [Hpin _].
  assert (a = p) by (apply (NoDup_map_inj prod_id (products d)); assumption).
  subst a. destruct p. cbn in *. subst. reflexivity.
Qed.

Lemma upsert_category_fix (sc : seed_category P) (d : database P) :
  NoDup (map cat_id (categories d)) ->
  NoDup (map prod_id (products d)) ->
  category_seeded d sc ->
  upsert_category sc d = (Ok tt, d).
Proof.
  intros Hndc Hndp [c [Hfind [Hn [Hd [Hi Hitems]]]]].
  unfold upsert_category. unfold cbind at 1. unfold query at 1.
  change (find (fun r => String.eqb (cat_slug r) (sc_slug sc)) (categories d))
    with (find (slug_is (sc_slug sc)) (categories d)).
  rewrite Hfind. unfold cbind at 1. unfold cbind at 1. unfold update_category, ret.
  rewrite map_update_same.
  - rewrite set_categories_same. apply for_each_skip. intros it Hit.
    apply upsert_product_fix; [exact Hndp |].
    rewrite Forall_forall in Hitems. now apply Hitems.
  - intros a Ha Hid. pose proof (find_some _ _ Hfind) as [Hcin _].
    assert (a = c) by (apply (NoDup_map_inj cat_id (categories d)); assumption).
    subst a. destruct c. cbn in *. subst. reflexivity.
Qed.

Lemma seed_data_fixpoint (seed : list (seed_category P)) (d : database P) :
  reconciled seed d -> seed_data seed d = (Ok tt, d).
Proof.
  intros [Hndc [Hndp [Hcr Hall]]].
  unfold seed_data, db_cursor. unfold cbind at 1. unfold query at 1.
  unfold cbind. rewrite for_each_skip.
  - rewrite for_each_skip; [reflexivity |]. intros sc Hsc.
    apply upsert_category_fix; try assumption.
    rewrite Forall_forall in Hall. now apply Hall.
  - intros x Hx. apply in_map_iff in Hx. destruct Hx as [c [<- Hc]].
    apply prune_category_skip. cbn [fst snd].
    unfold canonical_or_referenced in Hcr. rewrite Forall_forall in Hcr. now apply Hcr.
Qed.

(** [seed_data] reconciles the file with the catalogue.  For a seed
    catalogue with pairwise distinct slugs and, within each category, pairwise
    distinct item names, on a file whose category ids and product ids are
    unique: [seed_data] returns; it leaves the orders and the order items as
    they were; and afterwards each seed category is in the table under its
    slug with the seed's name, description and image, each of its items is a
    product of that category under the item's name with the seed's
    subcategory, description, unit, price and image, and every category left
    in the table is one of the seed or has a product that an order item
    references. *)
Theorem seed_data_reconciles (seed : list (seed_category P)) (d : database P) :
  well_formed_seed seed ->
  NoDup (map cat_id (categories d)) ->
  NoDup (map prod_id (products d)) ->
  fst (seed_data seed d) = Ok tt
  /\ orders (snd (seed_data seed d)) = orders d
  /\ order_items (snd (seed_data seed d)) = order_items d
  /\ reconciled seed (snd (seed_data seed d)).
Proof.
  intros Hseed Hndc Hndp.
  destruct (seed_data_body_reconciles seed d Hseed Hndc Hndp) as [d' [Hrun Hrec]].
  pose proof (seed_data_same_orders seed d) as Ho.
  pose proof (seed_data_keeps_referenced seed d) as [Hoi _].
  rewrite Hrun in *. cbn [fst snd] in *.
  split; [reflexivity |]. split; [exact Ho |]. split; [exact Hoi | exact Hrec].
Qed.

(** [seed_data] run a second time changes nothing: under the same
    conditions, the call on the file a first call has left returns and leaves
    that file as it is, rows and AUTOINCREMENT counters alike. *)
Theorem seed_data_idempotent (seed : list (seed_category P)) (d : database P) :
  well_formed_seed seed ->
  NoDup (map cat_id (categories d)) ->
  NoDup (map prod_id (products d)) ->
  seed_data seed (snd (seed_data seed d)) = (Ok tt, snd (seed_data seed d)).
Proof.
  intros Hseed Hndc Hndp.
  destruct (seed_data_body_reconciles seed d Hseed Hndc Hndp) as [d' [Hrun Hrec]].
  rewrite Hrun. cbn [snd]. now apply seed_data_fixpoint.
Qed.

End ReconcileFacts.

Lemma distinct_NoDup (l : list string) : distinct l = true -> NoDup l.
Proof.
  induction l as [| x l IH]; [constructor |].
  simpl. intros H. apply andb_true_iff in H. destruct H as [Hx Hl].
  constructor; [| now apply IH].
  apply negb_true_iff in Hx. intros Hin.
  apply (mem_string_false x l Hx x Hin). reflexivity.
Qed.

Lemma well_formed_seedb_ok {P : Type} (seed : list (seed_category P)) :
  well_formed_seedb seed = true -> well_formed_seed seed.
Proof.
  unfold well_formed_seedb, well_formed_seed. intros H.
  apply andb_true_iff in H. destruct H as [H1 H2].
  split; [now apply distinct_NoDup |].
  apply Forall_forall. intros sc Hsc. rewrite forallb_forall in H2.
  now apply distinct_NoDup, H2.
Qed.

Lemma catalog_seed_well_formed {P : Type} {PA : PriceArith P} :
  well_formed_seed (catalog_seed (P := P)).
Proof. apply well_formed_seedb_ok. vm_compute. reflexivity. Qed.

Section RunFacts.
Context {P : Type} {PA : PriceArith P} {Lim : Engine}.

Lemma normalize_status_idem (o : order_row) :
  normalize_status (normalize_status o) = normalize_status o.
Proof.
  unfold normalize_status.
  destruct (String.eqb (ord_status o) "pending_verification") eqn:E; cbn.
  - reflexivity.
  - now rewrite E.
Qed.

Lemma init_db_run (d : database P) :
  init_db d = (Ok tt, set_orders (map normalize_status (orders d)) d).
Proof.
  unfold init_db, db_cursor, _apply_migrations. cbn [orders products set_products].
  rewrite map_id. destruct d; reflexivity.
Qed.

(** Starting the server a second time changes nothing.  On a file whose
    category ids and product ids are unique, the startup of [run] ([init_db]
    then [seed_data] on the catalogue of the source) returns; it leaves the
    order items as they were and the orders as they were but for the legacy
    status, rewritten to 'received'; the file it leaves is in line with the
    catalogue of the source; and the same startup on that file returns and
    leaves it as it is. *)
Theorem run_restart (d : database P) :
  NoDup (map cat_id (categories d)) ->
  NoDup (map prod_id (products d)) ->
  fst (run d) = Ok tt
  /\ orders (snd (run d)) = map normalize_status (orders d)
  /\ order_items (snd (run d)) = order_items d
  /\ reconciled catalog_seed (snd (run d))
  /\ run (snd (run d)) = (Ok tt, snd (run d)).
Proof.
  intros Hndc Hndp. unfold run. rewrite init_db_run.
  set (d0 := set_orders (map normalize_status (orders d)) d).
  destruct (seed_data_body_reconciles catalog_seed d0 catalog_seed_well_formed Hndc Hndp)
    as [d1 [Hrun Hrec]].
  pose proof (seed_data_same_orders catalog_seed d0) as Ho.
  pose proof (seed_data_keeps_referenced catalog_seed d0) as [Hoi _].
  rewrite Hrun in *. cbn [fst snd] in *.
  split; [reflexivity |]. split; [exact Ho |]. split; [exact Hoi |].
  split; [exact Hrec |].
  rewrite init_db_run.
  assert (Hnorm : map normalize_status (orders d1) = orders d1).
  { rewrite Ho. unfold d0. cbn [orders set_orders]. rewrite map_map.
    apply map_ext. apply normalize_status_idem. }
  assert (Hsame : set_orders (map normalize_status (orders d1)) d1 = d1).
  { rewrite Hnorm. apply set_orders_same. }
  rewrite Hsame. now apply seed_data_fixpoint.
Qed.

End RunFacts.

(** The sample shop reconciled with the catalogue of the source. *)
Lemma seed_data_reconciles_witness :
  fst (seed_data catalog_seed shop) = Ok tt
  /\ orders (snd (seed_data catalog_seed shop)) = orders shop
  /\ order_items (snd (seed_data catalog_seed shop)) = order_items shop
  /\ reconciled catalog_seed (snd (seed_data catalog_seed shop)).
Proof.
  apply (seed_data_reconciles catalog_seed shop).
  - exact catalog_seed_well_formed.
  - simpl. repeat constructor; simpl; intuition discriminate.
  - simpl. repeat constructor; simpl; intuition discriminate.
Defined.

Lemma seed_data_idempotent_witness :
  seed_data catalog_seed (snd (seed_data catalog_seed shop))
  = (Ok tt, snd (seed_data catalog_seed shop)).
Proof.
  apply (seed_data_idempotent catalog_seed shop).
  - exact catalog_seed_well_formed.
  - simpl. repeat constructor; simpl; intuition discriminate.
  - simpl. repeat constructor; simpl; intuition discriminate.
Defined.

Lemma run_restart_witness :
  fst (run shop) = Ok tt
  /\ orders (snd (run shop)) = map normalize_status (orders shop)
  /\ order_items (snd (run shop)) = order_items shop
  /\ reconciled catalog_seed (snd (run shop))
  /\ run (snd (run shop)) = (Ok tt, snd (run shop)).
Proof.
  apply (run_restart shop).
  - simpl. repeat constructor; simpl; intuition discriminate.
  - simpl. repeat constructor; simpl; intuition discriminate.
Defined.

(* ================================================================== *)
(** ** More on the catalogue                                           *)
(* ================================================================== *)

Section CatalogMore.
Context {P : Type} {PA : PriceArith P} {Lim : Engine}.

(** What [get_catalog] returns, in one expression. *)
Lemma get_catalog_run (d : database P) :
  get_catalog d
  = (Ok (map (fun category =>
                {| cc_id := cat_id category; cc_slug := cat_slug category;
                   cc_name := cat_name category;
                   cc_description := cat_description category;
                   cc_imageUrl := cat_image_url category;
                   cc_subcategories :=
                     group_products (select_products_of (cat_id category) d) |})
             (order_by category_name_leb (categories d))), d).
Proof. reflexivity. Qed.

(** The groups of a category hold its products, each under its own
    subcategory, in the order of the query. *)
Lemma tagged_group_products (cid : Z) (d : database P) :
  tagged (group_products (select_products_of cid d))
  = map tag_product (select_products_of cid d).
Proof.
  set (rows := select_products_of cid d).
  assert (Hrows : StronglySorted (fun a b => product_leb a b = true) rows).
  { apply order_by_sorted.
    - intros a b. apply pair_leb_total.
    - intros a b c. apply pair_leb_trans. }
  destruct (group_products_from rows []) as [Ht _].
  - eapply StronglySorted_map_rel with (f := fun p => p) in Hrows.
    + rewrite map_id in Hrows. exact Hrows.
    + intros a b H. now apply pair_leb_fst in H.
  - constructor.
  - apply Forall_forall. intros p _. constructor.
  - exact Ht.
Qed.

Lemma select_products_of_In (cid : Z) (d : database P) (p : product_row P) :
  In p (select_products_of cid d) <-> In p (products d) /\ prod_category_id p = cid.
Proof.
  unfold select_products_of, products_of_category.
  assert (Hperm := order_by_perm product_leb
                     (filter (fun p0 => prod_category_id p0 =? cid) (products d))).
  split; intros H.
  - eapply Permutation_in in H; [| exact Hperm].
    apply filter_In in H. destruct H as [H1 H2]. apply Z.eqb_eq in H2. now split.
  - eapply Permutation_in; [apply Permutation_sym, Hperm |].
    apply filter_In. destruct H as [H1 H2]. split; [exact H1 | now apply Z.eqb_eq].
Qed.

Lemma order_by_In {A : Type} (leb : A -> A -> bool) (l : list A) (x : A) :
  In x (order_by leb l) <-> In x l.
Proof.
  split; intros H.
  - eapply Permutation_in; [apply order_by_perm | exact H].
  - eapply Permutation_in; [apply Permutation_sym, order_by_perm | exact H].
Qed.

(** The catalogue of a file in line with a seed shows the seed. *)
Lemma reconciled_catalog (seed : list (seed_category P)) (d : database P) :
  reconciled seed d ->
  exists catalog,
    get_catalog d = (Ok catalog, d)
    /\ Forall (shows_category catalog) seed
    /\ Forall (fun cc => mem_string (cc_slug cc) (map sc_slug seed)
                         || referenced d (cc_id cc) = true) catalog.
Proof.
  intros [_ [_ [Hcr Hall]]]. rewrite get_catalog_run. eexists. split; [reflexivity |].
  split.
  - eapply Forall_impl; [| exact Hall].
    intros sc [c [Hfind [Hn [Hd [Hi Hitems]]]]].
    pose proof (find_some _ _ Hfind) as [Hcin Hslug]. apply slug_is_true in Hslug.
    eexists. split.
    { apply in_map_iff. exists c. split; [reflexivity |]. now apply order_by_In. }
    cbn [cc_slug cc_name cc_description cc_imageUrl].
    repeat (split; [assumption |]).
    eapply Forall_impl; [| exact Hitems].
    intros it [p [Hpfind [Hc [Hpn [Hs [Hpd [Hu [Hpr Him]]]]]]]].
    pose proof (find_some _ _ Hpfind) as [Hpin _].
    exists (catalog_item_of p). split; [| cbn; repeat split; assumption].
    cbn [cc_subcategories].
    rewrite tagged_group_products. apply in_map_iff. exists p. split.
    + unfold tag_product. now rewrite Hs.
    + apply select_products_of_In. now split.
  - apply Forall_map. apply Forall_forall. intros c Hc. cbn.
    apply order_by_In in Hc. unfold canonical_or_referenced in Hcr.
    rewrite Forall_forall in Hcr. now apply Hcr.
Qed.

(** After [seed_data] the catalogue shows the seed.  For a seed catalogue
    with distinct slugs and distinct item names per category, on a file with
    unique category and product ids: [get_catalog] on the file [seed_data]
    leaves returns a catalogue in which each seed category appears with the
    seed's slug, name, description and image, and each of its items appears
    in that category under the item's subcategory with the item's name,
    description, unit, price and image; and every category the catalogue
    shows is a seed category or has a product that an order item
    references. *)
Theorem seed_data_then_get_catalog (seed : list (seed_category P)) (d : database P) :
  well_formed_seed seed ->
  NoDup (map cat_id (categories d)) ->
  NoDup (map prod_id (products d)) ->
  exists catalog,
    get_catalog (snd (seed_data seed d)) = (Ok catalog, snd (seed_data seed d))
    /\ Forall (shows_category catalog) seed
    /\ Forall (fun cc => mem_string (cc_slug cc) (map sc_slug seed)
                         || referenced (snd (seed_data seed d)) (cc_id cc) = true)
              catalog.
Proof.
  intros Hseed Hndc Hndp.
  destruct (seed_data_body_reconciles seed d Hseed Hndc Hndp) as [d' [Hrun Hrec]].
  rewrite Hrun. cbn [snd]. now apply reconciled_catalog.
Qed.

(** [get_catalog] reads the categories and the products and nothing
    else. *)
Lemma get_catalog_reads (d d' : database P) :
  categories d' = categories d -> products d' = products d ->
  fst (get_catalog d') = fst (get_catalog d).
Proof.
  intros Hc Hp. rewrite !get_catalog_run. cbn [fst]. rewrite Hc. f_equal.
  apply map_ext. intros c. f_equal.
  unfold select_products_of, products_of_category. now rewrite Hp.
Qed.

(** Placing an order never changes the catalogue: whatever the arguments
    of [create_order] and whether it returns or raises, [get_catalog] returns
    afterwards what it returned before. *)
Theorem create_order_keeps_catalog
    (timestamp customer_name email phone address : string) (items : list pyval)
    (d : database P) :
  fst (get_catalog
         (snd (create_order timestamp customer_name email phone address items d)))
  = fst (get_catalog d).
Proof.
  destruct (create_order timestamp customer_name email phone address items d)
    as [[order_id | e] d'] eqn:Hrun; cbn [snd].
  - destruct (create_order_inv _ _ _ _ _ _ _ _ _ Hrun) as [cart [_ [_ [_ ->]]]].
    unfold placed.
    destruct (with_items_frame (new_order_id d) cart
                (snd (write_order customer_name email phone address timestamp d)))
      as [Hc [Hp _]].
    apply get_catalog_reads; [rewrite Hc | rewrite Hp]; reflexivity.
  - unfold create_order in Hrun. destruct items as [| item rest].
    + now inversion Hrun.
    + apply db_cursor_raise in Hrun. now subst.
Qed.

(** *** The dictionary of [_get_products_by_ids] *)

Lemma dict_lookup_set {V : Type} (k k' : Z) (v : V) (m : list (Z * V)) :
  dict_lookup k (dict_set k' v m) = if k' =? k then Some v else dict_lookup k m.
Proof.
  induction m as [| [k0 v0] m IH]; simpl.
  - reflexivity.
  - destruct (Z.eqb_spec k0 k') as [E | E]; simpl.
    + subst k0. destruct (k' =? k); reflexivity.
    + rewrite IH. destruct (Z.eqb_spec k0 k) as [E0 | E0]; [| reflexivity].
      subst k0. destruct (Z.eqb_spec k' k); [congruence | reflexivity].
Qed.

Lemma dict_of_rows_lookup (rows : list (product_row P)) (acc : list (Z * product_row P))
    (k : Z) :
  NoDup (map prod_id rows) ->
  dict_lookup k (fold_left (fun m row => dict_set (prod_id row) row m) rows acc)
  = match find (fun p => prod_id p =? k) rows with
    | Some r => Some r
    | None => dict_lookup k acc
    end.
Proof.
  revert acc. induction rows as [| r rows IH]; intros acc Hnd; [reflexivity |].
  simpl in Hnd. inversion Hnd as [| ? ? Hr Hnd']; subst.
  cbn [fold_left find]. rewrite (IH _ Hnd'), dict_lookup_set.
  destruct (Z.eqb_spec (prod_id r) k) as [E | E]; [| reflexivity].
  destruct (find (fun p => prod_id p =? k) rows) as [r' |] eqn:Hfind; [| reflexivity].
  exfalso. apply find_some in Hfind. destruct Hfind as [Hin Hid].
  apply Z.eqb_eq in Hid. apply Hr. rewrite E, <- Hid. now apply in_map.
Qed.


Lemma find_filter_mem (ids : list Z) (ps : list (product_row P)) (k : Z) :
  find (fun p => prod_id p =? k) (filter (fun p => mem_Z (prod_id p) ids) ps)
  = if mem_Z k ids then find (fun p => prod_id p =? k) ps else None.
Proof.
  induction ps as [| a ps IH]; simpl.
  - now destruct (mem_Z k ids).
  - destruct (mem_Z (prod_id a) ids) eqn:Ha; simpl.
    + destruct (Z.eqb_spec (prod_id a) k) as [E | E]; [| exact IH].
      rewrite <- E, Ha. reflexivity.
    + rewrite IH. destruct (Z.eqb_spec (prod_id a) k) as [E | E]; [| reflexivity].
      rewrite <- E, Ha. reflexivity.
Qed.

(** The dictionary [_get_products_by_ids] returns, looked up.  The
    statement is compiled first: a text longer than the engine allows raises
    [sqlite3.DataError], and more ids than the engine allows parameters raise
    [sqlite3.OperationalError], whatever the ids are.  Within those limits,
    in a table with unique product ids: when every requested id fits SQLite's
    INTEGER the call returns a dictionary with no key twice in which a key is
    bound exactly when it was requested and a product has that id, and it is
    bound to that product; when some requested id does not fit, the call
    raises [OverflowError].  The database is not changed. *)
Theorem get_products_by_ids_lookup (product_ids : list Z) (d : database P) :
  NoDup (map prod_id (products d)) ->
  if max_sql_length <? utf8_size (select_products_sql product_ids)
  then _get_products_by_ids product_ids d
       = (Raise (DataError "query string is too large"), d)
  else if max_variable_number <? Z.of_nat (List.length product_ids)
  then _get_products_by_ids product_ids d
       = (Raise (OperationalError "too many SQL variables"), d)
  else if forallb in_int64 product_ids
  then exists m,
         _get_products_by_ids product_ids d = (Ok m, d)
         /\ NoDup (map fst m)
         /\ forall k, dict_lookup k m
                      = if mem_Z k product_ids then product_of d k else None
  else _get_products_by_ids product_ids d = (Raise OverflowError, d).
Proof.
  intros Hnd. unfold _get_products_by_ids, prepare, cbind, lift, query, ret.
  destruct (max_sql_length <? utf8_size (select_products_sql product_ids));
    [reflexivity |].
  destruct (max_variable_number <? Z.of_nat (List.length product_ids));
    [reflexivity |].
  destruct (forallb in_int64 product_ids) eqn:Hrange.
  - rewrite (bind_all_in_range _ Hrange).
    eexists. split; [reflexivity |]. split; [apply dict_of_rows_keys |].
    intros k. unfold dict_of_rows. rewrite dict_of_rows_lookup.
    + rewrite find_filter_mem. unfold product_of.
      destruct (mem_Z k product_ids); [| reflexivity].
      now destruct (find (fun p => prod_id p =? k) (products d)).
    + now apply NoDup_map_filter.
  - now rewrite (bind_some_out_of_range _ Hrange).
Qed.

End CatalogMore.

Lemma seed_data_then_get_catalog_witness :
  exists catalog,
    get_catalog (snd (seed_data catalog_seed shop))
      = (Ok catalog, snd (seed_data catalog_seed shop))
    /\ Forall (shows_category catalog) catalog_seed
    /\ Forall (fun cc => mem_string (cc_slug cc) (map sc_slug (catalog_seed (P := Q)))
                         || referenced (snd (seed_data catalog_seed shop)) (cc_id cc)
                         = true) catalog.
Proof.
  apply (seed_data_then_get_catalog catalog_seed shop).
  - exact catalog_seed_well_formed.
  - simpl. repeat constructor; simpl; intuition discriminate.
  - simpl. repeat constructor; simpl; intuition discriminate.
Defined.

(** Products 7 and 9 are found, 8 is not, and 10 was not asked for. *)
Lemma get_products_by_ids_lookup_witness :
  exists m,
    _get_products_by_ids [7; 8; 9] shop = (Ok m, shop)
    /\ NoDup (map fst m)
    /\ forall k, dict_lookup k m = if mem_Z k [7; 8; 9] then product_of shop k else None.
Proof.
  refine (get_products_by_ids_lookup [7; 8; 9] shop _).
  simpl. repeat constructor; simpl; intuition discriminate.
Defined.

(* ================================================================== *)
(** ** Orders and their items stay together                            *)
(* ================================================================== *)

Section IntegrityFacts.
Context {P : Type} {PA : PriceArith P} {Lim : Engine}.

Lemma order_exists_In (d : database P) (order_id : Z) :
  order_exists d order_id = true <-> In order_id (map ord_id (orders d)).
Proof.
  unfold order_exists. rewrite existsb_exists, in_map_iff. split.
  - intros [o [Hin Heq]]. apply Z.eqb_eq in Heq. now exists o.
  - intros [o [Heq Hin]]. exists o. split; [exact Hin | now apply Z.eqb_eq].
Qed.

Lemma map_ord_id_normalize (l : list order_row) :
  map ord_id (map normalize_status l) = map ord_id l.
Proof.
  rewrite map_map. apply map_ext. intros o. unfold normalize_status.
  now destruct (String.eqb (ord_status o) "pending_verification").
Qed.

Lemma verify_order_reads_only (order_id : Z) (code : string) (d : database P) :
  snd (verify_order order_id code d) = d.
Proof.
  unfold verify_order. pose proof (get_order_summary_reads_only order_id d) as H.
  destruct (get_order_summary order_id d) as [[[s |] | e] d']; exact H.
Qed.

Lemma integrity_init_db (d : database P) : integrity d -> integrity (snd (init_db d)).
Proof.
  intros [Hnd [Hitems Horders]]. rewrite init_db_run. cbn [snd].
  unfold integrity, order_exists, known_product.
  cbn [orders order_items products set_orders].
  split; [now rewrite map_ord_id_normalize |]. split.
  - eapply Forall_impl; [| exact Hitems]. intros oi [Ho H]. split; [| exact H].
    apply order_exists_In in Ho.
    apply existsb_exists. rewrite <- map_ord_id_normalize in Ho.
    apply in_map_iff in Ho. destruct Ho as [o [Heq Hin]].
    exists o. split; [exact Hin | now apply Z.eqb_eq].
  - apply Forall_map. eapply Forall_impl; [| exact Horders]. intros o Ho.
    replace (ord_id (normalize_status o)) with (ord_id o); [exact Ho |].
    unfold normalize_status.
    now destruct (String.eqb (ord_status o) "pending_verification").
Qed.

Lemma integrity_seed_data (seed : list (seed_category P)) (d : database P) :
  integrity d -> integrity (snd (seed_data seed d)).
Proof.
  intros [Hnd [Hitems Horders]].
  pose proof (seed_data_same_orders seed d) as Ho.
  pose proof (seed_data_keeps_referenced seed d) as [Hoi [Hprod _]].
  unfold integrity, order_exists. rewrite Ho, Hoi.
  split; [exact Hnd |]. split; [| exact Horders].
  apply Forall_forall. intros oi Hin. rewrite Forall_forall in Hitems.
  destruct (Hitems oi Hin) as [H1 [H2 H3]]. split; [exact H1 |]. split; [| exact H3].
  apply known_product_In, in_map_iff in H2. destruct H2 as [p [Hid Hp]].
  destruct (Hprod oi p Hin Hp Hid) as [p' [Hp' [Hid' _]]].
  apply known_product_In, in_map_iff. exists p'. split; [congruence | exact Hp'].
Qed.

Lemma integrity_create_order
    (timestamp customer_name email phone address : string) (items : list pyval)
    (d : database P) :
  integrity d ->
  integrity (snd (create_order timestamp customer_name email phone address items d)).
Proof.
  intros Hint.
  destruct (create_order timestamp customer_name email phone address items d)
    as [[order_id | e] d'] eqn:Hrun; cbn [snd].
  2:{ unfold create_order in Hrun. destruct items as [| item rest].
      - inversion Hrun. now subst.
      - apply db_cursor_raise in Hrun. now subst. }
  destruct Hint as [Hnd [Hitems Horders]].
  destruct (create_order_inv _ _ _ _ _ _ _ _ _ Hrun)
    as [cart [Hco [[Hne [_ Hall]] [-> ->]]]].
  pose proof (placed_orders timestamp customer_name email phone address cart d) as Ho.
  unfold placed in *.
  set (d1 := snd (write_order customer_name email phone address timestamp d)) in *.
  destruct (with_items_frame (new_order_id d) cart d1) as [_ [Hp [_ [rows [Hr Hk]]]]].
  assert (Hp1 : products d1 = products d) by reflexivity.
  assert (Hi1 : order_items d1 = order_items d) by reflexivity.
  rewrite Hp1 in Hp. rewrite Hi1 in Hr.
  apply line_keys_rows in Hk.
  unfold integrity, order_exists, known_product. rewrite Ho, Hr, Hp.
  split; [| split].
  - rewrite map_app. cbn [map received_order ord_id].
    apply NoDup_app; [exact Hnd | repeat constructor; intros [] |].
    intros x Hx [Hx' | []]. subst x.
    pose proof (next_rowid_fresh (seq_orders d) (map ord_id (orders d)) _ Hx) as Hlt.
    unfold new_order_id in Hlt. lia.
  - apply Forall_app. split.
    + eapply Forall_impl; [| exact Hitems]. intros oi [H1 H2]. split; [| exact H2].
      rewrite existsb_app. unfold order_exists in H1. rewrite H1. reflexivity.
    + clear -Hk Hall. induction Hk as [| r l rows cart [Ho [Hp Hq]] _ IH];
        constructor.
      * inversion Hall as [| ? ? [H1 [_ [H3 _]]] _]; subst.
        rewrite Ho, Hp, Hq. split; [| split; assumption].
        rewrite existsb_app. cbn. rewrite Z.eqb_refl. apply orb_true_r.
      * apply IH. now inversion Hall.
  - apply Forall_app. split.
    + eapply Forall_impl; [| exact Horders]. intros o H.
      rewrite existsb_app, H. reflexivity.
    + constructor; [| constructor]. cbn [received_order ord_id].
      rewrite existsb_app. apply orb_true_iff. right.
      destruct Hk as [| r l rows cart [Hid _] _]; [contradiction |].
      cbn. rewrite Hid, Z.eqb_refl. reflexivity.
Qed.

(** The store keeps orders and their items together.  Whatever the call
    ([init_db], [seed_data] on any seed, [create_order], [get_catalog],
    [get_order_summary], [verify_order]), whatever its arguments and whether
    it returns or raises: if before the call no order id occurs twice, every
    order item belongs to an order of the table, references a product of the
    table and has a positive quantity, and every order has at least one item,
    then the same holds after the call. *)
Theorem store_keeps_integrity (seed : list (seed_category P)) (d d' : database P) :
  store_step seed d d' -> integrity d -> integrity d'.
Proof.
  intros Hstep Hint.
  destruct Hstep as [d | d | d timestamp customer_name email phone address items
                     | d | d order_id | d order_id code].
  - now apply integrity_init_db.
  - now apply integrity_seed_data.
  - now apply integrity_create_order.
  - now rewrite get_catalog_reads_only.
  - now rewrite get_order_summary_reads_only.
  - now rewrite verify_order_reads_only.
Qed.

End IntegrityFacts.

Lemma shop_integrity : integrity shop.
Proof.
  split; [| split].
  - simpl. repeat constructor; simpl; intuition discriminate.
  - repeat constructor.
  - repeat constructor.
Defined.

(** Nour's order on the seeded shop. *)
Lemma store_keeps_integrity_witness :
  integrity (snd (order_of_nour (cart_items [(7, 2); (9, 1)])
                    (snd (seed_data catalog_seed shop)))).
Proof.
  apply (store_keeps_integrity catalog_seed (snd (seed_data catalog_seed shop))).
  - apply step_create_order.
  - apply (store_keeps_integrity catalog_seed shop).
    + apply step_seed_data.
    + exact shop_integrity.
Defined.

(* ================================================================== *)
(** ** The order endpoint on a valid request                           *)
(* ================================================================== *)

Section EndpointSuccess.
Context {P : Type} {PA : PriceArith P} {Lim : Engine}.
Variable header_value : string -> string -> string.
Variable repr_of : pyval -> string.



End EndpointSuccess.

